(** * Digilearn-BE: the polymorphic single-link association of news and posts

    A shallow embedding of the route handlers of [routes/news.js] and of
    the posts router, over a relational store that follows the schema of
    [db.js]: tables are lists of rows, every SQL statement of the handlers
    is a function on the store that enforces what the schema declares (the
    columns of [users], primary keys, foreign keys with their cascade,
    CHECK, the types of the columns, the sequences of the SERIAL keys), and
    the handlers are written in a small state-and-exception monad in the
    order of their source statements.

    A text value is the UTF-8 encoding that the driver sends, in a database
    of that encoding. A parameter is converted to the type of its column
    when its statement is bound, before the statement runs: text must be
    well-formed, a [VARCHAR(n)] takes [n] characters and cuts a longer value
    that ends in spaces, an INTEGER is read by the integer input of the
    server, which is a parameter of the model ([PgInput]) with the input of
    PostgreSQL 16 as the instance for running it.

    Requests are handled one after the other. Every awaited call to the
    store or to the blob service may fail: the failures of a run are a
    schedule carried by the state, so a statement about all states is a
    statement about all patterns of I/O failure.

    The read routes of the news router and the classes router of the same
    file follow the mutation handlers; the classes router has a store and a
    monad of its own, over the tables a class owns.

    The table [users] is the one [db.js] creates. It has no column
    [profile_image], which the posts router reads after the COMMIT of a
    create and of an update: on this schema both handlers commit and then
    answer 500.

    What is not modelled: timestamps (the order of a listing is a parameter
    of its handler), the comments and the read routes of the posts router,
    the folder, module and user routers, and the middleware in front of the
    handlers ([authenticate], [authorize], [multer]), whose code is not part
    of the source tree; a handler starts from [req.user], [req.params],
    [req.body] and [req.file], and body fields are the strings of a
    multipart form. *)

From Stdlib Require Import ZArith List String Ascii Bool Lia.
From Stdlib Require Import Permutation.
Import ListNotations.

Local Open Scope string_scope.
Local Open Scope Z_scope.

(** ** JavaScript values of the request *)

(** A text field of [req.body]: [None] is [undefined]. *)
Definition field := option string.

(** JavaScript truthiness of a text field: [undefined] and the empty
    string are falsy, every other string is truthy. *)
Definition truthy (v : field) : bool :=
  match v with
  | Some s => negb (String.eqb s "")
  | None => false
  end.

(** The text of a field that has been tested truthy. *)
Definition text (v : field) : string :=
  match v with
  | Some s => s
  | None => ""
  end.

(** [Array.prototype.includes] on an array of strings. *)
Definition includes (l : list string) (s : string) : bool :=
  existsb (String.eqb s) l.

(** The literal [['class', 'module', 'assignment']] of every handler. *)
Definition entity_kinds : list string := ["class"; "module"; "assignment"].

(** [s.charAt(0).toUpperCase() + s.slice(1)] on ASCII text. *)
Definition toUpperCase (c : ascii) : ascii :=
  let n := nat_of_ascii c in
  if ((97 <=? n) && (n <=? 122))%nat then ascii_of_nat (n - 32) else c.

Definition capitalize (s : string) : string :=
  match s with
  | EmptyString => EmptyString
  | String c rest => String (toUpperCase c) rest
  end.

(** [req.user], as the authentication middleware leaves it. *)
Record ReqUser := { user_id : Z; user_role : string }.

(** [req.file] after the upload middleware; [cloud_url] is the URL the
    blob store answers for it. *)
Record UploadedFile := { cloud_url : string }.

(** ** The relational store ([db.js]) *)

Record UserRow := { usr_id : Z; usr_username : string }.

(** A row of [classes], [modules] or [assignments]. *)
Record Entity := { ent_id : Z; ent_title : string }.

Record NewsRow := {
  news_id : Z;
  news_title : string;
  news_content : string;
  news_image_url : option string;
  news_created_by : Z
}.

Record PostRow := {
  post_id : Z;
  post_user_id : Z;
  post_content : string;
  post_image_url : option string
}.

(** A row of [news_entities] or [posts_entities]; [link_owner] is the
    column [news_id], respectively [posts_id]. *)
Record LinkRow := {
  link_owner : Z;
  entity_type : string;
  entity_id : Z
}.

Record DB := {
  users : list UserRow;
  classes : list Entity;
  modules : list Entity;
  assignments : list Entity;
  news : list NewsRow;
  news_entities : list LinkRow;
  posts : list PostRow;
  posts_entities : list LinkRow
}.

Definition set_news (l : list NewsRow) (d : DB) : DB :=
  {| users := users d; classes := classes d; modules := modules d;
     assignments := assignments d; news := l;
     news_entities := news_entities d; posts := posts d;
     posts_entities := posts_entities d |}.

Definition set_news_entities (l : list LinkRow) (d : DB) : DB :=
  {| users := users d; classes := classes d; modules := modules d;
     assignments := assignments d; news := news d;
     news_entities := l; posts := posts d;
     posts_entities := posts_entities d |}.

Definition set_posts (l : list PostRow) (d : DB) : DB :=
  {| users := users d; classes := classes d; modules := modules d;
     assignments := assignments d; news := news d;
     news_entities := news_entities d; posts := l;
     posts_entities := posts_entities d |}.

Definition set_posts_entities (l : list LinkRow) (d : DB) : DB :=
  {| users := users d; classes := classes d; modules := modules d;
     assignments := assignments d; news := news d;
     news_entities := news_entities d; posts := posts d;
     posts_entities := l |}.

(** The store right after [initializeDatabase] on an empty database. *)
Definition empty_db : DB :=
  {| users := []; classes := []; modules := []; assignments := [];
     news := []; news_entities := []; posts := []; posts_entities := [] |}.

(** The conversion of a text parameter to an INTEGER column, done by the
    database server: [None] is its error, for text that is no integer or
    for an integer outside the four bytes of the type. *)
Class PgInput := {
  int4in : string -> option Z;
  int4in_range : forall s z, int4in s = Some z -> -2147483648 <= z <= 2147483647
}.

(** A statement run on the store: [None] is an SQL error, otherwise the
    result and the store after it. *)
Definition Sql (R : Type) := DB -> option (R * DB).

(** *** Text values

    A string of the model is the UTF-8 encoding of the JavaScript string:
    the form in which the driver sends a text parameter to the server. *)

(** A continuation byte, [10xxxxxx]. *)
Definition continuation (c : ascii) : bool :=
  let n := nat_of_ascii c in ((128 <=? n) && (n <=? 191))%nat.

(** The second byte of a character that starts with the byte [lead]. *)
Definition second_byte (lead c : ascii) : bool :=
  let a := nat_of_ascii lead in
  let n := nat_of_ascii c in
  (if a =? 224 then (160 <=? n) && (n <=? 191)
   else if a =? 237 then (128 <=? n) && (n <=? 159)
   else if a =? 240 then (144 <=? n) && (n <=? 191)
   else if a =? 244 then (128 <=? n) && (n <=? 143)
   else continuation c)%nat.

(** The characters of a text parameter, as the server reads them on
    arrival: [None] is its error "invalid byte sequence for encoding", for
    a byte sequence that is not well-formed and for the character of code
    zero, which no text value may hold. *)
Fixpoint utf8_chars (s : string) : option (list string) :=
  match s with
  | EmptyString => Some []
  | String a r =>
      let n := nat_of_ascii a in
      if (n =? 0)%nat then None
      else if (n <? 128)%nat
      then option_map (cons (String a "")) (utf8_chars r)
      else if (n <? 194)%nat then None
      else if (n <? 224)%nat then
        match r with
        | String b r1 =>
            if second_byte a b
            then option_map (cons (String a (String b ""))) (utf8_chars r1)
            else None
        | _ => None
        end
      else if (n <? 240)%nat then
        match r with
        | String b (String c r2) =>
            if second_byte a b && continuation c
            then option_map (cons (String a (String b (String c ""))))
                            (utf8_chars r2)
            else None
        | _ => None
        end
      else if (n <? 245)%nat then
        match r with
        | String b (String c (String d r3)) =>
            if second_byte a b && continuation c && continuation d
            then option_map (cons (String a (String b (String c (String d "")))))
                            (utf8_chars r3)
            else None
        | _ => None
        end
      else None
  end.

(** A character of well-formed text: not empty, and read off the head of
    any text it starts. *)
Definition is_char (c : string) : Prop :=
  c <> "" /\ forall r, utf8_chars (c ++ r) = option_map (cons c) (utf8_chars r).

(** The text made of a list of characters. *)
Definition text_of (cs : list string) : string := fold_right append "" cs.

(** A parameter of a TEXT column: stored as it is. *)
Definition text_in (s : string) : option string :=
  match utf8_chars s with
  | Some _ => Some s
  | None => None
  end.

Definition text_opt (s : option string) : option (option string) :=
  match s with
  | Some v => option_map Some (text_in v)
  | None => Some None
  end.

(** A parameter of a [VARCHAR(n)] column: the value the column stores, or
    [None] for the error "value too long". The limit counts characters; a
    longer value is cut to [n] characters when all it loses is spaces. *)
Definition varchar (n : nat) (s : string) : option string :=
  match utf8_chars s with
  | Some cs =>
      if (List.length cs <=? n)%nat then Some s
      else if forallb (String.eqb " ") (skipn n cs) then Some (text_of (firstn n cs))
      else None
  | None => None
  end.

Definition varchar_opt (n : nat) (s : option string) : option (option string) :=
  match s with
  | Some v => option_map Some (varchar n v)
  | None => Some None
  end.

#[global] Arguments text_in : simpl never.
#[global] Arguments varchar : simpl never.

(** [CHECK (entity_type IN ('class', 'module', 'assignment'))]. *)
Definition entity_type_check (t : string) : bool :=
  includes ["class"; "module"; "assignment"] t.

(** *** Statements on a link table, as list functions *)

Definition links_of (owner : Z) (tbl : list LinkRow) : list LinkRow :=
  filter (fun r => link_owner r =? owner) tbl.

(** [INSERT INTO <links> (owner, entity_type, entity_id)] of a row whose
    values have the types of their columns: the foreign key to the owner
    table, the primary key on the owner column and the CHECK on the kind
    are enforced. *)
Definition link_insert (owners : list Z) (r : LinkRow) (tbl : list LinkRow)
  : option (list LinkRow) :=
  if existsb (fun o => o =? link_owner r) owners
     && negb (existsb (fun x => link_owner x =? link_owner r) tbl)
     && entity_type_check (entity_type r)
  then Some (tbl ++ [r])%list else None.

(** [UPDATE <links> SET entity_type = t, entity_id = e WHERE owner = o]:
    the CHECK applies to every row that is rewritten. *)
Definition link_update (o : Z) (t : string) (e : Z) (tbl : list LinkRow)
  : option (list LinkRow) :=
  if negb (existsb (fun x => link_owner x =? o) tbl) || entity_type_check t
  then Some (map (fun x => if link_owner x =? o
                           then {| link_owner := o; entity_type := t; entity_id := e |}
                           else x) tbl)
  else None.

(** [DELETE FROM <links> WHERE owner = o], also the ON DELETE CASCADE. *)
Definition link_delete (o : Z) (tbl : list LinkRow) : list LinkRow :=
  filter (fun x => negb (link_owner x =? o)) tbl.

(** A parameter bound to an INTEGER placeholder: a JavaScript number
    (an id read back from the store, [req.user.id]) or a string (a route
    parameter, a body field). *)
Inductive Param :=
| PNum (z : Z)
| PText (s : string).

Section Statements.
Context {pg : PgInput}.

Definition int4 (p : Param) : option Z :=
  match p with
  | PNum z => Some z
  | PText s => int4in s
  end.

(** *** Statements of the handlers *)

(** [SELECT id FROM classes WHERE id = $1] (and modules, assignments). *)
Definition select_entity (tbl : DB -> list Entity) (id : Param) : Sql (list Entity) :=
  fun d =>
    match int4 id with
    | Some i => Some (filter (fun e => ent_id e =? i) (tbl d), d)
    | None => None
    end.

(** [SELECT username FROM users WHERE id = $1]. *)
Definition select_user (id : Param) : Sql (list UserRow) :=
  fun d =>
    match int4 id with
    | Some i => Some (filter (fun u => usr_id u =? i) (users d), d)
    | None => None
    end.

(** The columns of [users] in [db.js]. *)
Definition users_columns : list string :=
  ["id"; "username"; "email"; "password"; "role"; "created_at"; "updated_at"].

(** A statement that names the columns [cols] of [users]: a column the
    table does not have is an error of the statement, whatever its
    parameters and whatever the rows. *)
Definition reading_users {R} (cols : list string) (q : Sql R) : Sql R :=
  fun d => if forallb (includes users_columns) cols then q d else None.

(** [SELECT username, profile_image FROM users WHERE id = $1], the read
    of the posts router after its COMMIT. *)
Definition select_user_profile (id : Param) : Sql (list UserRow) :=
  reading_users ["username"; "profile_image"] (select_user id).

(** [SELECT * FROM news WHERE id = $1]. *)
Definition select_news (id : Param) : Sql (list NewsRow) :=
  fun d =>
    match int4 id with
    | Some i => Some (filter (fun n => news_id n =? i) (news d), d)
    | None => None
    end.

(** The joined read at the end of the news update: [SELECT n.*,
    u.username as author, ... FROM news n JOIN users u ON n.created_by =
    u.id ... WHERE n.id = $1]; the left joins add columns and no rows, since
    a news item has at most one link row. *)
Definition select_news_complete (id : Param) : Sql (list NewsRow) :=
  reading_users ["username"]
    (fun d =>
       match int4 id with
       | Some i =>
           Some (filter (fun n => (news_id n =? i)
                                  && existsb (fun u => usr_id u =? news_created_by n)
                                             (users d))
                        (news d), d)
       | None => None
       end).

(** [INSERT INTO news (title, content, image_url, created_by) VALUES ($1,
    $2, $3, $4) RETURNING *]. The parameters are converted to the types of
    their columns when the statement is bound: [None] is the error of a
    value that a column does not take, raised before the statement runs.
    The bound statement runs with the key [id] it has drawn from the
    sequence of the SERIAL column, and enforces the foreign key to [users]
    and the primary key. *)
Definition insert_news (title content : string) (image : option string)
  (created_by : Z) : option (Z -> Sql NewsRow) :=
  match varchar 100 title, text_in content, varchar_opt 255 image with
  | Some t, Some c, Some img =>
      Some (fun id d =>
              let r := {| news_id := id; news_title := t; news_content := c;
                          news_image_url := img; news_created_by := created_by |} in
              if existsb (fun u => usr_id u =? created_by) (users d)
                 && negb (existsb (fun n => news_id n =? id) (news d))
              then Some (r, set_news (news d ++ [r])%list d) else None)
  | _, _, _ => None
  end.

(** [UPDATE news SET title = $1, content = $2, image_url = $3, ... WHERE id =
    $4]: the parameters are converted whether or not a row has the key. *)
Definition update_news (title content : string) (image : option string) (id : Param)
  : Sql unit :=
  fun d =>
    match varchar 100 title, text_in content, varchar_opt 255 image, int4 id with
    | Some t, Some c, Some img, Some i =>
        Some (tt, set_news
                    (map (fun n => if news_id n =? i
                                   then {| news_id := news_id n; news_title := t;
                                           news_content := c;
                                           news_image_url := img;
                                           news_created_by := news_created_by n |}
                                   else n) (news d)) d)
    | _, _, _, _ => None
    end.

(** [DELETE FROM news WHERE id = $1]; [news_entities.news_id] REFERENCES
    [news(id)] ON DELETE CASCADE. *)
Definition delete_news (id : Param) : Sql unit :=
  fun d =>
    match int4 id with
    | Some i =>
        Some (tt, set_news_entities (link_delete i (news_entities d))
                    (set_news (filter (fun n => negb (news_id n =? i)) (news d)) d))
    | None => None
    end.

(** [SELECT * FROM news_entities WHERE news_id = $1]. *)
Definition select_news_entities (id : Param) : Sql (list LinkRow) :=
  fun d =>
    match int4 id with
    | Some i => Some (links_of i (news_entities d), d)
    | None => None
    end.

(** [INSERT INTO news_entities (news_id, entity_type, entity_id) VALUES ($1, $2, $3)]. *)
Definition insert_news_entities (id : Param) (t : string) (e : Param) : Sql unit :=
  fun d =>
    match int4 id, varchar 20 t, int4 e with
    | Some i, Some k, Some ei =>
        match link_insert (map news_id (news d))
                {| link_owner := i; entity_type := k; entity_id := ei |}
                (news_entities d) with
        | Some tbl => Some (tt, set_news_entities tbl d)
        | None => None
        end
    | _, _, _ => None
    end.

(** [UPDATE news_entities SET entity_type = $1, entity_id = $2 WHERE news_id = $3]. *)
Definition update_news_entities (t : string) (e : Param) (id : Param) : Sql unit :=
  fun d =>
    match varchar 20 t, int4 e, int4 id with
    | Some k, Some ei, Some i =>
        match link_update i k ei (news_entities d) with
        | Some tbl => Some (tt, set_news_entities tbl d)
        | None => None
        end
    | _, _, _ => None
    end.

(** [DELETE FROM news_entities WHERE news_id = $1]. *)
Definition delete_news_entities (id : Param) : Sql unit :=
  fun d =>
    match int4 id with
    | Some i => Some (tt, set_news_entities (link_delete i (news_entities d)) d)
    | None => None
    end.

(** [SELECT * FROM posts WHERE id = $1]. *)
Definition select_posts (id : Param) : Sql (list PostRow) :=
  fun d =>
    match int4 id with
    | Some i => Some (filter (fun p => post_id p =? i) (posts d), d)
    | None => None
    end.

(** The joined read at the end of the post update: [SELECT p.*,
    u.username, u.profile_image, ... FROM posts p JOIN users u ON p.user_id =
    u.id ... WHERE p.id = $1]. *)
Definition select_posts_complete (id : Param) : Sql (list PostRow) :=
  reading_users ["username"; "profile_image"]
    (fun d =>
       match int4 id with
       | Some i =>
           Some (filter (fun p => (post_id p =? i)
                                  && existsb (fun u => usr_id u =? post_user_id p)
                                             (users d))
                        (posts d), d)
       | None => None
       end).

(** [INSERT INTO posts (user_id, content, image_url) VALUES ($1, $2, $3)
    RETURNING *], bound and run as [insert_news] is. *)
Definition insert_posts (user : Z) (content : string) (image : option string)
  : option (Z -> Sql PostRow) :=
  match text_in content, varchar_opt 255 image with
  | Some c, Some img =>
      Some (fun id d =>
              let r := {| post_id := id; post_user_id := user; post_content := c;
                          post_image_url := img |} in
              if existsb (fun u => usr_id u =? user) (users d)
                 && negb (existsb (fun p => post_id p =? id) (posts d))
              then Some (r, set_posts (posts d ++ [r])%list d) else None)
  | _, _ => None
  end.

(** [UPDATE posts SET content = $1, image_url = $2, ... WHERE id = $3]. *)
Definition update_posts (content : string) (image : option string) (id : Param)
  : Sql unit :=
  fun d =>
    match text_in content, varchar_opt 255 image, int4 id with
    | Some c, Some img, Some i =>
        Some (tt, set_posts
                    (map (fun p => if post_id p =? i
                                   then {| post_id := post_id p;
                                           post_user_id := post_user_id p;
                                           post_content := c;
                                           post_image_url := img |}
                                   else p) (posts d)) d)
    | _, _, _ => None
    end.

(** [DELETE FROM posts WHERE id = $1]; [posts_entities.posts_id] REFERENCES
    [posts(id)] ON DELETE CASCADE. *)
Definition delete_posts (id : Param) : Sql unit :=
  fun d =>
    match int4 id with
    | Some i =>
        Some (tt, set_posts_entities (link_delete i (posts_entities d))
                    (set_posts (filter (fun p => negb (post_id p =? i)) (posts d)) d))
    | None => None
    end.

Definition select_posts_entities (id : Param) : Sql (list LinkRow) :=
  fun d =>
    match int4 id with
    | Some i => Some (links_of i (posts_entities d), d)
    | None => None
    end.

Definition insert_posts_entities (id : Param) (t : string) (e : Param) : Sql unit :=
  fun d =>
    match int4 id, varchar 20 t, int4 e with
    | Some i, Some k, Some ei =>
        match link_insert (map post_id (posts d))
                {| link_owner := i; entity_type := k; entity_id := ei |}
                (posts_entities d) with
        | Some tbl => Some (tt, set_posts_entities tbl d)
        | None => None
        end
    | _, _, _ => None
    end.

Definition update_posts_entities (t : string) (e : Param) (id : Param) : Sql unit :=
  fun d =>
    match varchar 20 t, int4 e, int4 id with
    | Some k, Some ei, Some i =>
        match link_update i k ei (posts_entities d) with
        | Some tbl => Some (tt, set_posts_entities tbl d)
        | None => None
        end
    | _, _, _ => None
    end.

Definition delete_posts_entities (id : Param) : Sql unit :=
  fun d =>
    match int4 id with
    | Some i => Some (tt, set_posts_entities (link_delete i (posts_entities d)) d)
    | None => None
    end.

End Statements.

(** ** The server state and the handler monad *)

(** [committed] is the store every connection sees; [txn] is the working
    copy of the transaction open on the checked-out client, if any;
    sequences live outside transactions; [faults] schedules the I/O
    failures of the run: each awaited call to the store or the blob service
    takes the head, and throws when it is [true]; an exhausted schedule
    means no further failure. *)
Record World := {
  committed : DB;
  txn : option DB;
  news_id_seq : Z;
  posts_id_seq : Z;
  faults : list bool
}.

Definition set_committed (d : DB) (w : World) : World :=
  {| committed := d; txn := txn w; news_id_seq := news_id_seq w;
     posts_id_seq := posts_id_seq w; faults := faults w |}.

Definition set_txn (t : option DB) (w : World) : World :=
  {| committed := committed w; txn := t; news_id_seq := news_id_seq w;
     posts_id_seq := posts_id_seq w; faults := faults w |}.

Definition set_faults (f : list bool) (w : World) : World :=
  {| committed := committed w; txn := txn w; news_id_seq := news_id_seq w;
     posts_id_seq := posts_id_seq w; faults := f |}.

(** The result of a computation: a value, or a thrown exception. *)
Inductive Outcome (A : Type) :=
| Val (a : A)
| Exc.
Arguments Val {A} a.
Arguments Exc {A}.

Definition M (A : Type) := World -> Outcome A * World.

Definition ret {A} (a : A) : M A := fun w => (Val a, w).

Definition throw {A} : M A := fun w => (Exc, w).

Definition bind {A B} (m : M A) (f : A -> M B) : M B :=
  fun w =>
    match m w with
    | (Val a, w') => f a w'
    | (Exc, w') => (Exc, w')
    end.

(** [try { m } catch (error) { h }]. *)
Definition try_catch {A} (m h : M A) : M A :=
  fun w =>
    match m w with
    | (Val a, w') => (Val a, w')
    | (Exc, w') => h w'
    end.

(** [try { m } finally { f }]. *)
Definition finally {A} (m : M A) (f : M unit) : M A :=
  fun w =>
    match m w with
    | (o, w') =>
        match f w' with
        | (Val _, w'') => (o, w'')
        | (Exc, w'') => (Exc, w'')
        end
    end.

Declare Scope handler_scope.
Delimit Scope handler_scope with handler.
Notation "x <- m ;; k" := (bind m (fun x => k))
  (at level 100, m at next level, right associativity) : handler_scope.
Notation "m ;; k" := (bind m (fun _ => k))
  (at level 100, right associativity) : handler_scope.
Local Open Scope handler_scope.

(** An awaited call: consumes the next entry of the fault schedule. *)
Definition await_io : M unit :=
  fun w =>
    let w' := set_faults (tl (faults w)) w in
    if hd false (faults w) then (Exc, w') else (Val tt, w').

(** A statement in autocommit mode. *)
Definition run_committed {R} (q : Sql R) : M R :=
  fun w =>
    match q (committed w) with
    | Some (r, d) => (Val r, set_committed d w)
    | None => (Exc, w)
    end.

(** A statement on the checked-out client: inside its transaction when one
    is open. *)
Definition run_client {R} (q : Sql R) : M R :=
  fun w =>
    match txn w with
    | Some t =>
        match q t with
        | Some (r, d) => (Val r, set_txn (Some d) w)
        | None => (Exc, w)
        end
    | None => run_committed q w
    end.

(** [await db.query(...)]. *)
Definition db_query {R} (q : Sql R) : M R := await_io ;; run_committed q.

(** [await db.pool.connect()]. *)
Definition pool_connect : M unit := await_io ;; fun w => (Val tt, set_txn None w).

(** [await client.query(...)]. *)
Definition client_query {R} (q : Sql R) : M R := await_io ;; run_client q.

(** [await client.query('BEGIN')]. *)
Definition client_begin : M unit :=
  await_io ;;
  fun w =>
    match txn w with
    | Some _ => (Val tt, w)
    | None => (Val tt, set_txn (Some (committed w)) w)
    end.

(** [await client.query('COMMIT')]. *)
Definition client_commit : M unit :=
  await_io ;;
  fun w =>
    match txn w with
    | Some t => (Val tt, set_txn None (set_committed t w))
    | None => (Val tt, w)
    end.

(** [await client.query('ROLLBACK')]. *)
Definition client_rollback : M unit :=
  await_io ;; fun w => (Val tt, set_txn None w).

(** [client.release()]: the work of a transaction that is still open is
    never committed. *)
Definition client_release : M unit := fun w => (Val tt, set_txn None w).

(** The default of a SERIAL column, [nextval] of its sequence: the
    sequence is of type INTEGER and raises once it has passed the largest
    value of the type; a value that is drawn stays drawn, whether or not
    the statement then succeeds and whether or not its transaction
    commits. *)
Definition nextval_news : M Z :=
  fun w =>
    if news_id_seq w <=? 2147483647
    then (Val (news_id_seq w),
          {| committed := committed w; txn := txn w;
             news_id_seq := news_id_seq w + 1;
             posts_id_seq := posts_id_seq w; faults := faults w |})
    else (Exc, w).

Definition nextval_posts : M Z :=
  fun w =>
    if posts_id_seq w <=? 2147483647
    then (Val (posts_id_seq w),
          {| committed := committed w; txn := txn w;
             news_id_seq := news_id_seq w;
             posts_id_seq := posts_id_seq w + 1; faults := faults w |})
    else (Exc, w).

(** [await client.query(...)] of an INSERT whose SERIAL key the statement
    draws from [seq]: a statement that cannot be bound raises before it
    draws a key. *)
Definition client_query_serial {R} (seq : M Z) (q : option (Z -> Sql R)) : M R :=
  await_io ;;
  match q with
  | Some run => id <- seq ;; run_client (run id)
  | None => throw
  end.

(** [await uploadFile(file, folder)], then [uploadResult.url]. *)
Definition uploadFile (f : UploadedFile) : M string := await_io ;; ret (cloud_url f).

(** ** Responses *)

Inductive Body :=
| Message (m : string)
| NewsJson (n : option NewsRow)
| PostJson (p : option PostRow).

Record Response := { status : Z; body : Body }.

(** [res.status(code).json({ message })]. *)
Definition message (code : Z) (m : string) : M Response :=
  ret {| status := code; body := Message m |}.

(** [rows.length > 0]. *)
Definition nonempty {A} (rows : list A) : bool :=
  match rows with
  | [] => false
  | _ :: _ => true
  end.

(** ** The handlers *)

(** [req.body] of the news routes. *)
Record NewsBody := {
  title : field;
  content : field;
  linkedType : field;
  linkedId : field
}.

(** [req.body] of the posts routes. *)
Record PostBody := {
  body_content : field;
  entityType : field;
  entityId : field
}.

Section Handlers.
Context {pg : PgInput}.

(** The [switch] that looks the target up in the table of its kind; it is
    the same in every handler. With no matching [case] no query is made
    and [entityExists] keeps its initial [false]. *)
Definition entity_exists (kind id : string) : M bool :=
  if String.eqb kind "class" then
    classCheck <- db_query (select_entity classes (PText id)) ;;
    ret (nonempty classCheck)
  else if String.eqb kind "module" then
    moduleCheck <- db_query (select_entity modules (PText id)) ;;
    ret (nonempty moduleCheck)
  else if String.eqb kind "assignment" then
    assignmentCheck <- db_query (select_entity assignments (PText id)) ;;
    ret (nonempty assignmentCheck)
  else ret false.

(** The [switch] after COMMIT that reads the title of the target. *)
Definition entity_details (kind id : string) : M unit :=
  if String.eqb kind "class" then
    db_query (select_entity classes (PText id)) ;; ret tt
  else if String.eqb kind "module" then
    db_query (select_entity modules (PText id)) ;; ret tt
  else if String.eqb kind "assignment" then
    db_query (select_entity assignments (PText id)) ;; ret tt
  else ret tt.

(** *** routes/news.js

    Each mutation route is registered as [authenticate, authorize(['aslab']),
    handler]; the definitions below are the handlers. *)

(** The handler of [router.post('/:id/link/:entityType/:entityId', ...)]. *)
Definition news_link (user : ReqUser) (id kind entity : string) : M Response :=
  try_catch
    (newsCheck <- db_query (select_news (PText id)) ;;
     match newsCheck with
     | [] => message 404 "News not found"
     | row :: _ =>
         if negb (news_created_by row =? user_id user)
            && negb (String.eqb (user_role user) "aslab")
         then message 403 "Not authorized to update this news"
         else if negb (includes entity_kinds kind)
         then message 400 "Invalid entity type"
         else
           entityExists <- entity_exists kind entity ;;
           if negb entityExists
           then message 404 (capitalize kind ++ " not found")
           else
             linkCheck <- db_query (select_news_entities (PText id)) ;;
             (if nonempty linkCheck
              then db_query (update_news_entities kind (PText entity) (PText id))
              else db_query (insert_news_entities (PText id) kind (PText entity))) ;;
             message 200 "Entity linked successfully"
     end)
    (message 500 "Server error").

(** The handler of [router.delete('/:id/unlink', ...)]. *)
Definition news_unlink (user : ReqUser) (id : string) : M Response :=
  try_catch
    (newsCheck <- db_query (select_news (PText id)) ;;
     match newsCheck with
     | [] => message 404 "News not found"
     | row :: _ =>
         if negb (news_created_by row =? user_id user)
            && negb (String.eqb (user_role user) "aslab")
         then message 403 "Not authorized to update this news"
         else
           db_query (delete_news_entities (PText id)) ;;
           message 200 "Entity link removed successfully"
     end)
    (message 500 "Server error").

(** The statements of the create transaction, from BEGIN to COMMIT. *)
Definition news_create_transaction (user : ReqUser) (b : NewsBody)
  (imageUrl : option string) : M NewsRow :=
  client_begin ;;
  n <- client_query_serial nextval_news
         (insert_news (text (title b)) (text (content b)) imageUrl (user_id user)) ;;
  (if truthy (linkedType b) && truthy (linkedId b)
   then client_query (insert_news_entities (PNum (news_id n))
                        (text (linkedType b)) (PText (text (linkedId b))))
   else ret tt) ;;
  client_commit ;;
  ret n.

(** The handler of [router.post('/', ...)]: create a news item. *)
Definition news_create (user : ReqUser) (b : NewsBody) (file : option UploadedFile)
  : M Response :=
  try_catch
    (if negb (truthy (title b)) || negb (truthy (content b))
     then message 400 "Title and content are required"
     else if truthy (linkedType b) && negb (includes entity_kinds (text (linkedType b)))
     then message 400 "Invalid linked entity type"
     else
       let proceed :=
         imageUrl <- match file with
                     | Some f => url <- uploadFile f ;; ret (Some url)
                     | None => ret None
                     end ;;
         pool_connect ;;
         finally
           (try_catch
              (n <- news_create_transaction user b imageUrl ;;
               userResult <- db_query (select_user (PNum (user_id user))) ;;
               match userResult with
               | [] => throw
               | _ :: _ =>
                   (if truthy (linkedType b) && truthy (linkedId b)
                    then entity_details (text (linkedType b)) (text (linkedId b))
                    else ret tt) ;;
                   ret {| status := 201; body := NewsJson (Some n) |}
               end)
              (client_rollback ;; throw))
           client_release in
       if truthy (linkedType b) && truthy (linkedId b)
       then
         entityExists <- entity_exists (text (linkedType b)) (text (linkedId b)) ;;
         if negb entityExists
         then message 404 (capitalize (text (linkedType b)) ++ " not found")
         else proceed
       else proceed)
    (message 500 "Server error").

(** The handler of [router.put('/:id', ...)]: update a news item. *)
Definition news_update (user : ReqUser) (id : string) (b : NewsBody)
  (file : option UploadedFile) : M Response :=
  try_catch
    (if negb (truthy (title b)) || negb (truthy (content b))
     then message 400 "Title and content are required"
     else if truthy (linkedType b) && negb (includes entity_kinds (text (linkedType b)))
     then message 400 "Invalid linked entity type"
     else
       newsCheck <- db_query (select_news (PText id)) ;;
       match newsCheck with
       | [] => message 404 "News not found"
       | row :: _ =>
           if negb (news_created_by row =? user_id user)
              && negb (String.eqb (user_role user) "aslab")
           then message 403 "Not authorized to update this news"
           else
             let proceed :=
               imageUrl <- match file with
                           | Some f => url <- uploadFile f ;; ret (Some url)
                           | None => ret (news_image_url row)
                           end ;;
               pool_connect ;;
               finally
                 (try_catch
                    (client_begin ;;
                     client_query (update_news (text (title b)) (text (content b))
                                     imageUrl (PText id)) ;;
                     (if truthy (linkedType b) && truthy (linkedId b)
                      then
                        linkCheck <- client_query (select_news_entities (PText id)) ;;
                        if nonempty linkCheck
                        then client_query (update_news_entities (text (linkedType b))
                                             (PText (text (linkedId b))) (PText id))
                        else client_query (insert_news_entities (PText id)
                                             (text (linkedType b))
                                             (PText (text (linkedId b))))
                      else client_query (delete_news_entities (PText id))) ;;
                     client_commit ;;
                     completeNewsResult <- db_query (select_news_complete (PText id)) ;;
                     ret {| status := 200; body := NewsJson (hd_error completeNewsResult) |})
                    (client_rollback ;; throw))
                 client_release in
             if truthy (linkedType b) && truthy (linkedId b)
             then
               entityExists <- entity_exists (text (linkedType b)) (text (linkedId b)) ;;
               if negb entityExists
               then message 404 (capitalize (text (linkedType b)) ++ " not found")
               else proceed
             else proceed
       end)
    (message 500 "Server error").

(** The handler of [router.delete('/:id', ...)]: delete a news item. *)
Definition news_delete (user : ReqUser) (id : string) : M Response :=
  try_catch
    (newsCheck <- db_query (select_news (PText id)) ;;
     match newsCheck with
     | [] => message 404 "News not found"
     | row :: _ =>
         if negb (news_created_by row =? user_id user)
            && negb (String.eqb (user_role user) "aslab")
         then message 403 "Not authorized to delete this news"
         else
           db_query (delete_news (PText id)) ;;
           message 200 "News deleted successfully"
     end)
    (message 500 "Server error").

(** *** The posts router

    Each mutation route is registered as [authenticate, handler]. *)

(** The statements of the create transaction, from BEGIN to COMMIT. *)
Definition posts_create_transaction (user : ReqUser) (b : PostBody)
  (imageUrl : option string) : M PostRow :=
  client_begin ;;
  p <- client_query_serial nextval_posts
         (insert_posts (user_id user) (text (body_content b)) imageUrl) ;;
  (if truthy (entityType b) && truthy (entityId b)
   then client_query (insert_posts_entities (PNum (post_id p))
                        (text (entityType b)) (PText (text (entityId b))))
   else ret tt) ;;
  client_commit ;;
  ret p.

(** The handler of [router.post('/posts', ...)]: create a post. *)
Definition posts_create (user : ReqUser) (b : PostBody) (file : option UploadedFile)
  : M Response :=
  try_catch
    (if negb (truthy (body_content b))
     then message 400 "Content is required"
     else if truthy (entityType b) && negb (includes entity_kinds (text (entityType b)))
     then message 400 "Invalid entity type"
     else
       let proceed :=
         imageUrl <- match file with
                     | Some f => url <- uploadFile f ;; ret (Some url)
                     | None => ret None
                     end ;;
         pool_connect ;;
         finally
           (try_catch
              (p <- posts_create_transaction user b imageUrl ;;
               userResult <- db_query (select_user_profile (PNum (user_id user))) ;;
               match userResult with
               | [] => throw
               | _ :: _ =>
                   (if truthy (entityType b) && truthy (entityId b)
                    then entity_details (text (entityType b)) (text (entityId b))
                    else ret tt) ;;
                   ret {| status := 201; body := PostJson (Some p) |}
               end)
              (client_rollback ;; throw))
           client_release in
       if truthy (entityType b) && truthy (entityId b)
       then
         entityExists <- entity_exists (text (entityType b)) (text (entityId b)) ;;
         if negb entityExists
         then message 404 (capitalize (text (entityType b)) ++ " not found")
         else proceed
       else proceed)
    (message 500 "Server error").

(** The handler of [router.put('/posts/:id', ...)]: update a post. *)
Definition posts_update (user : ReqUser) (id : string) (b : PostBody)
  (file : option UploadedFile) : M Response :=
  try_catch
    (if negb (truthy (body_content b))
     then message 400 "Content is required"
     else if truthy (entityType b) && negb (includes entity_kinds (text (entityType b)))
     then message 400 "Invalid entity type"
     else
       postCheck <- db_query (select_posts (PText id)) ;;
       match postCheck with
       | [] => message 404 "Post not found"
       | row :: _ =>
           if negb (post_user_id row =? user_id user)
           then message 403 "Not authorized to update this post"
           else
             let proceed :=
               imageUrl <- match file with
                           | Some f => url <- uploadFile f ;; ret (Some url)
                           | None => ret (post_image_url row)
                           end ;;
               pool_connect ;;
               finally
                 (try_catch
                    (client_begin ;;
                     client_query (update_posts (text (body_content b)) imageUrl
                                     (PText id)) ;;
                     (if truthy (entityType b) && truthy (entityId b)
                      then
                        linkCheck <- client_query (select_posts_entities (PText id)) ;;
                        if nonempty linkCheck
                        then client_query (update_posts_entities (text (entityType b))
                                             (PText (text (entityId b))) (PText id))
                        else client_query (insert_posts_entities (PText id)
                                             (text (entityType b))
                                             (PText (text (entityId b))))
                      else client_query (delete_posts_entities (PText id))) ;;
                     client_commit ;;
                     completePostResult <- db_query (select_posts_complete (PText id)) ;;
                     ret {| status := 200; body := PostJson (hd_error completePostResult) |})
                    (client_rollback ;; throw))
                 client_release in
             if truthy (entityType b) && truthy (entityId b)
             then
               entityExists <- entity_exists (text (entityType b)) (text (entityId b)) ;;
               if negb entityExists
               then message 404 (capitalize (text (entityType b)) ++ " not found")
               else proceed
             else proceed
       end)
    (message 500 "Server error").

(** The handler of [router.post('/posts/:id/link/:entityType/:entityId', ...)]. *)
Definition posts_link (user : ReqUser) (id kind entity : string) : M Response :=
  try_catch
    (postCheck <- db_query (select_posts (PText id)) ;;
     match postCheck with
     | [] => message 404 "Post not found"
     | row :: _ =>
         if negb (post_user_id row =? user_id user)
         then message 403 "Not authorized to update this post"
         else if negb (includes entity_kinds kind)
         then message 400 "Invalid entity type"
         else
           entityExists <- entity_exists kind entity ;;
           if negb entityExists
           then message 404 (capitalize kind ++ " not found")
           else
             linkCheck <- db_query (select_posts_entities (PText id)) ;;
             (if nonempty linkCheck
              then db_query (update_posts_entities kind (PText entity) (PText id))
              else db_query (insert_posts_entities (PText id) kind (PText entity))) ;;
             message 200 "Entity linked successfully"
     end)
    (message 500 "Server error").

(** The handler of [router.delete('/posts/:id/unlink', ...)]. *)
Definition posts_unlink (user : ReqUser) (id : string) : M Response :=
  try_catch
    (postCheck <- db_query (select_posts (PText id)) ;;
     match postCheck with
     | [] => message 404 "Post not found"
     | row :: _ =>
         if negb (post_user_id row =? user_id user)
         then message 403 "Not authorized to update this post"
         else
           db_query (delete_posts_entities (PText id)) ;;
           message 200 "Entity link removed successfully"
     end)
    (message 500 "Server error").

(** The handler of [router.delete('/posts/:id', ...)]: delete a post. *)
Definition posts_delete (user : ReqUser) (id : string) : M Response :=
  try_catch
    (postCheck <- db_query (select_posts (PText id)) ;;
     match postCheck with
     | [] => message 404 "Post not found"
     | row :: _ =>
         if negb (post_user_id row =? user_id user)
         then message 403 "Not authorized to delete this post"
         else
           db_query (delete_posts (PText id)) ;;
           message 200 "Post deleted successfully"
     end)
    (message 500 "Server error").

(** *** Request sequences *)

Inductive Request :=
| NewsCreate (user : ReqUser) (b : NewsBody) (file : option UploadedFile)
| NewsUpdate (user : ReqUser) (id : string) (b : NewsBody) (file : option UploadedFile)
| NewsLink (user : ReqUser) (id kind entity : string)
| NewsUnlink (user : ReqUser) (id : string)
| NewsDelete (user : ReqUser) (id : string)
| PostsCreate (user : ReqUser) (b : PostBody) (file : option UploadedFile)
| PostsUpdate (user : ReqUser) (id : string) (b : PostBody) (file : option UploadedFile)
| PostsLink (user : ReqUser) (id kind entity : string)
| PostsUnlink (user : ReqUser) (id : string)
| PostsDelete (user : ReqUser) (id : string).

Definition handle (r : Request) : M Response :=
  match r with
  | NewsCreate u b f => news_create u b f
  | NewsUpdate u i b f => news_update u i b f
  | NewsLink u i k e => news_link u i k e
  | NewsUnlink u i => news_unlink u i
  | NewsDelete u i => news_delete u i
  | PostsCreate u b f => posts_create u b f
  | PostsUpdate u i b f => posts_update u i b f
  | PostsLink u i k e => posts_link u i k e
  | PostsUnlink u i => posts_unlink u i
  | PostsDelete u i => posts_delete u i
  end.

(** The server handles the requests one after the other. *)
Fixpoint serve (rs : list Request) (w : World) : World :=
  match rs with
  | [] => w
  | r :: rest => serve rest (snd (handle r w))
  end.

End Handlers.

(** ** The news router: route table and dispatch *)

Inductive Method := GET | HEAD | POST | PUT | DELETE.

(** A route registered for method [a] handles a request of method [b]; a
    GET route also answers HEAD. *)
Definition method_eqb (a b : Method) : bool :=
  match a, b with
  | GET, GET | GET, HEAD | POST, POST | PUT, PUT | DELETE, DELETE => true
  | _, _ => false
  end.

(** A segment of a route path: literal text, or a named parameter [:name]. *)
Inductive Seg :=
| Lit (s : string)
| Par (name : string).

(** The handlers of [routes/news.js], named after their comments. *)
Inductive NewsHandler :=
| GetAllNews
| GetNewsById
| GetNewsFor
| GetNewsWithEntity
| LinkNews
| UnlinkNews
| GetEntityNews
| CreateNews
| UpdateNews
| DeleteNews.

Record Route := {
  route_method : Method;
  route_path : list Seg;
  route_handler : NewsHandler
}.

(** The calls [router.get], [router.post], ... of [routes/news.js] in the
    order of the file, which is the order the router tries them in. *)
Definition news_router : list Route :=
  [ {| route_method := GET; route_path := []; route_handler := GetAllNews |};
    {| route_method := GET; route_path := [Par "id"]; route_handler := GetNewsById |};
    {| route_method := GET; route_path := [Lit "for"; Par "type"; Par "id"];
       route_handler := GetNewsFor |};
    {| route_method := GET; route_path := [Lit "with-entity"];
       route_handler := GetNewsWithEntity |};
    {| route_method := POST;
       route_path := [Par "id"; Lit "link"; Par "entityType"; Par "entityId"];
       route_handler := LinkNews |};
    {| route_method := DELETE; route_path := [Par "id"; Lit "unlink"];
       route_handler := UnlinkNews |};
    {| route_method := GET; route_path := [Lit "entity"; Par "entityType"; Par "entityId"];
       route_handler := GetEntityNews |};
    {| route_method := POST; route_path := []; route_handler := CreateNews |};
    {| route_method := PUT; route_path := [Par "id"]; route_handler := UpdateNews |};
    {| route_method := DELETE; route_path := [Par "id"]; route_handler := DeleteNews |} ].

Definition toLowerCase (c : ascii) : ascii :=
  let n := nat_of_ascii c in
  if ((65 <=? n) && (n <=? 90))%nat then ascii_of_nat (n + 32) else c.

Fixpoint lower (s : string) : string :=
  match s with
  | EmptyString => EmptyString
  | String c rest => String (toLowerCase c) (lower rest)
  end.

(** Matching of a request path, split at its slashes, against a route
    path: a literal matches its own text whatever the letter case, a
    parameter matches any non-empty segment and captures it. *)
Fixpoint match_path (pat : list Seg) (path : list string)
  : option (list (string * string)) :=
  match pat, path with
  | [], [] => Some []
  | Lit s :: pat', seg :: path' =>
      if String.eqb (lower seg) (lower s) then match_path pat' path' else None
  | Par name :: pat', seg :: path' =>
      if String.eqb seg "" then None
      else match match_path pat' path' with
           | Some ps => Some ((name, seg) :: ps)
           | None => None
           end
  | _, _ => None
  end.

(** The first route, in registration order, whose method and path match;
    no handler of the file passes the request on with [next()]. *)
Fixpoint dispatch (routes : list Route) (m : Method) (path : list string)
  : option (NewsHandler * list (string * string)) :=
  match routes with
  | [] => None
  | r :: rest =>
      if method_eqb (route_method r) m
      then match match_path (route_path r) path with
           | Some ps => Some (route_handler r, ps)
           | None => dispatch rest m path
           end
      else dispatch rest m path
  end.

(** ** The integer input of the server, for running the model

    [pg_strtoint32] of PostgreSQL 16: blanks, an optional sign, then the
    digits, which are decimal or, after a prefix [0x], [0o] or [0b], of base
    16, 8 or 2; an underscore may stand before a digit, though not before
    the first decimal one; blanks may follow. *)

(** [isspace] on a byte. *)
Definition isspace (c : ascii) : bool :=
  let n := nat_of_ascii c in ((n =? 32) || ((9 <=? n) && (n <=? 13)))%nat.

Fixpoint skip_spaces (s : string) : string :=
  match s with
  | String c r => if isspace c then skip_spaces r else s
  | EmptyString => s
  end.

(** The value of a digit of the base, letters in either case. *)
Definition digit_of (base : Z) (c : ascii) : option Z :=
  let n := Z.of_nat (nat_of_ascii c) in
  let v := if (48 <=? n) && (n <=? 57) then Some (n - 48)
           else if (97 <=? n) && (n <=? 102) then Some (n - 87)
           else if (65 <=? n) && (n <=? 70) then Some (n - 55)
           else None in
  match v with
  | Some d => if d <? base then Some d else None
  | None => None
  end.

(** The digits at the head of [s], with the text that follows them; an
    underscore must be followed by a digit. *)
Fixpoint digits (base acc : Z) (s : string) : option (Z * string) :=
  match s with
  | String c r =>
      match digit_of base c with
      | Some d => digits base (acc * base + d) r
      | None =>
          if Ascii.eqb c "_"
          then match r with
               | String c' _ =>
                   match digit_of base c' with
                   | Some _ => digits base acc r
                   | None => None
                   end
               | EmptyString => None
               end
          else Some (acc, s)
      end
  | EmptyString => Some (acc, s)
  end.

(** A number needs a digit; [underscore_first] allows an underscore before
    its first digit. *)
Definition number (base : Z) (underscore_first : bool) (s : string)
  : option (Z * string) :=
  match s with
  | String c _ =>
      match digit_of base c with
      | Some _ => digits base 0 s
      | None => if underscore_first && Ascii.eqb c "_" then digits base 0 s else None
      end
  | EmptyString => None
  end.

Definition pg_strtoint32 (s : string) : option Z :=
  let s1 := skip_spaces s in
  let signed :=
    match s1 with
    | String c r =>
        if Ascii.eqb c "-" then (true, r)
        else if Ascii.eqb c "+" then (false, r)
        else (false, s1)
    | EmptyString => (false, s1)
    end in
  let parsed :=
    match snd signed with
    | String z (String x r) =>
        if Ascii.eqb z "0" && (Ascii.eqb x "x" || Ascii.eqb x "X") then number 16 true r
        else if Ascii.eqb z "0" && (Ascii.eqb x "o" || Ascii.eqb x "O") then number 8 true r
        else if Ascii.eqb z "0" && (Ascii.eqb x "b" || Ascii.eqb x "B") then number 2 true r
        else number 10 false (snd signed)
    | _ => number 10 false (snd signed)
    end in
  match parsed with
  | Some (v, rest) =>
      match skip_spaces rest with
      | EmptyString =>
          let z := if fst signed then - v else v in
          if (-2147483648 <=? z) && (z <=? 2147483647) then Some z else None
      | String _ _ => None
      end
  | None => None
  end.

Definition server_input : PgInput.
Proof.
  refine {| int4in := pg_strtoint32 |}.
  intros s z. unfold pg_strtoint32.
  destruct (match snd _ with EmptyString => _ | String _ _ => _ end) as [[v rest]|];
    [ | discriminate ].
  destruct (skip_spaces rest); [ | discriminate ].
  cbv zeta. destruct (_ && _) eqn:E; [ | discriminate ].
  intros H. injection H as <-. apply andb_true_iff in E. lia.
Defined.

(** ** Invariants of the store *)

(** What the schema promises of a link table: the owner column is a key
    and every kind belongs to the closed enumeration. *)
Definition link_table_ok (tbl : list LinkRow) : Prop :=
  (forall o, (List.length (links_of o tbl) <= 1)%nat) /\
  Forall (fun r => In (entity_type r) entity_kinds) tbl.

Definition db_ok (d : DB) : Prop :=
  link_table_ok (news_entities d) /\ link_table_ok (posts_entities d).

Definition world_ok (w : World) : Prop :=
  db_ok (committed w) /\ forall t, txn w = Some t -> db_ok t.

Definition sql_ok {R} (q : Sql R) : Prop :=
  forall d r d', db_ok d -> q d = Some (r, d') -> db_ok d'.

Definition preserves {A} (m : M A) : Prop :=
  forall w, world_ok w -> world_ok (snd (m w)).

(** ** Vocabulary of the statements *)

Inductive Owner := NewsOwner | PostOwner.

(** The owner record a mutation request addresses, and the actor. *)
Definition target (r : Request) : option (Owner * string * ReqUser) :=
  match r with
  | NewsUpdate u i _ _ | NewsLink u i _ _ | NewsUnlink u i | NewsDelete u i =>
      Some (NewsOwner, i, u)
  | PostsUpdate u i _ _ | PostsLink u i _ _ | PostsUnlink u i | PostsDelete u i =>
      Some (PostOwner, i, u)
  | NewsCreate _ _ _ | PostsCreate _ _ _ => None
  end.

(** The request passes the checks that an update makes on its body before
    it looks the owner record up; the other mutations make none. *)
Definition body_valid (r : Request) : bool :=
  match r with
  | NewsUpdate _ _ b _ =>
      truthy (title b) && truthy (content b)
      && (negb (truthy (linkedType b)) || includes entity_kinds (text (linkedType b)))
  | PostsUpdate _ _ b _ =>
      truthy (body_content b)
      && (negb (truthy (entityType b)) || includes entity_kinds (text (entityType b)))
  | _ => true
  end.

(** The creator column of the owner record with key [i]: [created_by] of a
    news item, [user_id] of a post; [None] when there is no such record. *)
Definition creator_of (o : Owner) (i : Z) (d : DB) : option Z :=
  match o with
  | NewsOwner =>
      option_map news_created_by (hd_error (filter (fun n => news_id n =? i) (news d)))
  | PostOwner =>
      option_map post_user_id (hd_error (filter (fun p => post_id p =? i) (posts d)))
  end.

(** The ownership policy in the words of the specification:
    [ownerRecord.createdBy == actorUserId OR actorRole == PRIVILEGED]. *)
Definition canMutate (actorUserId : Z) (actorRole : string) (createdBy : Z) : bool :=
  (createdBy =? actorUserId) || String.eqb actorRole "aslab".

(** The policy each router applies: news as the specification has it,
    posts to the creator alone. *)
Definition allowed (o : Owner) (u : ReqUser) (creator : Z) : bool :=
  match o with
  | NewsOwner => canMutate (user_id u) (user_role u) creator
  | PostOwner => creator =? user_id u
  end.

(** The table a kind of target lives in. *)
Definition entity_table (kind : string) (d : DB) : list Entity :=
  if String.eqb kind "class" then classes d
  else if String.eqb kind "module" then modules d
  else if String.eqb kind "assignment" then assignments d
  else [].

(** The registry's [exists(kind, id)]. *)
Definition entity_present (kind : string) (e : Z) (d : DB) : bool :=
  nonempty (filter (fun x => ent_id x =? e) (entity_table kind d)).

Definition without_news_target (b : NewsBody) : NewsBody :=
  {| title := title b; content := content b; linkedType := None; linkedId := None |}.

Definition without_post_target (b : PostBody) : PostBody :=
  {| body_content := body_content b; entityType := None; entityId := None |}.

(** The upsert of the specification's [setLink]: overwrite the row of the
    owner in place if there is one, insert a row otherwise. *)
Definition upsert (o : Z) (t : string) (e : Z) (tbl : list LinkRow) : list LinkRow :=
  if nonempty (links_of o tbl)
  then map (fun x => if link_owner x =? o
                     then {| link_owner := o; entity_type := t; entity_id := e |}
                     else x) tbl
  else (tbl ++ [{| link_owner := o; entity_type := t; entity_id := e |}])%list.

(** The link table of an owner kind. *)
Definition link_table (o : Owner) (d : DB) : list LinkRow :=
  match o with
  | NewsOwner => news_entities d
  | PostOwner => posts_entities d
  end.

(** The standalone link request of an owner kind. *)
Definition link_request (o : Owner) (u : ReqUser) (id kind entity : string) : Request :=
  match o with
  | NewsOwner => NewsLink u id kind entity
  | PostOwner => PostsLink u id kind entity
  end.

(** The target a mutation request asks to link its owner record to. *)
Definition requested_target (r : Request) : option (string * string) :=
  match r with
  | NewsLink _ _ kind entity | PostsLink _ _ kind entity => Some (kind, entity)
  | NewsUpdate _ _ b _ =>
      if truthy (linkedType b) && truthy (linkedId b)
      then Some (text (linkedType b), text (linkedId b)) else None
  | PostsUpdate _ _ b _ =>
      if truthy (entityType b) && truthy (entityId b)
      then Some (text (entityType b), text (entityId b)) else None
  | _ => None
  end.

(** The store [d'] is [d] with one more news item of the request, and with
    its link row when the request carries a target; the title is the one
    of the request as its column takes it. *)
Definition news_created {pg : PgInput} (u : ReqUser) (b : NewsBody) (d d' : DB) : Prop :=
  exists n,
    varchar 100 (text (title b)) = Some (news_title n) /\
    news_content n = text (content b) /\
    news_created_by n = user_id u /\
    if truthy (linkedType b) && truthy (linkedId b)
    then exists e,
        int4in (text (linkedId b)) = Some e /\
        d' = set_news_entities
               (news_entities d ++ [{| link_owner := news_id n;
                                       entity_type := text (linkedType b);
                                       entity_id := e |}])
               (set_news (news d ++ [n]) d)
    else d' = set_news (news d ++ [n]) d.

Definition post_created {pg : PgInput} (u : ReqUser) (b : PostBody) (d d' : DB) : Prop :=
  exists p,
    post_content p = text (body_content b) /\ post_user_id p = user_id u /\
    if truthy (entityType b) && truthy (entityId b)
    then exists e,
        int4in (text (entityId b)) = Some e /\
        d' = set_posts_entities
               (posts_entities d ++ [{| link_owner := post_id p;
                                        entity_type := text (entityType b);
                                        entity_id := e |}])
               (set_posts (posts d ++ [p]) d)
    else d' = set_posts (posts d ++ [p]) d.

(** ** Sample data *)

Definition sample_db : DB :=
  {| users := [ {| usr_id := 1; usr_username := "ani" |};
                {| usr_id := 2; usr_username := "budi" |} ];
     classes := [ {| ent_id := 3; ent_title := "Algoritma" |} ];
     modules := [];
     assignments := [];
     news := [ {| news_id := 7; news_title := "Midterm info"; news_content := "...";
                  news_image_url := None; news_created_by := 1 |} ];
     news_entities := [ {| link_owner := 7; entity_type := "class"; entity_id := 3 |} ];
     posts := [ {| post_id := 5; post_user_id := 1; post_content := "halo";
                   post_image_url := None |} ];
     posts_entities := [ {| link_owner := 5; entity_type := "class"; entity_id := 3 |} ] |}.

Definition sample_world : World :=
  {| committed := sample_db; txn := None; news_id_seq := 8; posts_id_seq := 6;
     faults := [] |}.

(** User 1 created news item 7 and post 5; user 2 is a privileged
    non-creator, user 9 an unprivileged one. *)
Definition creator : ReqUser := {| user_id := 1; user_role := "praktikan" |}.
Definition aslab : ReqUser := {| user_id := 2; user_role := "aslab" |}.
Definition stranger : ReqUser := {| user_id := 9; user_role := "praktikan" |}.

Definition news_body (t i : field) : NewsBody :=
  {| title := Some "Midterm info"; content := Some "..."; linkedType := t; linkedId := i |}.

Definition post_body (t i : field) : PostBody :=
  {| body_content := Some "halo"; entityType := t; entityId := i |}.

Definition sample_missing_link : Request := NewsLink aslab "7" "class" "42".

Definition sample_missing_post : Request := PostsDelete stranger "99".

Definition sample_requests : list Request :=
  [ NewsCreate aslab (news_body (Some "class") (Some "3")) None;
    NewsLink aslab "8" "class" "3";
    NewsLink aslab "7" "class" "3";
    NewsUpdate aslab "7" (news_body (Some "class") (Some "3")) None;
    PostsCreate creator (post_body (Some "class") (Some "3")) None;
    PostsLink creator "5" "class" "3";
    PostsUnlink creator "6";
    NewsDelete aslab "8" ].

(** ** Vocabulary of the further properties *)

(** The mutations that make one write, outside any transaction. *)
Definition single_write (r : Request) : bool :=
  match r with
  | NewsLink _ _ _ _ | NewsUnlink _ _ | NewsDelete _ _
  | PostsLink _ _ _ _ | PostsUnlink _ _ | PostsDelete _ _ => true
  | _ => false
  end.

(** The status codes a handler has a [res.status] call or a default for. *)
Definition possible_statuses (r : Request) : list Z :=
  match r with
  | NewsCreate _ _ _ | PostsCreate _ _ _ => [201; 400; 404; 500]
  | NewsUpdate _ _ _ _ | PostsUpdate _ _ _ _
  | NewsLink _ _ _ _ | PostsLink _ _ _ _ => [200; 400; 403; 404; 500]
  | NewsUnlink _ _ | NewsDelete _ _ | PostsUnlink _ _ | PostsDelete _ _ =>
      [200; 403; 404; 500]
  end.

(** The router a request belongs to. *)
Definition router_of (r : Request) : Owner :=
  match r with
  | NewsCreate _ _ _ | NewsUpdate _ _ _ _ | NewsLink _ _ _ _ | NewsUnlink _ _
  | NewsDelete _ _ => NewsOwner
  | _ => PostOwner
  end.

(** The rows of an owner table with key [i]. *)
Definition news_of (i : Z) (d : DB) : list NewsRow :=
  filter (fun n => news_id n =? i) (news d).

Definition posts_of (i : Z) (d : DB) : list PostRow :=
  filter (fun p => post_id p =? i) (posts d).

(** [UPDATE news SET title, content, image_url WHERE id = i] on the rows. *)
Definition news_rewritten (i : Z) (t c : string) (img : option string)
  (l : list NewsRow) : list NewsRow :=
  map (fun n => if news_id n =? i
                then {| news_id := news_id n; news_title := t; news_content := c;
                        news_image_url := img; news_created_by := news_created_by n |}
                else n) l.

Definition posts_rewritten (i : Z) (c : string) (img : option string)
  (l : list PostRow) : list PostRow :=
  map (fun p => if post_id p =? i
                then {| post_id := post_id p; post_user_id := post_user_id p;
                        post_content := c; post_image_url := img |}
                else p) l.

(** The image an update stores: the uploaded one, else the one of the row
    the handler looked up. *)
Definition stored_image (file : option UploadedFile) (old : option string)
  : option string :=
  match file with
  | Some f => Some (cloud_url f)
  | None => old
  end.

(** The store [d'] is [d] after both writes of a news update: the fields
    of item [id] rewritten with the values of the request as their columns
    take them, and its link row replaced by the target of the body, or
    removed when the body has none. *)
Definition news_updated {pg : PgInput} (id : string) (b : NewsBody)
  (file : option UploadedFile) (d d' : DB) : Prop :=
  exists i n rest t img,
    int4in id = Some i /\ news_of i d = n :: rest /\
    varchar 100 (text (title b)) = Some t /\
    varchar_opt 255 (stored_image file (news_image_url n)) = Some img /\
    let rows := news_rewritten i t (text (content b)) img (news d) in
    if truthy (linkedType b) && truthy (linkedId b)
    then exists e,
        int4in (text (linkedId b)) = Some e /\
        d' = set_news_entities (upsert i (text (linkedType b)) e (news_entities d))
               (set_news rows d)
    else d' = set_news_entities (link_delete i (news_entities d)) (set_news rows d).

Definition post_updated {pg : PgInput} (id : string) (b : PostBody)
  (file : option UploadedFile) (d d' : DB) : Prop :=
  exists i p rest img,
    int4in id = Some i /\ posts_of i d = p :: rest /\
    varchar_opt 255 (stored_image file (post_image_url p)) = Some img /\
    let rows := posts_rewritten i (text (body_content b)) img (posts d) in
    if truthy (entityType b) && truthy (entityId b)
    then exists e,
        int4in (text (entityId b)) = Some e /\
        d' = set_posts_entities (upsert i (text (entityType b)) e (posts_entities d))
               (set_posts rows d)
    else d' = set_posts_entities (link_delete i (posts_entities d)) (set_posts rows d).

(** The target a request asks to link to, creates included. *)
Definition asked_target (r : Request) : option (string * string) :=
  match r with
  | NewsCreate _ b _ =>
      if truthy (linkedType b) && truthy (linkedId b)
      then Some (text (linkedType b), text (linkedId b)) else None
  | PostsCreate _ b _ =>
      if truthy (entityType b) && truthy (entityId b)
      then Some (text (entityType b), text (entityId b)) else None
  | _ => requested_target r
  end.

(** The standalone unlink request of an owner kind. *)
Definition unlink_request (o : Owner) (u : ReqUser) (id : string) : Request :=
  match o with
  | NewsOwner => NewsUnlink u id
  | PostOwner => PostsUnlink u id
  end.

(** The keys and references the schema declares besides those of the link
    kinds: the SERIAL primary keys of [news] and [posts] are unique and
    below their sequences, creators reference [users], and every link row
    references a row of its owner table. *)
Definition store_consistent (sn sp : Z) (d : DB) : Prop :=
  NoDup (map news_id (news d)) /\
  NoDup (map post_id (posts d)) /\
  (forall n, In n (news d) ->
             news_id n < sn /\ In (news_created_by n) (map usr_id (users d))) /\
  (forall p, In p (posts d) ->
             post_id p < sp /\ In (post_user_id p) (map usr_id (users d))) /\
  (forall l, In l (news_entities d) -> In (link_owner l) (map news_id (news d))) /\
  (forall l, In l (posts_entities d) -> In (link_owner l) (map post_id (posts d))).

Definition world_consistent (w : World) : Prop :=
  store_consistent (news_id_seq w) (posts_id_seq w) (committed w) /\
  forall t, txn w = Some t -> store_consistent (news_id_seq w) (posts_id_seq w) t.

Definition sql_keeps {R} (q : Sql R) : Prop :=
  forall sn sp d r d', store_consistent sn sp d -> q d = Some (r, d') ->
                       store_consistent sn sp d'.

Definition keeps {A} (m : M A) : Prop :=
  forall w, world_consistent w -> world_consistent (snd (m w)).

(** The news item a create request stores under the key [k]. *)
Definition created_news (k : Z) (u : ReqUser) (b : NewsBody) (f : option UploadedFile)
  : NewsRow :=
  {| news_id := k; news_title := text (title b); news_content := text (content b);
     news_image_url := option_map cloud_url f; news_created_by := user_id u |}.

(** The post a create request stores under the key [k]. *)
Definition created_post (k : Z) (u : ReqUser) (b : PostBody) (f : option UploadedFile)
  : PostRow :=
  {| post_id := k; post_user_id := user_id u; post_content := text (body_content b);
     post_image_url := option_map cloud_url f |}.

(** The link rows a create request adds for the key [k]: one for the
    target it asks for, none without a target. *)
Definition created_links {pg : PgInput} (k : Z) (t : option (string * string))
  : list LinkRow :=
  match t with
  | Some (kind, entity) =>
      match int4in entity with
      | Some e => [ {| link_owner := k; entity_type := kind; entity_id := e |} ]
      | None => []
      end
  | None => []
  end.

(** No awaited call fails, the actor is a stored user, the columns fit and
    the target asked for, if any, is of a known kind and stored. *)
Definition news_create_accepted {pg : PgInput} (u : ReqUser) (b : NewsBody)
  (f : option UploadedFile) (w : World) : Prop :=
  faults w = [] /\
  existsb (fun x => usr_id x =? user_id u) (users (committed w)) = true /\
  truthy (title b) = true /\ truthy (content b) = true /\
  varchar 100 (text (title b)) = Some (text (title b)) /\
  text_in (text (content b)) = Some (text (content b)) /\
  varchar_opt 255 (option_map cloud_url f) = Some (option_map cloud_url f) /\
  (truthy (linkedType b) = true -> includes entity_kinds (text (linkedType b)) = true) /\
  (truthy (linkedType b) && truthy (linkedId b) = true ->
   exists e, int4in (text (linkedId b)) = Some e /\
             entity_present (text (linkedType b)) e (committed w) = true).

Definition posts_create_accepted {pg : PgInput} (u : ReqUser) (b : PostBody)
  (f : option UploadedFile) (w : World) : Prop :=
  faults w = [] /\
  existsb (fun x => usr_id x =? user_id u) (users (committed w)) = true /\
  truthy (body_content b) = true /\
  text_in (text (body_content b)) = Some (text (body_content b)) /\
  varchar_opt 255 (option_map cloud_url f) = Some (option_map cloud_url f) /\
  (truthy (entityType b) = true -> includes entity_kinds (text (entityType b)) = true) /\
  (truthy (entityType b) && truthy (entityId b) = true ->
   exists e, int4in (text (entityId b)) = Some e /\
             entity_present (text (entityType b)) e (committed w) = true).

(** ** The read routes of the news router *)

(** [l JOIN r ON on]. *)
Definition inner_join {A B} (on : A -> B -> bool) (l : list A) (r : list B)
  : list (A * B) :=
  flat_map (fun a => map (pair a) (filter (on a) r)) l.

(** [l LEFT JOIN r ON on]: a row of [l] without a match is kept once, with
    nulls for the columns of [r]. *)
Definition left_join {A B} (on : A -> B -> bool) (l : list A) (r : list B)
  : list (A * option B) :=
  flat_map (fun a => match filter (on a) r with
                     | [] => [(a, None)]
                     | b :: bs => map (fun x => (a, Some x)) (b :: bs)
                     end) l.

(** [e.entity_type = kind AND e.entity_id = c.id], which is not true when
    the columns of [e] are null. *)
Definition links_to (kind : string) (e : option LinkRow) (c : Entity) : bool :=
  match e with
  | Some l => String.eqb (entity_type l) kind && (entity_id l =? ent_id c)
  | None => false
  end.

(** A row of [SELECT n.*, u.username as author, e.entity_type as linked_type,
    e.entity_id as linked_id, c.title as class_title, c.id as class_id,
    m.title ..., a.title ...]. *)
Record NewsView := {
  view_news : NewsRow;
  view_author : string;
  view_link : option LinkRow;
  view_class : option Entity;
  view_module : option Entity;
  view_assignment : option Entity
}.

(** [FROM news n JOIN users u ON n.created_by = u.id]. *)
Definition news_with_author (d : DB) : list (NewsRow * UserRow) :=
  inner_join (fun n u => news_created_by n =? usr_id u) (news d) (users d).

(** [FROM news n JOIN users u ... LEFT JOIN news_entities e ON n.id = e.news_id
    LEFT JOIN classes c ON e.entity_type = 'class' AND e.entity_id = c.id
    LEFT JOIN modules m ... LEFT JOIN assignments a ...]. *)
Definition news_joined (d : DB) : list NewsView :=
  map (fun x =>
         {| view_news := fst (fst (fst (fst (fst x))));
            view_author := usr_username (snd (fst (fst (fst (fst x)))));
            view_link := snd (fst (fst (fst x)));
            view_class := snd (fst (fst x));
            view_module := snd (fst x);
            view_assignment := snd x |})
      (left_join (fun x a => links_to "assignment" (snd (fst (fst x))) a)
         (left_join (fun x m => links_to "module" (snd (fst x)) m)
            (left_join (fun x c => links_to "class" (snd x) c)
               (left_join (fun x e => news_id (fst x) =? link_owner e)
                  (news_with_author d) (news_entities d))
               (classes d))
            (modules d))
         (assignments d)).

(** A row of [SELECT n.*, u.username as author, e.entity_type as linked_type,
    e.entity_id as linked_id] of the listing for a target. *)
Record LinkedNews := {
  linked_news : NewsRow;
  linked_author : string;
  linked_type : string;
  linked_id : Z
}.

(** [FROM news n JOIN users u ON n.created_by = u.id JOIN news_entities e ON
    n.id = e.news_id WHERE e.entity_type = $1 AND e.entity_id = $2]. *)
Definition news_linked_to (t : string) (e : Z) (d : DB)
  : list (NewsRow * UserRow * LinkRow) :=
  filter (fun x => String.eqb (entity_type (snd x)) t && (entity_id (snd x) =? e))
         (inner_join (fun x l => news_id (fst x) =? link_owner l)
            (news_with_author d) (news_entities d)).

Inductive ReadBody :=
| ReadMessage (m : string)
| NewsItem (v : NewsView)
| NewsList (vs : list NewsView)
| LinkedNewsList (vs : list LinkedNews)
| EntityNewsList (vs : list (NewsRow * string)).

Record ReadResponse := { read_status : Z; read_body : ReadBody }.

Definition read_message (code : Z) (m : string) : M ReadResponse :=
  ret {| read_status := code; read_body := ReadMessage m |}.

(** [res.json(value)]. *)
Definition read_json (b : ReadBody) : M ReadResponse :=
  ret {| read_status := 200; read_body := b |}.

Inductive ReadRequest :=
| GetAll
| GetById (id : string)
| GetFor (type id : string)
| GetEntity (entityType entityId : string).

Section Reads.
Context {pg : PgInput}.

(** [ORDER BY n.created_at DESC]: the timestamps are not columns of the
    model, the order of a result is a parameter of the handlers. *)
Variable newest_first : forall A : Type, (A -> NewsRow) -> list A -> list A.

(** The statement of [router.get('/', ...)]. *)
Definition select_all_news : Sql (list NewsView) :=
  fun d => Some (newest_first _ view_news (news_joined d), d).

(** The statement of [router.get('/:id', ...)]: [... WHERE n.id = $1]. *)
Definition select_news_view (id : Param) : Sql (list NewsView) :=
  fun d =>
    match int4 id with
    | Some i => Some (filter (fun v => news_id (view_news v) =? i) (news_joined d), d)
    | None => None
    end.

(** The statement of [router.get('/for/:type/:id', ...)]. *)
Definition select_news_for (t : string) (id : Param) : Sql (list LinkedNews) :=
  fun d =>
    match int4 id with
    | Some e =>
        Some (map (fun x => {| linked_news := fst (fst x);
                               linked_author := usr_username (snd (fst x));
                               linked_type := entity_type (snd x);
                               linked_id := entity_id (snd x) |})
                  (newest_first _ (fun x => fst (fst x)) (news_linked_to t e d)), d)
    | None => None
    end.

(** The statement of [router.get('/entity/:entityType/:entityId', ...)]:
    [SELECT n.*, u.username as author] of the same rows. *)
Definition select_entity_news (t : string) (id : Param) : Sql (list (NewsRow * string)) :=
  fun d =>
    match int4 id with
    | Some e =>
        Some (map (fun x => (fst (fst x), usr_username (snd (fst x))))
                  (newest_first _ (fun x => fst (fst x)) (news_linked_to t e d)), d)
    | None => None
    end.

(** The handler of [router.get('/', ...)]: all news. *)
Definition news_all : M ReadResponse :=
  try_catch
    (result <- db_query select_all_news ;;
     read_json (NewsList result))
    (read_message 500 "Server error").

(** The handler of [router.get('/:id', ...)]: a news item by its key. *)
Definition news_get (id : string) : M ReadResponse :=
  try_catch
    (result <- db_query (select_news_view (PText id)) ;;
     match result with
     | [] => read_message 404 "News not found"
     | row :: _ => read_json (NewsItem row)
     end)
    (read_message 500 "Server error").

(** The handler of [router.get('/for/:type/:id', ...)]. *)
Definition news_for (type id : string) : M ReadResponse :=
  try_catch
    (if negb (includes entity_kinds type)
     then read_message 400 "Invalid entity type"
     else
       result <- db_query (select_news_for type (PText id)) ;;
       read_json (LinkedNewsList result))
    (read_message 500 "Server error").

(** The handler of [router.get('/entity/:entityType/:entityId', ...)]. *)
Definition news_entity (entityType entityId : string) : M ReadResponse :=
  try_catch
    (if negb (includes entity_kinds entityType)
     then read_message 400 "Invalid entity type"
     else
       result <- db_query (select_entity_news entityType (PText entityId)) ;;
       read_json (EntityNewsList result))
    (read_message 500 "Server error").

Definition read (r : ReadRequest) : M ReadResponse :=
  match r with
  | GetAll => news_all
  | GetById id => news_get id
  | GetFor type id => news_for type id
  | GetEntity entityType entityId => news_entity entityType entityId
  end.

End Reads.

(** [req.params[name]] of a dispatched request. *)
Fixpoint param (name : string) (ps : list (string * string)) : string :=
  match ps with
  | [] => ""
  | (k, v) :: rest => if String.eqb k name then v else param name rest
  end.

(** The read request a route of the news router hands to its handler. *)
Definition read_request (h : NewsHandler) (ps : list (string * string))
  : option ReadRequest :=
  match h with
  | GetAllNews => Some GetAll
  | GetNewsById => Some (GetById (param "id" ps))
  | GetNewsFor => Some (GetFor (param "type" ps) (param "id" ps))
  | GetEntityNews => Some (GetEntity (param "entityType" ps) (param "entityId" ps))
  | _ => None
  end.

(** A route matches a request. *)
Definition route_matches (m : Method) (path : list string) (r : Route) : bool :=
  method_eqb (route_method r) m
  && match match_path (route_path r) path with
     | Some _ => true
     | None => false
     end.

(** The row the read by key shows for a news item and its author. *)
Definition view_of (d : DB) (x : NewsRow * UserRow) : NewsView :=
  let e := hd_error (links_of (news_id (fst x)) (news_entities d)) in
  {| view_news := fst x;
     view_author := usr_username (snd x);
     view_link := e;
     view_class := hd_error (filter (links_to "class" e) (classes d));
     view_module := hd_error (filter (links_to "module" e) (modules d));
     view_assignment := hd_error (filter (links_to "assignment" e) (assignments d)) |}.

(** ** The classes router

    The second router of [routes/news.js], over the tables of [db.js] that
    a class owns or that reference it; of the tables below a class only the
    key and the foreign keys are kept. *)

Record ClassRow := {
  class_id : Z;
  class_title : string;
  class_description : option string;
  class_image_url : option string;
  class_created_by : Z
}.

(** A row of [class_enrollments]. *)
Record Enrollment := { enr_id : Z; enr_class : Z; enr_user : Z }.

(** Rows of [module_folders], [modules], [module_files], [assignments] and
    [submissions]: their key and the columns that reference a parent. *)
Record FolderRow := { folder_id : Z; folder_class : option Z }.
Record ModuleRow := { module_id : Z; module_folder : option Z; module_class : option Z }.
Record FileRow := { file_id : Z; file_module : option Z }.
Record AssignmentRow := { assignment_id : Z; assignment_class : option Z }.
Record SubmissionRow := { submission_id : Z; submission_assignment : option Z }.

Record Campus := {
  campus_users : list UserRow;
  campus_classes : list ClassRow;
  enrollments : list Enrollment;
  folders : list FolderRow;
  campus_modules : list ModuleRow;
  module_files : list FileRow;
  campus_assignments : list AssignmentRow;
  submissions : list SubmissionRow
}.

Definition set_campus_classes (l : list ClassRow) (c : Campus) : Campus :=
  {| campus_users := campus_users c; campus_classes := l; enrollments := enrollments c;
     folders := folders c; campus_modules := campus_modules c;
     module_files := module_files c; campus_assignments := campus_assignments c;
     submissions := submissions c |}.

Definition set_enrollments (l : list Enrollment) (c : Campus) : Campus :=
  {| campus_users := campus_users c; campus_classes := campus_classes c; enrollments := l;
     folders := folders c; campus_modules := campus_modules c;
     module_files := module_files c; campus_assignments := campus_assignments c;
     submissions := submissions c |}.

(** The server state of the classes router: no handler of it opens a
    transaction. *)
Record CampusWorld := {
  campus : Campus;
  classes_id_seq : Z;
  enrollments_id_seq : Z;
  campus_faults : list bool
}.

Definition CampusSql (R : Type) := Campus -> option (R * Campus).

Definition MC (A : Type) := CampusWorld -> Outcome A * CampusWorld.

Definition c_ret {A} (a : A) : MC A := fun w => (Val a, w).

Definition c_bind {A B} (m : MC A) (f : A -> MC B) : MC B :=
  fun w =>
    match m w with
    | (Val a, w') => f a w'
    | (Exc, w') => (Exc, w')
    end.

(** [try { m } catch (error) { h }]. *)
Definition c_try_catch {A} (m h : MC A) : MC A :=
  fun w =>
    match m w with
    | (Val a, w') => (Val a, w')
    | (Exc, w') => h w'
    end.

Declare Scope campus_scope.
Delimit Scope campus_scope with campus.
Notation "x <- m ;; k" := (c_bind m (fun x => k))
  (at level 100, m at next level, right associativity) : campus_scope.
Notation "m ;; k" := (c_bind m (fun _ => k))
  (at level 100, right associativity) : campus_scope.

(** An awaited call: consumes the next entry of the fault schedule. *)
Definition c_await : MC unit :=
  fun w =>
    let w' := {| campus := campus w; classes_id_seq := classes_id_seq w;
                 enrollments_id_seq := enrollments_id_seq w;
                 campus_faults := tl (campus_faults w) |} in
    if hd false (campus_faults w) then (Exc, w') else (Val tt, w').

Definition c_run {R} (q : CampusSql R) : MC R :=
  fun w =>
    match q (campus w) with
    | Some (r, c) =>
        (Val r, {| campus := c; classes_id_seq := classes_id_seq w;
                   enrollments_id_seq := enrollments_id_seq w;
                   campus_faults := campus_faults w |})
    | None => (Exc, w)
    end.

(** [await db.query(...)]. *)
Definition c_query {R} (q : CampusSql R) : MC R :=
  (c_await ;; c_run q)%campus.

(** The default of a SERIAL column: the sequence raises once it has passed
    the largest INTEGER, and a value that is drawn stays drawn. *)
Definition nextval_classes : MC Z :=
  fun w =>
    if classes_id_seq w <=? 2147483647
    then (Val (classes_id_seq w),
          {| campus := campus w; classes_id_seq := classes_id_seq w + 1;
             enrollments_id_seq := enrollments_id_seq w;
             campus_faults := campus_faults w |})
    else (Exc, w).

Definition nextval_enrollments : MC Z :=
  fun w =>
    if enrollments_id_seq w <=? 2147483647
    then (Val (enrollments_id_seq w),
          {| campus := campus w; classes_id_seq := classes_id_seq w;
             enrollments_id_seq := enrollments_id_seq w + 1;
             campus_faults := campus_faults w |})
    else (Exc, w).

(** [await db.query(...)] of an INSERT whose SERIAL key the statement draws
    from [seq]: a statement that cannot be bound raises before it draws a
    key. *)
Definition c_query_serial {R} (seq : MC Z) (q : option (Z -> CampusSql R)) : MC R :=
  (c_await ;;
   match q with
   | Some run => id <- seq ;; c_run (run id)
   | None => fun w => (Exc, w)
   end)%campus.

(** [await uploadFile(file, 'classes')], then [uploadResult.url]. *)
Definition c_uploadFile (f : UploadedFile) : MC string :=
  (c_await ;; c_ret (cloud_url f))%campus.

(** [req.body] of the class routes. *)
Record ClassBody := { class_body_title : field; class_body_description : field }.

Inductive ClassAnswer :=
| ClassMessage (m : string)
| ClassJson (c : option ClassRow)
| ClassWithCreator (c : ClassRow) (creator_name : string)
| ClassList (rows : list (ClassRow * string)).

Record ClassResponse := { class_status : Z; class_answer : ClassAnswer }.

Definition c_message (code : Z) (m : string) : MC ClassResponse :=
  c_ret {| class_status := code; class_answer := ClassMessage m |}.

Inductive ClassRequest :=
| ClassGet (id : string)
| ClassCreate (user : ReqUser) (b : ClassBody) (file : option UploadedFile)
| ClassUpdate (user : ReqUser) (id : string) (b : ClassBody) (file : option UploadedFile)
| ClassDelete (user : ReqUser) (id : string)
| ClassEnroll (user : ReqUser) (id : string)
| ClassEnrolledMe (user : ReqUser).

(** The classes a class row references by a nullable column. *)
Definition refers (parent : option Z) (keys : list Z) : bool :=
  match parent with
  | Some k => existsb (fun x => x =? k) keys
  | None => false
  end.

Section ClassStatements.
Context {pg : PgInput}.

(** [SELECT c.*, u.username as creator_name FROM classes c JOIN users u ON
    c.created_by = u.id WHERE c.id = $1]. *)
Definition select_class_with_creator (id : Param) : CampusSql (list (ClassRow * UserRow)) :=
  fun c =>
    match int4 id with
    | Some i =>
        Some (filter (fun x => class_id (fst x) =? i)
                     (inner_join (fun k u => class_created_by k =? usr_id u)
                                 (campus_classes c) (campus_users c)), c)
    | None => None
    end.

(** [SELECT * FROM classes WHERE id = $1]. *)
Definition select_class (id : Param) : CampusSql (list ClassRow) :=
  fun c =>
    match int4 id with
    | Some i => Some (filter (fun k => class_id k =? i) (campus_classes c), c)
    | None => None
    end.

(** [INSERT INTO classes (title, description, image_url, created_by) VALUES
    ($1, $2, $3, $4) RETURNING *]: the parameters are converted to the
    types of their columns when the statement is bound ([None]: a column
    does not take its value); the bound statement runs with the key [id]
    drawn from the sequence. *)
Definition insert_class (title : string) (description image : option string)
  (created_by : Z) : option (Z -> CampusSql ClassRow) :=
  match varchar 100 title, text_opt description, varchar_opt 255 image with
  | Some t, Some descr, Some img =>
      Some (fun id c =>
              let r := {| class_id := id; class_title := t; class_description := descr;
                          class_image_url := img; class_created_by := created_by |} in
              if existsb (fun u => usr_id u =? created_by) (campus_users c)
                 && negb (existsb (fun k => class_id k =? id) (campus_classes c))
              then Some (r, set_campus_classes (campus_classes c ++ [r])%list c)
              else None)
  | _, _, _ => None
  end.

(** [UPDATE classes SET title = $1, description = $2, image_url = $3, ...
    WHERE id = $4 RETURNING *]: the parameters are converted whether or not
    a row has the key. *)
Definition update_class (title : string) (description image : option string) (id : Param)
  : CampusSql (list ClassRow) :=
  fun c =>
    match varchar 100 title, text_opt description, varchar_opt 255 image, int4 id with
    | Some t, Some descr, Some img, Some i =>
        let rows := map (fun k => if class_id k =? i
                                  then {| class_id := class_id k; class_title := t;
                                          class_description := descr;
                                          class_image_url := img;
                                          class_created_by := class_created_by k |}
                                  else k) (campus_classes c) in
        Some (filter (fun k => class_id k =? i) rows, set_campus_classes rows c)
    | _, _, _, _ => None
    end.

(** [DELETE FROM classes WHERE id = $1], with the ON DELETE CASCADE of
    [class_enrollments], [module_folders], [modules] and [assignments] on
    the class, of [modules] on the folder, of [module_files] on the module
    and of [submissions] on the assignment. *)
Definition delete_class (id : Param) : CampusSql unit :=
  fun c =>
    match int4 id with
    | Some i =>
        let gone := map class_id (filter (fun k => class_id k =? i) (campus_classes c)) in
        let gone_folders :=
          map folder_id (filter (fun f => refers (folder_class f) gone) (folders c)) in
        let gone_modules :=
          map module_id
              (filter (fun m => refers (module_class m) gone
                                || refers (module_folder m) gone_folders)
                      (campus_modules c)) in
        let gone_assignments :=
          map assignment_id
              (filter (fun a => refers (assignment_class a) gone) (campus_assignments c)) in
        Some (tt,
              {| campus_users := campus_users c;
                 campus_classes :=
                   filter (fun k => negb (class_id k =? i)) (campus_classes c);
                 enrollments :=
                   filter (fun e => negb (existsb (fun x => x =? enr_class e) gone))
                          (enrollments c);
                 folders :=
                   filter (fun f => negb (refers (folder_class f) gone)) (folders c);
                 campus_modules :=
                   filter (fun m => negb (refers (module_class m) gone
                                          || refers (module_folder m) gone_folders))
                          (campus_modules c);
                 module_files :=
                   filter (fun f => negb (refers (file_module f) gone_modules))
                          (module_files c);
                 campus_assignments :=
                   filter (fun a => negb (refers (assignment_class a) gone))
                          (campus_assignments c);
                 submissions :=
                   filter (fun s => negb (refers (submission_assignment s) gone_assignments))
                          (submissions c) |})
    | None => None
    end.

(** [SELECT * FROM class_enrollments WHERE class_id = $1 AND user_id = $2]. *)
Definition select_enrollment (cls user : Param) : CampusSql (list Enrollment) :=
  fun c =>
    match int4 cls, int4 user with
    | Some i, Some u =>
        Some (filter (fun e => (enr_class e =? i) && (enr_user e =? u)) (enrollments c), c)
    | _, _ => None
    end.

(** [INSERT INTO class_enrollments (class_id, user_id) VALUES ($1, $2)]:
    both foreign keys and the UNIQUE on the pair are enforced. *)
Definition insert_enrollment (cls user : Param) : option (Z -> CampusSql unit) :=
  match int4 cls, int4 user with
  | Some i, Some u =>
      Some (fun id c =>
              if existsb (fun k => class_id k =? i) (campus_classes c)
                 && existsb (fun x => usr_id x =? u) (campus_users c)
                 && negb (existsb (fun e => (enr_class e =? i) && (enr_user e =? u))
                                  (enrollments c))
                 && negb (existsb (fun e => enr_id e =? id) (enrollments c))
              then Some (tt, set_enrollments
                               (enrollments c
                                ++ [{| enr_id := id; enr_class := i;
                                       enr_user := u |}])%list c)
              else None)
  | _, _ => None
  end.

(** [ORDER BY e.enrolled_at DESC]: the order of the result is a parameter. *)
Variable latest_enrollment_first :
  list (ClassRow * UserRow * Enrollment) -> list (ClassRow * UserRow * Enrollment).

(** [SELECT c.*, u.username as creator_name, e.enrolled_at FROM classes c
    JOIN users u ON c.created_by = u.id JOIN class_enrollments e ON c.id =
    e.class_id WHERE e.user_id = $1 ORDER BY e.enrolled_at DESC]. *)
Definition select_enrolled (user : Param) : CampusSql (list (ClassRow * string)) :=
  fun c =>
    match int4 user with
    | Some u =>
        Some (map (fun x => (fst (fst x), usr_username (snd (fst x))))
                  (latest_enrollment_first
                     (filter (fun x => enr_user (snd x) =? u)
                        (inner_join (fun x e => class_id (fst x) =? enr_class e)
                           (inner_join (fun k u => class_created_by k =? usr_id u)
                                       (campus_classes c) (campus_users c))
                           (enrollments c)))), c)
    | None => None
    end.

Local Open Scope campus_scope.

(** The handler of [router.get('/:id', ...)]: a class by its key. *)
Definition class_get (id : string) : MC ClassResponse :=
  c_try_catch
    (result <- c_query (select_class_with_creator (PText id)) ;;
     match result with
     | [] => c_message 404 "Class not found"
     | row :: _ =>
         c_ret {| class_status := 200;
                  class_answer := ClassWithCreator (fst row) (usr_username (snd row)) |}
     end)
    (c_message 500 "Server error").

(** The handler of [router.post('/', ...)]: create a class. *)
Definition class_create (user : ReqUser) (b : ClassBody) (file : option UploadedFile)
  : MC ClassResponse :=
  c_try_catch
    (if negb (truthy (class_body_title b))
     then c_message 400 "Title is required"
     else
       imageUrl <- match file with
                   | Some f => url <- c_uploadFile f ;; c_ret (Some url)
                   | None => c_ret None
                   end ;;
       row <- c_query_serial nextval_classes
                (insert_class (text (class_body_title b)) (class_body_description b)
                   imageUrl (user_id user)) ;;
       c_ret {| class_status := 201; class_answer := ClassJson (Some row) |})
    (c_message 500 "Server error").

(** The handler of [router.put('/:id', ...)]: update a class. *)
Definition class_update (user : ReqUser) (id : string) (b : ClassBody)
  (file : option UploadedFile) : MC ClassResponse :=
  c_try_catch
    (if negb (truthy (class_body_title b))
     then c_message 400 "Title is required"
     else
       classCheck <- c_query (select_class (PText id)) ;;
       match classCheck with
       | [] => c_message 404 "Class not found"
       | row :: _ =>
           if negb (class_created_by row =? user_id user)
              && negb (String.eqb (user_role user) "aslab")
           then c_message 403 "Not authorized to update this class"
           else
             imageUrl <- match file with
                         | Some f => url <- c_uploadFile f ;; c_ret (Some url)
                         | None => c_ret (class_image_url row)
                         end ;;
             result <- c_query (update_class (text (class_body_title b))
                                  (class_body_description b) imageUrl (PText id)) ;;
             c_ret {| class_status := 200; class_answer := ClassJson (hd_error result) |}
       end)
    (c_message 500 "Server error").

(** The handler of [router.delete('/:id', ...)]: delete a class. *)
Definition class_delete (user : ReqUser) (id : string) : MC ClassResponse :=
  c_try_catch
    (classCheck <- c_query (select_class (PText id)) ;;
     match classCheck with
     | [] => c_message 404 "Class not found"
     | row :: _ =>
         if negb (class_created_by row =? user_id user)
            && negb (String.eqb (user_role user) "aslab")
         then c_message 403 "Not authorized to delete this class"
         else
           c_query (delete_class (PText id)) ;;
           c_message 200 "Class deleted successfully"
     end)
    (c_message 500 "Server error").

(** The handler of [router.post('/:id/enroll', ...)]. *)
Definition class_enroll (user : ReqUser) (id : string) : MC ClassResponse :=
  c_try_catch
    (classCheck <- c_query (select_class (PText id)) ;;
     match classCheck with
     | [] => c_message 404 "Class not found"
     | _ :: _ =>
         enrollmentCheck <- c_query (select_enrollment (PText id) (PNum (user_id user))) ;;
         if nonempty enrollmentCheck
         then c_message 400 "Already enrolled in this class"
         else
           c_query_serial nextval_enrollments
             (insert_enrollment (PText id) (PNum (user_id user))) ;;
           c_message 201 "Enrolled successfully"
     end)
    (c_message 500 "Server error").

(** The handler of [router.get('/enrolled/me', ...)]. *)
Definition class_enrolled_me (user : ReqUser) : MC ClassResponse :=
  c_try_catch
    (result <- c_query (select_enrolled (PNum (user_id user))) ;;
     c_ret {| class_status := 200; class_answer := ClassList result |})
    (c_message 500 "Server error").

Definition class_handle (r : ClassRequest) : MC ClassResponse :=
  match r with
  | ClassGet id => class_get id
  | ClassCreate u b f => class_create u b f
  | ClassUpdate u id b f => class_update u id b f
  | ClassDelete u id => class_delete u id
  | ClassEnroll u id => class_enroll u id
  | ClassEnrolledMe u => class_enrolled_me u
  end.

(** The state after serving a sequence of requests, one after the other. *)
Fixpoint class_serve (rs : list ClassRequest) (w : CampusWorld) : CampusWorld :=
  match rs with
  | [] => w
  | r :: rest => class_serve rest (snd (class_handle r w))
  end.

End ClassStatements.

(** The class a mutation request addresses, and the actor. *)
Definition class_target (r : ClassRequest) : option (string * ReqUser) :=
  match r with
  | ClassUpdate u id _ _ | ClassDelete u id => Some (id, u)
  | _ => None
  end.

(** The request passes the check an update makes on its body before it
    looks the class up. *)
Definition class_body_valid (r : ClassRequest) : bool :=
  match r with
  | ClassUpdate _ _ b _ => truthy (class_body_title b)
  | _ => true
  end.

Definition classes_of (i : Z) (c : Campus) : list ClassRow :=
  filter (fun k => class_id k =? i) (campus_classes c).

(** The rows of [class_enrollments] of a user in a class. *)
Definition enrollments_of (i u : Z) (c : Campus) : list Enrollment :=
  filter (fun e => (enr_class e =? i) && (enr_user e =? u)) (enrollments c).

(** The keys and references [db.js] declares for the tables of the classes
    router: the SERIAL keys of classes and enrollments are unique and below
    their sequences, an enrollment is UNIQUE in (class_id, user_id), and
    every reference that is not null names a stored row. *)
Definition campus_ok (sc se : Z) (c : Campus) : Prop :=
  NoDup (map class_id (campus_classes c)) /\
  (forall k, In k (campus_classes c) ->
             class_id k < sc /\ In (class_created_by k) (map usr_id (campus_users c))) /\
  NoDup (map enr_id (enrollments c)) /\
  NoDup (map (fun e => (enr_class e, enr_user e)) (enrollments c)) /\
  (forall e, In e (enrollments c) ->
             enr_id e < se /\ In (enr_class e) (map class_id (campus_classes c))
             /\ In (enr_user e) (map usr_id (campus_users c))) /\
  (forall f k, In f (folders c) -> folder_class f = Some k ->
               In k (map class_id (campus_classes c))) /\
  (forall m k, In m (campus_modules c) -> module_class m = Some k ->
               In k (map class_id (campus_classes c))) /\
  (forall m f, In m (campus_modules c) -> module_folder m = Some f ->
               In f (map folder_id (folders c))) /\
  (forall f m, In f (module_files c) -> file_module f = Some m ->
               In m (map module_id (campus_modules c))) /\
  (forall a k, In a (campus_assignments c) -> assignment_class a = Some k ->
               In k (map class_id (campus_classes c))) /\
  (forall s a, In s (submissions c) -> submission_assignment s = Some a ->
               In a (map assignment_id (campus_assignments c))).

Definition campus_world_ok (w : CampusWorld) : Prop :=
  campus_ok (classes_id_seq w) (enrollments_id_seq w) (campus w).

Definition campus_sql_keeps {R} (q : CampusSql R) : Prop :=
  forall sc se c r c', campus_ok sc se c -> q c = Some (r, c') -> campus_ok sc se c'.

Definition campus_keeps {A} (m : MC A) : Prop :=
  forall w, campus_world_ok w -> campus_world_ok (snd (m w)).

(** The primary keys of the tables the joined reads of the news router go
    through. *)
Definition read_keys_ok (d : DB) : Prop :=
  NoDup (map news_id (news d)) /\
  NoDup (map usr_id (users d)) /\
  NoDup (map ent_id (classes d)) /\
  NoDup (map ent_id (modules d)) /\
  NoDup (map ent_id (assignments d)) /\
  link_table_ok (news_entities d).

(** The rows of the sample tables are in the order of their creation:
    newest first is the reverse of a result. *)
Definition latest_first (A : Type) (key : A -> NewsRow) (l : list A) : list A := rev l.

(** The row the read by key shows for news item 7 of the sample data. *)
Definition sample_view : NewsView :=
  {| view_news := {| news_id := 7; news_title := "Midterm info"; news_content := "...";
                     news_image_url := None; news_created_by := 1 |};
     view_author := "ani";
     view_link := Some {| link_owner := 7; entity_type := "class"; entity_id := 3 |};
     view_class := Some {| ent_id := 3; ent_title := "Algoritma" |};
     view_module := None;
     view_assignment := None |}.

(** The listing of the sample data for class 3. *)
Definition sample_listing : list LinkedNews :=
  [ {| linked_news := {| news_id := 7; news_title := "Midterm info";
                         news_content := "..."; news_image_url := None;
                         news_created_by := 1 |};
       linked_author := "ani"; linked_type := "class"; linked_id := 3 |} ].

(** Sample data of the classes router: user 2 created class 3, user 1 is
    enrolled in it; the class has a folder, a module with a file, and an
    assignment with a submission. *)
Definition sample_class : ClassRow :=
  {| class_id := 3; class_title := "Algoritma"; class_description := None;
     class_image_url := None; class_created_by := 2 |}.

Definition sample_campus : Campus :=
  {| campus_users := [ {| usr_id := 1; usr_username := "ani" |};
                       {| usr_id := 2; usr_username := "budi" |} ];
     campus_classes := [ sample_class ];
     enrollments := [ {| enr_id := 1; enr_class := 3; enr_user := 1 |} ];
     folders := [ {| folder_id := 4; folder_class := Some 3 |} ];
     campus_modules := [ {| module_id := 6; module_folder := Some 4;
                            module_class := Some 3 |} ];
     module_files := [ {| file_id := 1; file_module := Some 6 |} ];
     campus_assignments := [ {| assignment_id := 2; assignment_class := Some 3 |} ];
     submissions := [ {| submission_id := 1; submission_assignment := Some 2 |} ] |}.

Definition sample_campus_world : CampusWorld :=
  {| campus := sample_campus; classes_id_seq := 4; enrollments_id_seq := 2;
     campus_faults := [] |}.

Definition class_body (t : field) : ClassBody :=
  {| class_body_title := t; class_body_description := None |}.

Definition sample_class_requests : list ClassRequest :=
  [ ClassCreate aslab (class_body (Some "Basis Data")) None;
    ClassEnroll creator "4";
    ClassEnroll creator "4";
    ClassUpdate aslab "3" (class_body (Some "Algoritma 2")) None;
    ClassDelete aslab "3" ].

(** A title of 101 characters. *)
Fixpoint replicate (n : nat) (c : ascii) : string :=
  match n with
  | O => EmptyString
  | S m => String c (replicate m c)
  end.

Definition sample_long_title : field := Some (replicate 101 "x").

Definition sample_long_body : NewsBody :=
  {| title := sample_long_title; content := Some "..."; linkedType := None;
     linkedId := None |}.

(** A title of 60 characters of two bytes each, and one of 100 characters
    followed by two spaces. *)
Fixpoint repeat_text (n : nat) (s : string) : string :=
  match n with
  | O => EmptyString
  | S m => s ++ repeat_text m s
  end.

Definition e_acute : string := String (ascii_of_nat 195) (String (ascii_of_nat 169) "").

Definition sample_wide_title : field := Some (repeat_text 60 e_acute).

Definition sample_padded_title : field := Some (replicate 100 "x" ++ "  ").

Definition sample_padded_body : NewsBody :=
  {| title := sample_padded_title; content := Some "..."; linkedType := Some "class";
     linkedId := Some "3" |}.

Definition sample_wide_body : ClassBody :=
  {| class_body_title := sample_wide_title; class_body_description := None |}.

(** Bodies without the required fields. *)
Definition sample_empty_news_body : NewsBody :=
  {| title := None; content := None; linkedType := None; linkedId := None |}.

Definition sample_empty_post_body : PostBody :=
  {| body_content := None; entityType := None; entityId := None |}.

(** The rows of the sample enrollments are in the order of their
    creation. *)
Definition enrolled_latest_first (l : list (ClassRow * UserRow * Enrollment))
  : list (ClassRow * UserRow * Enrollment) := rev l.

(** An update that nothing stops: no awaited call fails, the body passes
    validation, the record is stored and the actor passes the policy of the
    router, the columns take the values of the request, and the target
    asked for, if any, is stored. *)
Definition news_update_accepted {pg : PgInput} (u : ReqUser) (id : string) (b : NewsBody)
  (f : option UploadedFile) (w : World) : Prop :=
  faults w = [] /\
  body_valid (NewsUpdate u id b f) = true /\
  (exists i n rest,
      int4in id = Some i /\ news_of i (committed w) = n :: rest /\
      allowed NewsOwner u (news_created_by n) = true /\
      varchar_opt 255 (stored_image f (news_image_url n)) <> None) /\
  varchar 100 (text (title b)) <> None /\
  text_in (text (content b)) <> None /\
  (truthy (linkedType b) && truthy (linkedId b) = true ->
   exists e, int4in (text (linkedId b)) = Some e /\
             entity_present (text (linkedType b)) e (committed w) = true).

Definition posts_update_accepted {pg : PgInput} (u : ReqUser) (id : string) (b : PostBody)
  (f : option UploadedFile) (w : World) : Prop :=
  faults w = [] /\
  body_valid (PostsUpdate u id b f) = true /\
  (exists i p rest,
      int4in id = Some i /\ posts_of i (committed w) = p :: rest /\
      allowed PostOwner u (post_user_id p) = true /\
      varchar_opt 255 (stored_image f (post_image_url p)) <> None) /\
  text_in (text (body_content b)) <> None /\
  (truthy (entityType b) && truthy (entityId b) = true ->
   exists e, int4in (text (entityId b)) = Some e /\
             entity_present (text (entityType b)) e (committed w) = true).

(** The store with other tables of classes, modules and assignments. *)
Definition with_entities (cs ms asg : list Entity) (d : DB) : DB :=
  {| users := users d; classes := cs; modules := ms; assignments := asg;
     news := news d; news_entities := news_entities d; posts := posts d;
     posts_entities := posts_entities d |}.

Definition world_with_entities (cs ms asg : list Entity) (w : World) : World :=
  set_committed (with_entities cs ms asg (committed w)) w.

(** A body that names one half of a target: a kind and no id, or an id
    and no kind. *)
Definition partial_news_target (b : NewsBody) : bool :=
  xorb (truthy (linkedType b)) (truthy (linkedId b)).

Definition partial_post_target (b : PostBody) : bool :=
  xorb (truthy (entityType b)) (truthy (entityId b)).

(** ** Text values *)

Lemma option_map_cons_inv A (x : A) o l :
  option_map (cons x) o = Some l -> exists l', o = Some l' /\ l = x :: l'.
Proof. destruct o as [l'|]; simpl; [ intros [= <-]; eauto | discriminate ]. Qed.

Lemma utf8_chars_sound_le n : forall s cs,
  (String.length s <= n)%nat -> utf8_chars s = Some cs ->
  text_of cs = s /\ Forall is_char cs.
Proof.
  induction n as [|n IH]; intros s cs Hn H.
  - destruct s; [ | simpl in Hn; lia ]. injection H as <-. split; constructor.
  - destruct s as [|a r]; [ injection H as <-; split; constructor | ].
    simpl in Hn. cbn [utf8_chars] in H. cbv zeta in H.
    destruct (nat_of_ascii a =? 0)%nat eqn:E0; [ discriminate | ].
    destruct (nat_of_ascii a <? 128)%nat eqn:E1.
    { apply option_map_cons_inv in H. destruct H as [l [H ->]].
      destruct (IH r l ltac:(lia) H) as [Ht Hf]. split; [ simpl; rewrite Ht; reflexivity | ].
      constructor; [ | exact Hf ]. split; [ discriminate | ].
      intros r'. cbn [append utf8_chars]. cbv zeta. rewrite E0, E1. reflexivity. }
    destruct (nat_of_ascii a <? 194)%nat eqn:E2; [ discriminate | ].
    destruct (nat_of_ascii a <? 224)%nat eqn:E3.
    { destruct r as [|b r1]; [ discriminate | ].
      destruct (second_byte a b) eqn:Eb; [ | discriminate ].
      apply option_map_cons_inv in H. destruct H as [l [H ->]]. simpl in Hn.
      destruct (IH r1 l ltac:(lia) H) as [Ht Hf]. split; [ simpl; rewrite Ht; reflexivity | ].
      constructor; [ | exact Hf ]. split; [ discriminate | ].
      intros r'. cbn [append utf8_chars]. cbv zeta. rewrite E0, E1, E2, E3, Eb. reflexivity. }
    destruct (nat_of_ascii a <? 240)%nat eqn:E4.
    { destruct r as [|b [|c r2]]; try discriminate.
      destruct (second_byte a b && continuation c) eqn:Eb; [ | discriminate ].
      apply option_map_cons_inv in H. destruct H as [l [H ->]]. simpl in Hn.
      destruct (IH r2 l ltac:(lia) H) as [Ht Hf]. split; [ simpl; rewrite Ht; reflexivity | ].
      constructor; [ | exact Hf ]. split; [ discriminate | ].
      intros r'. cbn [append utf8_chars]. cbv zeta. rewrite E0, E1, E2, E3, E4, Eb.
      reflexivity. }
    destruct (nat_of_ascii a <? 245)%nat eqn:E5; [ | discriminate ].
    destruct r as [|b [|c [|d r3]]]; try discriminate.
    destruct (second_byte a b && continuation c && continuation d) eqn:Eb; [ | discriminate ].
    apply option_map_cons_inv in H. destruct H as [l [H ->]]. simpl in Hn.
    destruct (IH r3 l ltac:(lia) H) as [Ht Hf]. split; [ simpl; rewrite Ht; reflexivity | ].
    constructor; [ | exact Hf ]. split; [ discriminate | ].
    intros r'. cbn [append utf8_chars]. cbv zeta. rewrite E0, E1, E2, E3, E4, E5, Eb.
    reflexivity.
Qed.

Lemma utf8_chars_sound s cs :
  utf8_chars s = Some cs -> text_of cs = s /\ Forall is_char cs.
Proof. apply (utf8_chars_sound_le (String.length s)). lia. Qed.

Lemma utf8_chars_text_of cs : Forall is_char cs -> utf8_chars (text_of cs) = Some cs.
Proof.
  induction 1 as [|c cs [_ Hc] _ IH]; [ reflexivity | ].
  simpl. rewrite Hc, IH. reflexivity.
Qed.

Lemma length_append (a b : string) :
  String.length (a ++ b) = (String.length a + String.length b)%nat.
Proof. induction a as [|c a IH]; simpl; [ reflexivity | rewrite IH; reflexivity ]. Qed.

Lemma Forall_firstn A (P : A -> Prop) n (l : list A) : Forall P l -> Forall P (firstn n l).
Proof.
  intros H. revert n. induction H as [|x l Hx _ IH]; intros [|n]; simpl; constructor; auto.
Qed.

Lemma text_of_length cs :
  Forall is_char cs -> (List.length cs <= String.length (text_of cs))%nat.
Proof.
  induction 1 as [|c cs [Hc _] _ IH]; simpl; [ lia | ].
  rewrite length_append. destruct c; [ congruence | simpl; lia ].
Qed.

(** What a [VARCHAR(n)] column stores is text of at most [n] characters. *)
Lemma varchar_chars n s t :
  varchar n s = Some t ->
  exists cs, utf8_chars t = Some cs /\ (List.length cs <= n)%nat.
Proof.
  unfold varchar. destruct (utf8_chars s) as [cs|] eqn:E; [ | discriminate ].
  destruct (List.length cs <=? n)%nat eqn:L.
  - intros [= <-]. exists cs. split; [ exact E | apply Nat.leb_le; exact L ].
  - destruct (forallb _ _); [ | discriminate ]. intros [= <-].
    exists (firstn n cs). split; [ | apply firstn_le_length ].
    apply utf8_chars_text_of, Forall_firstn. apply (utf8_chars_sound s cs E).
Qed.

Lemma varchar_fits n s cs :
  utf8_chars s = Some cs -> (List.length cs <= n)%nat -> varchar n s = Some s.
Proof.
  intros E L. unfold varchar. rewrite E. apply Nat.leb_le in L. rewrite L. reflexivity.
Qed.

Lemma varchar_too_long n s cs :
  utf8_chars s = Some cs -> (n < List.length cs)%nat ->
  forallb (String.eqb " ") (skipn n cs) = false -> varchar n s = None.
Proof.
  intros E L F. unfold varchar. rewrite E, F.
  destruct (List.length cs <=? n)%nat eqn:L'; [ apply Nat.leb_le in L'; lia | reflexivity ].
Qed.

Lemma text_in_some s t : text_in s = Some t -> t = s.
Proof. unfold text_in. destruct (utf8_chars s); [ intros [= <-]; reflexivity | discriminate ]. Qed.

Lemma includes_kinds t :
  includes entity_kinds t = true -> t = "class" \/ t = "module" \/ t = "assignment".
Proof.
  unfold includes, entity_kinds. simpl. rewrite !orb_true_iff, !String.eqb_eq.
  intros [H | [H | [H | H]]]; auto; discriminate.
Qed.

(** A kind of the enumeration is stored as it is. *)
Lemma varchar_kind t : includes entity_kinds t = true -> varchar 20 t = Some t.
Proof.
  intros H. destruct (includes_kinds t H) as [-> | [-> | ->]]; reflexivity.
Qed.

(** A value that a [VARCHAR(n)] column cuts keeps [n] characters. *)
Lemma varchar_cut n t k :
  varchar n t = Some k -> k = t \/ (n <= String.length k)%nat.
Proof.
  unfold varchar. destruct (utf8_chars t) as [cs|] eqn:E; [ | discriminate ].
  destruct (List.length cs <=? n)%nat eqn:L; [ intros [= <-]; left; reflexivity | ].
  destruct (forallb _ _); [ | discriminate ]. intros [= <-]. right.
  apply Nat.leb_gt in L.
  etransitivity; [ | apply text_of_length, Forall_firstn, (utf8_chars_sound t cs E) ].
  rewrite length_firstn. lia.
Qed.

(** A value that passes the CHECK of the kind column was not cut. *)
Lemma varchar_check t k :
  varchar 20 t = Some k -> entity_type_check k = true -> k = t.
Proof.
  intros Hv Hk. destruct (varchar_cut 20 t k Hv) as [H | H]; [ exact H | ].
  exfalso. destruct (includes_kinds _ Hk) as [E | [E | E]]; rewrite E in H; simpl in H; lia.
Qed.

(** ** The invariant of the link tables *)

Create HintDb preserve.

Lemma includes_In l s : includes l s = true -> In s l.
Proof.
  unfold includes. rewrite existsb_exists. intros [x [Hin Heq]].
  apply String.eqb_eq in Heq. subst. exact Hin.
Qed.

Lemma entity_type_check_In t : entity_type_check t = true -> In t entity_kinds.
Proof.
  unfold entity_type_check. intros H. apply includes_In in H. exact H.
Qed.

Lemma links_of_app o t1 t2 : links_of o (t1 ++ t2) = (links_of o t1 ++ links_of o t2)%list.
Proof. unfold links_of. apply filter_app. Qed.

Lemma existsb_links_of o tbl :
  existsb (fun x => link_owner x =? o) tbl = nonempty (links_of o tbl).
Proof.
  unfold links_of. induction tbl as [|x t IH]; simpl; [ reflexivity | ].
  destruct (link_owner x =? o); simpl; auto.
Qed.

Lemma link_insert_ok owners r tbl tbl' :
  link_table_ok tbl -> link_insert owners r tbl = Some tbl' -> link_table_ok tbl'.
Proof.
  unfold link_insert. intros [Hkey Hall] H.
  destruct (existsb (fun o => o =? link_owner r) owners); simpl in H; [ | discriminate ].
  destruct (existsb (fun x => link_owner x =? link_owner r) tbl) eqn:Hpk;
    simpl in H; [ discriminate | ].
  destruct (entity_type_check (entity_type r)) eqn:Hck; [ | discriminate ].
  injection H as <-. split.
  - intros o. rewrite links_of_app, length_app. simpl.
    destruct (link_owner r =? o) eqn:E; simpl.
    + apply Z.eqb_eq in E. subst o. rewrite existsb_links_of in Hpk.
      destruct (links_of (link_owner r) tbl); [ simpl; lia | discriminate ].
    + specialize (Hkey o). lia.
  - apply Forall_app. split; [ exact Hall | ].
    constructor; [ apply entity_type_check_In; exact Hck | constructor ].
Qed.

Lemma links_of_update o' o t e tbl :
  links_of o' (map (fun x => if link_owner x =? o
                             then {| link_owner := o; entity_type := t; entity_id := e |}
                             else x) tbl)
  = map (fun x => if link_owner x =? o
                  then {| link_owner := o; entity_type := t; entity_id := e |}
                  else x) (links_of o' tbl).
Proof.
  unfold links_of. induction tbl as [|x tl IH]; simpl; [ reflexivity | ].
  destruct (link_owner x =? o) eqn:E; simpl.
  - assert (link_owner x = o) as Ho by lia.
    replace (o =? o') with (link_owner x =? o') by (rewrite Ho; reflexivity).
    destruct (link_owner x =? o'); simpl; rewrite ?E, IH; reflexivity.
  - destruct (link_owner x =? o'); simpl; rewrite ?E, IH; reflexivity.
Qed.

Lemma link_update_ok o t e tbl tbl' :
  link_table_ok tbl -> link_update o t e tbl = Some tbl' -> link_table_ok tbl'.
Proof.
  unfold link_update. intros [Hkey Hall] H.
  destruct (negb (existsb (fun x => link_owner x =? o) tbl) || entity_type_check t) eqn:G;
    [ | discriminate ].
  injection H as <-. split.
  - intros o'. rewrite links_of_update, length_map. apply Hkey.
  - rewrite Forall_forall in *. intros y Hy. apply in_map_iff in Hy.
    destruct Hy as [x [Hx Hin]]. destruct (link_owner x =? o) eqn:E.
    + subst y. simpl. apply entity_type_check_In.
      apply orb_true_iff in G. destruct G as [G | G]; [ | exact G ].
      apply negb_true_iff in G.
      assert (existsb (fun x => link_owner x =? o) tbl = true) as C
          by (apply existsb_exists; exists x; auto).
      congruence.
    + subst y. apply Hall. exact Hin.
Qed.

Lemma links_of_delete_le o' o tbl :
  (List.length (links_of o' (link_delete o tbl)) <= List.length (links_of o' tbl))%nat.
Proof.
  unfold links_of, link_delete. induction tbl as [|x l IH]; simpl; [ lia | ].
  destruct (link_owner x =? o); simpl; destruct (link_owner x =? o'); simpl; lia.
Qed.

Lemma link_delete_ok o tbl : link_table_ok tbl -> link_table_ok (link_delete o tbl).
Proof.
  intros [Hkey Hall]. split.
  - intros o'. pose proof (links_of_delete_le o' o tbl). specialize (Hkey o'). lia.
  - unfold link_delete. rewrite Forall_forall in *. intros y Hy.
    apply filter_In in Hy. apply Hall, Hy.
Qed.

Section Invariant.
Context {pg : PgInput}.

(** Every statement of the handlers keeps the constraints of the link
    tables. *)
Ltac sql_ok_tac :=
  intros d r d' [Hn Hp] H; cbv beta zeta delta [select_entity select_user select_news
    select_user_profile reading_users
    select_news_complete update_news delete_news select_news_entities
    insert_news_entities update_news_entities delete_news_entities select_posts
    select_posts_complete update_posts delete_posts select_posts_entities
    insert_posts_entities update_posts_entities delete_posts_entities] in H;
  repeat match type of H with
         | match ?x with _ => _ end = _ => destruct x eqn:?; try discriminate
         | (if ?x then _ else _) = _ => destruct x eqn:?; try discriminate
         end;
  injection H as <- <-; split; simpl;
  eauto using link_insert_ok, link_update_ok, link_delete_ok.

Lemma select_entity_ok tbl id : sql_ok (select_entity tbl id).
Proof. sql_ok_tac. Qed.
Lemma select_user_ok id : sql_ok (select_user id).
Proof. sql_ok_tac. Qed.
Lemma select_user_profile_ok id : sql_ok (select_user_profile id).
Proof. sql_ok_tac. Qed.
Lemma select_news_ok id : sql_ok (select_news id).
Proof. sql_ok_tac. Qed.
Lemma select_news_complete_ok id : sql_ok (select_news_complete id).
Proof. sql_ok_tac. Qed.
Lemma insert_news_ok t c im u run i :
  insert_news t c im u = Some run -> sql_ok (run i).
Proof.
  unfold insert_news. intros Hr.
  repeat match type of Hr with
         | match ?x with _ => _ end = _ => destruct x; try discriminate
         end.
  injection Hr as <-. sql_ok_tac.
Qed.
Lemma update_news_ok t c im id : sql_ok (update_news t c im id).
Proof. sql_ok_tac. Qed.
Lemma delete_news_ok id : sql_ok (delete_news id).
Proof. sql_ok_tac. Qed.
Lemma select_news_entities_ok id : sql_ok (select_news_entities id).
Proof. sql_ok_tac. Qed.
Lemma insert_news_entities_ok i t e : sql_ok (insert_news_entities i t e).
Proof. sql_ok_tac. Qed.
Lemma update_news_entities_ok t e i : sql_ok (update_news_entities t e i).
Proof. sql_ok_tac. Qed.
Lemma delete_news_entities_ok id : sql_ok (delete_news_entities id).
Proof. sql_ok_tac. Qed.
Lemma select_posts_ok id : sql_ok (select_posts id).
Proof. sql_ok_tac. Qed.
Lemma select_posts_complete_ok id : sql_ok (select_posts_complete id).
Proof. sql_ok_tac. Qed.
Lemma insert_posts_ok u c im run i :
  insert_posts u c im = Some run -> sql_ok (run i).
Proof.
  unfold insert_posts. intros Hr.
  repeat match type of Hr with
         | match ?x with _ => _ end = _ => destruct x; try discriminate
         end.
  injection Hr as <-. sql_ok_tac.
Qed.
Lemma update_posts_ok c im id : sql_ok (update_posts c im id).
Proof. sql_ok_tac. Qed.
Lemma delete_posts_ok id : sql_ok (delete_posts id).
Proof. sql_ok_tac. Qed.
Lemma select_posts_entities_ok id : sql_ok (select_posts_entities id).
Proof. sql_ok_tac. Qed.
Lemma insert_posts_entities_ok i t e : sql_ok (insert_posts_entities i t e).
Proof. sql_ok_tac. Qed.
Lemma update_posts_entities_ok t e i : sql_ok (update_posts_entities t e i).
Proof. sql_ok_tac. Qed.
Lemma delete_posts_entities_ok id : sql_ok (delete_posts_entities id).
Proof. sql_ok_tac. Qed.

Lemma preserves_ret A (a : A) : preserves (ret a).
Proof. intros w H. exact H. Qed.

Lemma preserves_throw A : preserves (@throw A).
Proof. intros w H. exact H. Qed.

Lemma preserves_bind A B (m : M A) (f : A -> M B) :
  preserves m -> (forall a, preserves (f a)) -> preserves (bind m f).
Proof.
  intros Hm Hf w H. unfold bind. specialize (Hm w H).
  destruct (m w) as [[a|] w']; simpl in *; [ apply Hf; exact Hm | exact Hm ].
Qed.

Lemma preserves_try_catch A (m h : M A) :
  preserves m -> preserves h -> preserves (try_catch m h).
Proof.
  intros Hm Hh w H. unfold try_catch. specialize (Hm w H).
  destruct (m w) as [[a|] w']; simpl in *; [ exact Hm | apply Hh; exact Hm ].
Qed.

Lemma preserves_finally A (m : M A) (f : M unit) :
  preserves m -> preserves f -> preserves (finally m f).
Proof.
  intros Hm Hf w H. unfold finally. specialize (Hm w H).
  destruct (m w) as [o w']; simpl in *. specialize (Hf w' Hm).
  destruct (f w') as [[u|] w'']; simpl in *; exact Hf.
Qed.

Lemma preserves_await_io : preserves await_io.
Proof.
  intros w H. unfold await_io. destruct (hd false (faults w)); exact H.
Qed.

Lemma preserves_run_committed R (q : Sql R) : sql_ok q -> preserves (run_committed q).
Proof.
  intros Hq w [Hc Ht]. unfold run_committed.
  destruct (q (committed w)) as [[r d]|] eqn:E; simpl; [ | split; assumption ].
  split; [ exact (Hq _ _ _ Hc E) | exact Ht ].
Qed.

Lemma preserves_run_client R (q : Sql R) : sql_ok q -> preserves (run_client q).
Proof.
  intros Hq w H. unfold run_client. destruct (txn w) as [t|] eqn:Et.
  - destruct H as [Hc Ht]. destruct (q t) as [[r d]|] eqn:E; simpl.
    + split; [ exact Hc | ]. intros t' [= <-]. exact (Hq _ _ _ (Ht _ Et) E).
    + split; assumption.
  - apply preserves_run_committed; assumption.
Qed.

Lemma preserves_db_query R (q : Sql R) : sql_ok q -> preserves (db_query q).
Proof.
  intros Hq. apply preserves_bind;
    [ apply preserves_await_io | intros _; apply preserves_run_committed, Hq ].
Qed.

Lemma preserves_client_query R (q : Sql R) : sql_ok q -> preserves (client_query q).
Proof.
  intros Hq. apply preserves_bind;
    [ apply preserves_await_io | intros _; apply preserves_run_client, Hq ].
Qed.

Lemma preserves_nextval_news : preserves nextval_news.
Proof. intros w H. unfold nextval_news. destruct (_ <=? _); exact H. Qed.

Lemma preserves_nextval_posts : preserves nextval_posts.
Proof. intros w H. unfold nextval_posts. destruct (_ <=? _); exact H. Qed.

Lemma preserves_client_query_serial R (seq : M Z) (q : option (Z -> Sql R)) :
  preserves seq -> (forall run i, q = Some run -> sql_ok (run i)) ->
  preserves (client_query_serial seq q).
Proof.
  intros Hs Hq. apply preserves_bind; [ apply preserves_await_io | intros _ ].
  destruct q as [run|]; [ | apply preserves_throw ].
  apply preserves_bind; [ exact Hs | intros i; apply preserves_run_client ].
  apply (Hq run i eq_refl).
Qed.

Lemma preserves_insert_news t c im u :
  preserves (client_query_serial nextval_news (insert_news t c im u)).
Proof.
  apply preserves_client_query_serial; [ apply preserves_nextval_news | ].
  intros run i. apply insert_news_ok.
Qed.

Lemma preserves_insert_posts u c im :
  preserves (client_query_serial nextval_posts (insert_posts u c im)).
Proof.
  apply preserves_client_query_serial; [ apply preserves_nextval_posts | ].
  intros run i. apply insert_posts_ok.
Qed.

Lemma preserves_drop_txn : preserves (fun w => (Val tt, set_txn None w)).
Proof. intros w [Hc _]. split; [ exact Hc | discriminate ]. Qed.

Lemma preserves_pool_connect : preserves pool_connect.
Proof.
  apply preserves_bind; [ apply preserves_await_io | intros _; apply preserves_drop_txn ].
Qed.

Lemma preserves_client_rollback : preserves client_rollback.
Proof.
  apply preserves_bind; [ apply preserves_await_io | intros _; apply preserves_drop_txn ].
Qed.

Lemma preserves_client_release : preserves client_release.
Proof. apply preserves_drop_txn. Qed.

Lemma preserves_client_begin : preserves client_begin.
Proof.
  apply preserves_bind; [ apply preserves_await_io | intros _ ].
  intros w H. destruct (txn w) eqn:E; simpl; [ exact H | ].
  destruct H as [Hc Ht]. split; [ exact Hc | ]. intros t [= <-]. exact Hc.
Qed.

Lemma preserves_client_commit : preserves client_commit.
Proof.
  apply preserves_bind; [ apply preserves_await_io | intros _ ].
  intros w H. destruct (txn w) eqn:E; simpl; [ | exact H ].
  destruct H as [Hc Ht]. split; [ apply Ht; exact E | discriminate ].
Qed.

Lemma preserves_uploadFile f : preserves (uploadFile f).
Proof.
  apply preserves_bind; [ apply preserves_await_io | intros _; apply preserves_ret ].
Qed.

Lemma preserves_message c m : preserves (message c m).
Proof. apply preserves_ret. Qed.

#[local] Hint Resolve preserves_ret preserves_throw preserves_await_io
  preserves_db_query preserves_client_query preserves_insert_news
  preserves_insert_posts preserves_pool_connect
  preserves_client_rollback preserves_client_release preserves_client_begin
  preserves_client_commit preserves_uploadFile preserves_message
  select_entity_ok select_user_ok select_user_profile_ok select_news_ok
  select_news_complete_ok update_news_ok delete_news_ok select_news_entities_ok
  insert_news_entities_ok update_news_entities_ok delete_news_entities_ok
  select_posts_ok select_posts_complete_ok update_posts_ok
  delete_posts_ok select_posts_entities_ok insert_posts_entities_ok
  update_posts_entities_ok delete_posts_entities_ok : preserve.

Ltac preserve_step :=
  first
    [ solve [ auto with preserve ]
    | match goal with
      | |- preserves (if ?b then _ else _) => destruct b
      | |- preserves (match ?x with _ => _ end) => destruct x
      end
    | apply preserves_try_catch
    | apply preserves_finally
    | apply preserves_bind; [ | intros ? ] ].

Ltac preserve := cbv zeta; repeat preserve_step.

Lemma preserves_entity_exists kind id : preserves (entity_exists kind id).
Proof. unfold entity_exists. preserve. Qed.

Lemma preserves_entity_details kind id : preserves (entity_details kind id).
Proof. unfold entity_details. preserve. Qed.

#[local] Hint Resolve preserves_entity_exists preserves_entity_details : preserve.

Lemma preserves_handle r : preserves (handle r).
Proof.
  destruct r; simpl;
    unfold news_create, news_create_transaction, news_update, news_link, news_unlink,
      news_delete, posts_create, posts_create_transaction, posts_update, posts_link,
      posts_unlink, posts_delete;
    preserve.
Qed.

Lemma serve_ok rs : forall w, world_ok w -> world_ok (serve rs w).
Proof.
  induction rs as [|r rs IH]; intros w H; simpl; [ exact H | ].
  apply IH, preserves_handle, H.
Qed.

(** C2. After any sequence of create, update, link, unlink and delete
    requests, issued by any actors with any arguments and under any
    schedule of I/O failures, a store that satisfied the key and CHECK
    constraints of its link tables holds, for every owner id, at most one
    link row of that owner in [news_entities] and in [posts_entities], and
    the kind of such a row is one of class, module, assignment. *)
Theorem single_link_row_invariant (rs : list Request) (w : World) (owner : Z)
  (H : world_ok w) :
  let d := committed (serve rs w) in
  ((List.length (links_of owner (news_entities d)) <= 1)%nat /\
   forall r, In r (links_of owner (news_entities d)) -> In (entity_type r) entity_kinds) /\
  ((List.length (links_of owner (posts_entities d)) <= 1)%nat /\
   forall r, In r (links_of owner (posts_entities d)) -> In (entity_type r) entity_kinds).
Proof.
  destruct (serve_ok rs w H) as [[[Kn An] [Kp Ap]] _]. simpl.
  rewrite Forall_forall in An, Ap.
  repeat split; auto; intros r Hr; apply filter_In in Hr; [ apply An | apply Ap ]; apply Hr.
Qed.

End Invariant.

(** ** Symbolic execution of the handlers *)

(** One case split on the innermost scrutinee of a [match] or [if]. *)
Ltac break_scrutinee x :=
  lazymatch x with
  | context [match ?y with _ => _ end] => fail
  | _ => destruct x eqn:?
  end.

Ltac break_match :=
  match goal with
  | |- context [match ?x with _ => _ end] => break_scrutinee x
  | H : context [match ?x with _ => _ end] |- _ => break_scrutinee x
  end.

Ltac unfold_handlers :=
  unfold news_create, news_create_transaction, news_update, news_link, news_unlink,
    news_delete, posts_create, posts_create_transaction, posts_update, posts_link,
    posts_unlink, posts_delete, entity_exists, entity_details.

Ltac unfold_monad :=
  unfold message, uploadFile, pool_connect, client_begin, client_query,
    client_query_serial, client_commit, client_rollback, client_release, db_query,
    nextval_news, nextval_posts, try_catch, finally, bind, ret, throw, await_io,
    run_client, run_committed.

Ltac unfold_sql :=
  unfold select_entity, select_user, select_user_profile, reading_users, select_news,
    select_news_complete, insert_news, update_news, delete_news, select_news_entities, insert_news_entities,
    update_news_entities, delete_news_entities, select_posts, select_posts_complete,
    insert_posts, update_posts, delete_posts, select_posts_entities,
    insert_posts_entities, update_posts_entities, delete_posts_entities, int4.

(** The values the columns took, once a run has bound its statements:
    text is stored as it is, and so is a kind that passes its CHECK. *)
Ltac settle_columns :=
  repeat match goal with
         | H : text_in ?c = Some ?s |- _ => apply text_in_some in H; subst s
         | H : varchar 20 ?t = Some ?k, C : _ && _ = true |- _ =>
             let E := fresh "E" in
             assert (k = t) as E
                 by (apply (varchar_check t k H); apply andb_true_iff in C; apply C);
             subst k; clear H
         | H : varchar 20 ?t = Some ?k, C : _ || _ = true |- _ =>
             let E := fresh "E" in
             assert (k = t) as E by (apply (varchar_check t k H); exact C);
             subst k; clear H
         end.

(** Symbolic execution of a handler: every branch of the run. *)
Ltac run_handler :=
  unfold_handlers; unfold_monad; unfold_sql; cbn;
  repeat (break_match; cbn in *; try discriminate).

(** ** Existence and ownership checks *)

Section Policy.
Context {pg : PgInput}.

Lemma forbidden_only_if_refused r o id u w resp :
  target r = Some (o, id, u) ->
  fst (handle r w) = Val resp ->
  status resp = 403 ->
  exists i c, int4in id = Some i /\ creator_of o i (committed w) = Some c
              /\ allowed o u c = false.
Proof.
  intros Ht Hr Hs.
  remember (exists i c, int4in id = Some i /\ creator_of o i (committed w) = Some c
                        /\ allowed o u c = false) as G eqn:HG.
  destruct r; simpl in Ht; try discriminate; injection Ht as <- <- <-;
    simpl in Hr; revert Hr; run_handler.
  all: intros Hr; injection Hr as Hr; subst resp; try discriminate Hs.
  all: subst G;
    match goal with
    | Hi : int4in _ = Some ?z, Hf : filter _ _ = ?n :: _ |- _ =>
        first [ exists z, (news_created_by n) | exists z, (post_user_id n) ];
        unfold creator_of, allowed, canMutate; rewrite Hf; simpl;
        repeat split; try assumption
    end.
  all: try (apply negb_true_iff; assumption).
  all: match goal with
       | H : negb ?a && negb ?b = true |- _ => destruct a, b; simpl in *; congruence
       end.
Qed.

(** The validation of an update body, as the conditions of the handler. *)
Lemma body_valid_news u i b f :
  body_valid (NewsUpdate u i b f) = true ->
  negb (truthy (title b)) || negb (truthy (content b)) = false /\
  truthy (linkedType b) && negb (includes entity_kinds (text (linkedType b))) = false.
Proof.
  unfold body_valid. destruct (truthy (title b)), (truthy (content b)), (truthy (linkedType b)),
    (includes entity_kinds (text (linkedType b))); simpl; intros; split; congruence.
Qed.

Lemma body_valid_posts u i b f :
  body_valid (PostsUpdate u i b f) = true ->
  negb (truthy (body_content b)) = false /\
  truthy (entityType b) && negb (includes entity_kinds (text (entityType b))) = false.
Proof.
  unfold body_valid. destruct (truthy (body_content b)), (truthy (entityType b)),
    (includes entity_kinds (text (entityType b))); simpl; intros; split; congruence.
Qed.

(** Runs a mutation handler up to the lookup of its owner record. *)
Ltac run_to_lookup Hb Hi Hf :=
  simpl handle;
  try (apply body_valid_news in Hb;
       let H1 := fresh in let H2 := fresh in
       destruct Hb as [H1 H2]; unfold news_update; rewrite H1, H2);
  try (apply body_valid_posts in Hb;
       let H1 := fresh in let H2 := fresh in
       destruct Hb as [H1 H2]; unfold posts_update; rewrite H1, H2);
  unfold news_link, news_unlink, news_delete, posts_link, posts_unlink, posts_delete;
  unfold_monad; cbn; rewrite Hf; cbn;
  unfold select_news, select_posts, int4; rewrite Hi; cbn.

Lemma refused_gives_forbidden r o id u i c w :
  target r = Some (o, id, u) ->
  body_valid r = true ->
  int4in id = Some i ->
  hd false (faults w) = false ->
  creator_of o i (committed w) = Some c ->
  allowed o u c = false ->
  exists m, fst (handle r w) = Val {| status := 403; body := Message m |}.
Proof.
  intros Ht Hb Hi Hf Hc Ha.
  destruct r; simpl in Ht; try discriminate; injection Ht as <- <- <-;
    unfold creator_of, allowed, canMutate in *; run_to_lookup Hb Hi Hf.
  all: match type of Hc with
       | context [filter ?f ?l] => destruct (filter f l) eqn:E
       end; simpl in Hc; try discriminate; injection Hc as <-.
  all: try (apply orb_false_iff in Ha; destruct Ha as [Ha1 Ha2]; rewrite Ha1, Ha2).
  all: try rewrite Ha.
  all: cbn; eexists; reflexivity.
Qed.

Lemma missing_gives_not_found r o id u i w :
  target r = Some (o, id, u) ->
  body_valid r = true ->
  int4in id = Some i ->
  hd false (faults w) = false ->
  creator_of o i (committed w) = None ->
  exists m, fst (handle r w) = Val {| status := 404; body := Message m |}.
Proof.
  intros Ht Hb Hi Hf Hc.
  destruct r; simpl in Ht; try discriminate; injection Ht as <- <- <-;
    unfold creator_of in *; run_to_lookup Hb Hi Hf.
  all: match type of Hc with
       | context [filter ?f ?l] => destruct (filter f l) eqn:E
       end; simpl in Hc; try discriminate.
  all: cbn; eexists; reflexivity.
Qed.

Lemma allowed_not_forbidden r o id u i c w resp :
  target r = Some (o, id, u) ->
  int4in id = Some i ->
  creator_of o i (committed w) = Some c ->
  allowed o u c = true ->
  fst (handle r w) = Val resp ->
  status resp <> 403.
Proof.
  intros Ht Hi Hc Ha Hr Hs.
  destruct (forbidden_only_if_refused r o id u w resp Ht Hr Hs)
    as [i' [c' [Hi' [Hc' Ha']]]].
  congruence.
Qed.

End Policy.

(** ** The link row under delete and link *)

Section Links.
Context {pg : PgInput}.

Lemma filter_filter_negb A (p : A -> bool) (l : list A) :
  filter p (filter (fun x => negb (p x)) l) = [].
Proof.
  induction l as [|x l IH]; simpl; [ reflexivity | ].
  destruct (p x) eqn:E; simpl; [ exact IH | rewrite E; exact IH ].
Qed.

Lemma links_of_delete i tbl : links_of i (link_delete i tbl) = [].
Proof. apply (filter_filter_negb _ (fun r => link_owner r =? i)). Qed.

Lemma news_delete_cascades u id w i r :
  int4in id = Some i ->
  fst (news_delete u id w) = Val r -> status r = 200 ->
  links_of i (news_entities (committed (snd (news_delete u id w)))) = [] /\
  creator_of NewsOwner i (committed (snd (news_delete u id w))) = None.
Proof.
  intros Hi.
  destruct (news_delete u id w) as [o w'] eqn:E. simpl. revert E.
  unfold news_delete. unfold_monad; unfold_sql; cbn; rewrite ?Hi.
  repeat (break_match; cbn in *; try discriminate).
  all: intros [= <- <-] [= <-]; cbn; try discriminate.
  all: intros _; split; [ apply links_of_delete | ].
  all: rewrite (filter_filter_negb _ (fun n => news_id n =? i)); reflexivity.
Qed.




(** The store after a link or update request whose target is missing. *)
Ltac missing_target_unchanged He Hp :=
  unfold entity_present, entity_table in Hp;
  match goal with
  | |- committed (snd ?run) = _ =>
      let E := fresh "E" in destruct run as [? ?] eqn:E; simpl; revert E
  end;
  unfold_handlers; unfold_monad; unfold_sql; cbn; rewrite ?He;
  repeat (break_match; cbn in *; try discriminate);
  intros [= <- <-]; cbn; try reflexivity;
  rewrite Hp in *; discriminate.

Lemma news_link_missing_target u id kind entity e w :
  includes entity_kinds kind = true ->
  int4in entity = Some e ->
  entity_present kind e (committed w) = false ->
  committed (snd (news_link u id kind entity w)) = committed w.
Proof. intros Hk He Hp. missing_target_unchanged He Hp. Qed.

Lemma posts_link_missing_target u id kind entity e w :
  includes entity_kinds kind = true ->
  int4in entity = Some e ->
  entity_present kind e (committed w) = false ->
  committed (snd (posts_link u id kind entity w)) = committed w.
Proof. intros Hk He Hp. missing_target_unchanged He Hp. Qed.

Lemma news_update_missing_target u id b f e w :
  truthy (linkedType b) && truthy (linkedId b) = true ->
  includes entity_kinds (text (linkedType b)) = true ->
  int4in (text (linkedId b)) = Some e ->
  entity_present (text (linkedType b)) e (committed w) = false ->
  committed (snd (news_update u id b f w)) = committed w.
Proof.
  intros Ht Hk He Hp. unfold news_update. rewrite Ht.
  missing_target_unchanged He Hp.
Qed.

Lemma posts_update_missing_target u id b f e w :
  truthy (entityType b) && truthy (entityId b) = true ->
  includes entity_kinds (text (entityType b)) = true ->
  int4in (text (entityId b)) = Some e ->
  entity_present (text (entityType b)) e (committed w) = false ->
  committed (snd (posts_update u id b f w)) = committed w.
Proof.
  intros Ht Hk He Hp. unfold posts_update. rewrite Ht.
  missing_target_unchanged He Hp.
Qed.


Ltac auth_contradiction :=
  repeat match goal with
         | H : Some _ = Some _ |- _ => injection H as H; subst
         end;
  match goal with
  | Ha : ?a || ?b = true, Hn : negb ?a && negb ?b = true |- _ =>
      destruct a, b; discriminate
  | Ha : ?a = true, Hn : negb ?a = true |- _ => rewrite Ha in Hn; discriminate
  end.

(** The answer of a link or update request whose target is missing, when
    the owner record exists, the actor passes and the two lookups run. *)
Ltac missing_target_answer He Hi Hp :=
  unfold entity_present, entity_table, creator_of, allowed, canMutate in *;
  unfold_handlers; unfold_monad; unfold_sql; cbn; rewrite ?He, ?Hi; cbn;
  repeat (break_match; cbn in *; try discriminate);
  first [ reflexivity | congruence | rewrite Hp in *; discriminate
        | auth_contradiction ].

Lemma news_link_not_found u id kind entity i c e w :
  includes entity_kinds kind = true ->
  int4in entity = Some e ->
  entity_present kind e (committed w) = false ->
  int4in id = Some i ->
  creator_of NewsOwner i (committed w) = Some c ->
  allowed NewsOwner u c = true ->
  hd false (faults w) = false ->
  hd false (tl (faults w)) = false ->
  fst (news_link u id kind entity w)
  = Val {| status := 404; body := Message (capitalize kind ++ " not found") |}.
Proof. intros Hk He Hp Hi Hc Ha Hf1 Hf2. missing_target_answer He Hi Hp. Qed.

Lemma posts_link_not_found u id kind entity i c e w :
  includes entity_kinds kind = true ->
  int4in entity = Some e ->
  entity_present kind e (committed w) = false ->
  int4in id = Some i ->
  creator_of PostOwner i (committed w) = Some c ->
  allowed PostOwner u c = true ->
  hd false (faults w) = false ->
  hd false (tl (faults w)) = false ->
  fst (posts_link u id kind entity w)
  = Val {| status := 404; body := Message (capitalize kind ++ " not found") |}.
Proof. intros Hk He Hp Hi Hc Ha Hf1 Hf2. missing_target_answer He Hi Hp. Qed.

Lemma news_update_not_found u id b f i c e w :
  body_valid (NewsUpdate u id b f) = true ->
  truthy (linkedType b) && truthy (linkedId b) = true ->
  int4in (text (linkedId b)) = Some e ->
  entity_present (text (linkedType b)) e (committed w) = false ->
  int4in id = Some i ->
  creator_of NewsOwner i (committed w) = Some c ->
  allowed NewsOwner u c = true ->
  hd false (faults w) = false ->
  hd false (tl (faults w)) = false ->
  fst (news_update u id b f w)
  = Val {| status := 404;
           body := Message (capitalize (text (linkedType b)) ++ " not found") |}.
Proof.
  intros Hb Ht He Hp Hi Hc Ha Hf1 Hf2.
  apply body_valid_news in Hb. destruct Hb as [Hv1 Hv2].
  unfold news_update. rewrite Hv1, Hv2, Ht.
  missing_target_answer He Hi Hp.
Qed.

Lemma posts_update_not_found u id b f i c e w :
  body_valid (PostsUpdate u id b f) = true ->
  truthy (entityType b) && truthy (entityId b) = true ->
  int4in (text (entityId b)) = Some e ->
  entity_present (text (entityType b)) e (committed w) = false ->
  int4in id = Some i ->
  creator_of PostOwner i (committed w) = Some c ->
  allowed PostOwner u c = true ->
  hd false (faults w) = false ->
  hd false (tl (faults w)) = false ->
  fst (posts_update u id b f w)
  = Val {| status := 404;
           body := Message (capitalize (text (entityType b)) ++ " not found") |}.
Proof.
  intros Hb Ht He Hp Hi Hc Ha Hf1 Hf2.
  apply body_valid_posts in Hb. destruct Hb as [Hv1 Hv2].
  unfold posts_update. rewrite Hv1, Hv2, Ht.
  missing_target_answer He Hi Hp.
Qed.

Lemma kind_passes_check kind :
  includes entity_kinds kind = true -> entity_type_check kind = true.
Proof.
  intros H. apply includes_In in H. simpl in H.
  destruct H as [<- | [<- | [<- | []]]]; reflexivity.
Qed.

Lemma owner_key_present (A : Type) (key : A -> Z) (i : Z) (l : list A) (x : A) (r : list A) :
  filter (fun n => key n =? i) l = x :: r ->
  existsb (fun o => o =? i) (map key l) = true.
Proof.
  intros H. assert (In x (filter (fun n => key n =? i) l)) as Hin
      by (rewrite H; left; reflexivity).
  apply filter_In in Hin. destruct Hin as [Hin Hk].
  apply existsb_exists. exists (key x). split; [ apply in_map; exact Hin | lia ].
Qed.

(** One run of a link handler without I/O fault, on an existing owner
    record, by an actor who passes, towards an existing target. *)
Ltac link_once Hf Hi He Hk Hp :=
  let Hck := fresh "Hck" in
  pose proof (kind_passes_check _ Hk) as Hck;
  let Hvk := fresh "Hvk" in
  pose proof (varchar_kind _ Hk) as Hvk;
  unfold entity_present, entity_table, creator_of, allowed, canMutate in *;
  match goal with
  | |- fst ?run = _ /\ _ =>
      let E := fresh "E" in destruct run as [? ?] eqn:E; simpl; revert E
  end;
  unfold_handlers; unfold_monad; unfold_sql; unfold link_insert, link_update, upsert;
  cbn [fst snd];
  rewrite ?He, ?Hi, ?Hf, ?Hvk, ?Hck, ?existsb_links_of, ?orb_true_r, ?andb_true_r;
  cbn; rewrite ?Hf, ?Hvk; cbn;
  repeat (break_match; cbn in *; rewrite ?Hf in *; cbn in *; try discriminate);
  intros [= <- <-]; cbn;
  try (repeat split; reflexivity);
  try (rewrite Hp in *; discriminate);
  try auth_contradiction;
  rewrite ?orb_true_r, ?andb_true_r, ?existsb_links_of in *;
  try discriminate;
  match goal with
  | Hq : filter _ _ = _ :: _, Hn : nonempty (links_of _ _) = false,
    Hx : _ && _ = false |- _ =>
      rewrite (owner_key_present _ _ _ _ _ _ Hq), Hn in Hx; discriminate
  end.

Lemma news_link_once u id kind entity i e c w :
  faults w = [] ->
  int4in id = Some i -> int4in entity = Some e ->
  includes entity_kinds kind = true ->
  entity_present kind e (committed w) = true ->
  creator_of NewsOwner i (committed w) = Some c ->
  allowed NewsOwner u c = true ->
  fst (news_link u id kind entity w)
  = Val {| status := 200; body := Message "Entity linked successfully" |} /\
  committed (snd (news_link u id kind entity w))
  = set_news_entities (upsert i kind e (news_entities (committed w))) (committed w) /\
  faults (snd (news_link u id kind entity w)) = [].
Proof. intros Hf Hi He Hk Hp Hc Ha. link_once Hf Hi He Hk Hp. Qed.

Lemma posts_link_once u id kind entity i e c w :
  faults w = [] ->
  int4in id = Some i -> int4in entity = Some e ->
  includes entity_kinds kind = true ->
  entity_present kind e (committed w) = true ->
  creator_of PostOwner i (committed w) = Some c ->
  allowed PostOwner u c = true ->
  fst (posts_link u id kind entity w)
  = Val {| status := 200; body := Message "Entity linked successfully" |} /\
  committed (snd (posts_link u id kind entity w))
  = set_posts_entities (upsert i kind e (posts_entities (committed w))) (committed w) /\
  faults (snd (posts_link u id kind entity w)) = [].
Proof. intros Hf Hi He Hk Hp Hc Ha. link_once Hf Hi He Hk Hp. Qed.

Lemma links_of_all_owner i tbl x : In x (links_of i tbl) -> link_owner x = i.
Proof. unfold links_of. intros H. apply filter_In in H. lia. Qed.

Lemma map_rewrite_absent i t e tbl :
  links_of i tbl = [] ->
  map (fun x => if link_owner x =? i
                then {| link_owner := i; entity_type := t; entity_id := e |}
                else x) tbl = tbl.
Proof.
  unfold links_of. induction tbl as [|x l IH]; simpl; [ reflexivity | ].
  destruct (link_owner x =? i); [ discriminate | ].
  intros H. rewrite (IH H). reflexivity.
Qed.

Lemma links_of_upsert i t e tbl :
  (List.length (links_of i tbl) <= 1)%nat ->
  links_of i (upsert i t e tbl) = [{| link_owner := i; entity_type := t; entity_id := e |}].
Proof.
  intros Hkey. unfold upsert. destruct (links_of i tbl) as [|x [|y l]] eqn:E; simpl.
  - rewrite links_of_app, E. simpl. rewrite Z.eqb_refl. reflexivity.
  - rewrite links_of_update, E. simpl.
    assert (link_owner x = i) as Hx
        by (apply (links_of_all_owner i tbl); rewrite E; left; reflexivity).
    rewrite Hx, Z.eqb_refl. reflexivity.
  - simpl in Hkey. lia.
Qed.

Lemma upsert_idempotent i t e tbl :
  upsert i t e (upsert i t e tbl) = upsert i t e tbl.
Proof.
  unfold upsert at 2 3. destruct (nonempty (links_of i tbl)) eqn:E.
  - unfold upsert. rewrite links_of_update.
    destruct (links_of i tbl); [ discriminate | ]. simpl.
    rewrite map_map. apply map_ext. intros x.
    destruct (link_owner x =? i) eqn:Ex; simpl; [ rewrite Z.eqb_refl | rewrite Ex ];
      reflexivity.
  - unfold upsert. rewrite links_of_app. simpl. rewrite Z.eqb_refl.
    destruct (links_of i tbl) eqn:El; [ | discriminate ]. simpl.
    rewrite map_app. simpl. rewrite Z.eqb_refl, (map_rewrite_absent i t e tbl El).
    reflexivity.
Qed.


Lemma link_once o u id kind entity i e c w :
  faults w = [] ->
  int4in id = Some i -> int4in entity = Some e ->
  includes entity_kinds kind = true ->
  entity_present kind e (committed w) = true ->
  creator_of o i (committed w) = Some c ->
  allowed o u c = true ->
  let run := handle (link_request o u id kind entity) w in
  fst run = Val {| status := 200; body := Message "Entity linked successfully" |} /\
  link_table o (committed (snd run)) = upsert i kind e (link_table o (committed w)) /\
  faults (snd run) = [] /\
  entity_present kind e (committed (snd run)) = true /\
  creator_of o i (committed (snd run)) = Some c.
Proof.
  intros Hf Hi He Hk Hp Hc Ha. destruct o; simpl.
  - destruct (news_link_once u id kind entity i e c w Hf Hi He Hk Hp Hc Ha)
      as [H1 [H2 H3]].
    rewrite H1, H2, H3. repeat split; assumption.
  - destruct (posts_link_once u id kind entity i e c w Hf Hi He Hk Hp Hc Ha)
      as [H1 [H2 H3]].
    rewrite H1, H2, H3. repeat split; assumption.
Qed.

(** C4. Linking an existing owner record to an existing target of a kind of
    the closed set, twice in succession with the same arguments, by an actor
    the router lets pass and without I/O failure: both requests are
    answered 200, afterwards exactly one link row of the owner exists and it
    holds the kind and id of the request, and the second request leaves the
    link table as the first one left it. *)
Theorem set_link_twice_is_upsert (o : Owner) (u : ReqUser) (id kind entity : string)
  (i e c : Z) (w : World)
  (Hf : faults w = [])
  (Hkey : (List.length (links_of i (link_table o (committed w))) <= 1)%nat)
  (Hi : int4in id = Some i) (He : int4in entity = Some e)
  (Hk : includes entity_kinds kind = true)
  (Hp : entity_present kind e (committed w) = true)
  (Hc : creator_of o i (committed w) = Some c)
  (Ha : allowed o u c = true) :
  let first := handle (link_request o u id kind entity) w in
  let second := handle (link_request o u id kind entity) (snd first) in
  fst first = Val {| status := 200; body := Message "Entity linked successfully" |} /\
  fst second = Val {| status := 200; body := Message "Entity linked successfully" |} /\
  links_of i (link_table o (committed (snd second)))
  = [{| link_owner := i; entity_type := kind; entity_id := e |}] /\
  link_table o (committed (snd second)) = link_table o (committed (snd first)).
Proof.
  intros first second.
  destruct (link_once o u id kind entity i e c w Hf Hi He Hk Hp Hc Ha)
    as [R1 [T1 [F1 [P1 C1]]]].
  fold first in R1, T1, F1, P1, C1.
  destruct (link_once o u id kind entity i e c (snd first) F1 Hi He Hk P1 C1 Ha)
    as [R2 [T2 _]].
  fold second in R2, T2.
  rewrite T2, T1, upsert_idempotent.
  repeat split; try assumption.
  apply links_of_upsert, Hkey.
Qed.

(** C6. A link request, or an update request that carries a target, whose
    kind is in the closed set and whose entity id names no row of the table
    of that kind, leaves the store as it was: the owner record and its link
    row, if any, are unchanged. When the owner record exists, the actor
    passes and the two lookups run, the answer is 404 with the message
    "<Kind> not found". *)
Theorem missing_target_is_refused (r : Request) (o : Owner) (id : string) (u : ReqUser)
  (kind entity : string) (e : Z) (w : World)
  (Ht : target r = Some (o, id, u))
  (Hq : requested_target r = Some (kind, entity))
  (Hk : includes entity_kinds kind = true)
  (He : int4in entity = Some e)
  (Hp : entity_present kind e (committed w) = false) :
  committed (snd (handle r w)) = committed w /\
  (forall i c,
      body_valid r = true ->
      int4in id = Some i ->
      creator_of o i (committed w) = Some c ->
      allowed o u c = true ->
      hd false (faults w) = false ->
      hd false (tl (faults w)) = false ->
      fst (handle r w)
      = Val {| status := 404; body := Message (capitalize kind ++ " not found") |}).
Proof.
  destruct r; simpl in Ht, Hq; try discriminate; injection Ht as <- <- <-.
  - destruct (truthy (linkedType b) && truthy (linkedId b)) eqn:Hb; [ | discriminate ].
    injection Hq as <- <-. split.
    + exact (news_update_missing_target user id0 b file e w Hb Hk He Hp).
    + intros i c Hv Hi Hc Ha Hf1 Hf2.
      exact (news_update_not_found user id0 b file i c e w Hv Hb He Hp Hi Hc Ha Hf1 Hf2).
  - injection Hq as <- <-. split.
    + exact (news_link_missing_target user id0 kind0 entity0 e w Hk He Hp).
    + intros i c _ Hi Hc Ha Hf1 Hf2.
      exact (news_link_not_found user id0 kind0 entity0 i c e w Hk He Hp Hi Hc Ha Hf1 Hf2).
  - destruct (truthy (entityType b) && truthy (entityId b)) eqn:Hb; [ | discriminate ].
    injection Hq as <- <-. split.
    + exact (posts_update_missing_target user id0 b file e w Hb Hk He Hp).
    + intros i c Hv Hi Hc Ha Hf1 Hf2.
      exact (posts_update_not_found user id0 b file i c e w Hv Hb He Hp Hi Hc Ha Hf1 Hf2).
  - injection Hq as <- <-. split.
    + exact (posts_link_missing_target user id0 kind0 entity0 e w Hk He Hp).
    + intros i c _ Hi Hc Ha Hf1 Hf2.
      exact (posts_link_not_found user id0 kind0 entity0 i c e w Hk He Hp Hi Hc Ha Hf1 Hf2).
Qed.

End Links.

(** ** The create transaction *)

Section Atomic.
Context {pg : PgInput}.

(** Every branch of a create handler: nothing committed, or both rows. *)
Ltac all_or_nothing :=
  match goal with
  | |- (committed (snd ?run) = _ \/ _) /\ _ =>
      let E := fresh "E" in destruct run as [? ?] eqn:E; simpl; revert E
  end;
  unfold_handlers; unfold_monad; unfold_sql; unfold link_insert; cbn;
  repeat (break_match; cbn in *; try discriminate);
  intros [= <- <-]; cbn;
  try (split; [ left; reflexivity | intros resp [= <-]; discriminate ]);
  settle_columns;
  match goal with
  | |- (_ \/ ?G ?d) /\ _ =>
      let HGd := fresh "HGd" in
      assert (G d) as HGd; [ | split; [ right; exact HGd | intros; exact HGd ] ]
  end;
  unfold news_created, post_created;
  match goal with
  | |- context [(_ ++ [?n])%list] =>
      lazymatch type of n with
      | LinkRow => fail
      | _ => exists n
      end
  end;
  repeat (split; [ first [ reflexivity | eassumption ] | ]);
  match goal with
  | H : truthy _ && truthy _ = _ |- _ => rewrite H
  end;
  first [ reflexivity | eexists; split; [ eassumption | reflexivity ] ].

Lemma news_create_all_or_nothing u b f w :
  let run := news_create u b f w in
  (committed (snd run) = committed w \/ news_created u b (committed w) (committed (snd run)))
  /\ (forall resp, fst run = Val resp -> status resp = 201 ->
      news_created u b (committed w) (committed (snd run))).
Proof. cbv zeta. all_or_nothing. Qed.

Lemma posts_create_all_or_nothing u b f w :
  let run := posts_create u b f w in
  (committed (snd run) = committed w \/ post_created u b (committed w) (committed (snd run)))
  /\ (forall resp, fst run = Val resp -> status resp = 201 ->
      post_created u b (committed w) (committed (snd run))).
Proof. cbv zeta. all_or_nothing. Qed.


Lemma news_create_transaction_throws u b img w :
  fst (news_create_transaction u b img w) = Exc ->
  committed (snd (news_create_transaction u b img w)) = committed w.
Proof.
  destruct (news_create_transaction u b img w) as [o w'] eqn:E. simpl. revert E.
  unfold_handlers; unfold_monad; cbn.
  repeat (break_match; cbn in *; try discriminate).
  all: intros [= <- <-]; cbn; try reflexivity; discriminate.
Qed.

Lemma posts_create_transaction_throws u b img w :
  fst (posts_create_transaction u b img w) = Exc ->
  committed (snd (posts_create_transaction u b img w)) = committed w.
Proof.
  destruct (posts_create_transaction u b img w) as [o w'] eqn:E. simpl. revert E.
  unfold_handlers; unfold_monad; cbn.
  repeat (break_match; cbn in *; try discriminate).
  all: intros [= <- <-]; cbn; try reflexivity; discriminate.
Qed.

(** C3. Create of a news item or post with an optional target is atomic.
    Under every schedule of I/O failures and for every input, the store
    after the handler is the store before it, or the store before it with
    both the new owner record and, when a target was given, its link row;
    an answer 201 means the latter. A failure of any statement from BEGIN
    to COMMIT leaves the committed store untouched. *)
Theorem create_is_atomic (u : ReqUser) (f : option UploadedFile) (w : World) :
  (forall b,
      let run := news_create u b f w in
      (committed (snd run) = committed w
       \/ news_created u b (committed w) (committed (snd run)))
      /\ (forall resp, fst run = Val resp -> status resp = 201 ->
          news_created u b (committed w) (committed (snd run)))) /\
  (forall b,
      let run := posts_create u b f w in
      (committed (snd run) = committed w
       \/ post_created u b (committed w) (committed (snd run)))
      /\ (forall resp, fst run = Val resp -> status resp = 201 ->
          post_created u b (committed w) (committed (snd run)))) /\
  (forall b img,
      fst (news_create_transaction u b img w) = Exc ->
      committed (snd (news_create_transaction u b img w)) = committed w) /\
  (forall b img,
      fst (posts_create_transaction u b img w) = Exc ->
      committed (snd (posts_create_transaction u b img w)) = committed w).
Proof.
  split; [ | split; [ | split ] ].
  - intros b. apply news_create_all_or_nothing.
  - intros b. apply posts_create_all_or_nothing.
  - intros b img. apply news_create_transaction_throws.
  - intros b img. apply posts_create_transaction_throws.
Qed.

End Atomic.

(** C9. No request is dispatched to the handler of [GET /with-entity]: the
    route [GET /:id] is registered before it and matches every path the
    later route matches; the path [with-entity] goes to the get-by-id
    handler with [id = "with-entity"]. *)
Theorem with_entity_route_is_shadowed :
  (forall m path ps, dispatch news_router m path <> Some (GetNewsWithEntity, ps)) /\
  dispatch news_router GET ["with-entity"] = Some (GetNewsById, [("id", "with-entity")]).
Proof.
  split; [ | reflexivity ].
  intros m path ps. destruct m; unfold news_router; simpl.
  all: repeat (break_match; simpl in *; try discriminate).
  all: match goal with
       | H : String.eqb ?s "" = true |- _ =>
           apply String.eqb_eq in H; subst s; simpl in *; discriminate
       end.
Qed.

(** ** The answers of the mutation handlers *)

Section Answers.
Context {pg : PgInput}.

Lemma handle_responds r w : exists resp, fst (handle r w) = Val resp.
Proof.
  destruct r; simpl;
    unfold news_create, news_update, news_link, news_unlink, news_delete,
      posts_create, posts_update, posts_link, posts_unlink, posts_delete,
      try_catch, message, ret;
    match goal with
    | |- context [match ?m w with _ => _ end] => destruct (m w) as [[a|] w']
    end; simpl; eexists; reflexivity.
Qed.

(** C1, as amended. For an update, delete, link or unlink whose body passes
    validation and whose owner record is found, the handler answers 403
    exactly when: for a news item, the actor is neither its creator nor of
    role aslab ([canMutate] is false); for a post, the actor is not its
    creator, whatever the role. *)
Theorem mutation_policy_per_router (r : Request) (o : Owner) (id : string) (u : ReqUser)
  (i c : Z) (w : World)
  (Ht : target r = Some (o, id, u))
  (Hb : body_valid r = true)
  (Hi : int4in id = Some i)
  (Hf : hd false (faults w) = false)
  (Hc : creator_of o i (committed w) = Some c) :
  exists resp,
    fst (handle r w) = Val resp /\
    (status resp = 403 <->
     match o with
     | NewsOwner => canMutate (user_id u) (user_role u) c = false
     | PostOwner => (c =? user_id u) = false
     end).
Proof.
  destruct (allowed o u c) eqn:Ha.
  - destruct (handle_responds r w) as [resp Hr]. exists resp. split; [ exact Hr | ].
    split.
    + intros Hs. exfalso.
      exact (allowed_not_forbidden r o id u i c w resp Ht Hi Hc Ha Hr Hs).
    + destruct o; simpl in Ha; congruence.
  - destruct (refused_gives_forbidden r o id u i c w Ht Hb Hi Hf Hc Ha) as [m Hr].
    eexists. split; [ exact Hr | ]. split; [ | reflexivity ].
    intros _. destruct o; exact Ha.
Qed.

(** An update whose body fails validation is answered 400 before any
    statement is sent: nothing is awaited and the state is untouched. *)
Lemma invalid_body_gives_400 r w :
  body_valid r = false ->
  exists m, handle r w = (Val {| status := 400; body := Message m |}, w).
Proof.
  destruct r; simpl; try discriminate; intros Hb;
    unfold news_update, posts_update, try_catch, message, ret.
  - destruct (truthy (title b)), (truthy (content b)); simpl in *;
      try (eexists; reflexivity).
    destruct (truthy (linkedType b)); simpl in *; [ | discriminate ].
    rewrite Hb. simpl. eexists; reflexivity.
  - destruct (truthy (body_content b)); simpl in *; try (eexists; reflexivity).
    destruct (truthy (entityType b)); simpl in *; [ | discriminate ].
    rewrite Hb. simpl. eexists; reflexivity.
Qed.

(** The lookup of the owner record throws when the id is no integer or
    when the query fails: the handler answers 500 and has written
    nothing. *)
Lemma failed_lookup_gives_500 r o id u w :
  target r = Some (o, id, u) ->
  body_valid r = true ->
  int4in id = None \/ hd false (faults w) = true ->
  fst (handle r w) = Val {| status := 500; body := Message "Server error" |} /\
  committed (snd (handle r w)) = committed w.
Proof.
  intros Ht Hb Hl.
  destruct r; simpl in Ht; try discriminate; injection Ht as <- <- <-; simpl handle;
    try (apply body_valid_news in Hb; destruct Hb as [H1 H2];
         unfold news_update; rewrite H1, H2);
    try (apply body_valid_posts in Hb; destruct Hb as [H1 H2];
         unfold posts_update; rewrite H1, H2);
    unfold news_link, news_unlink, news_delete, posts_link, posts_unlink, posts_delete;
    unfold_monad; unfold select_news, select_posts, int4; cbn;
    (destruct Hl as [Hl | Hl]; rewrite Hl;
     [ destruct (hd false (faults w)) | ]); cbn; split; reflexivity.
Qed.

(** C7, as amended. A mutation handler answers 403 only for an owner
    record that exists and that the actor may not mutate. When the owner
    record does not exist the answer is never 403, and it is 404 as soon as
    the body passes validation and the lookup of the owner record runs. It
    is not always 404: an update whose body fails validation is answered
    400 before the lookup, whether or not the record exists, and a lookup
    that throws, on an id that is no integer or on a failure of the query,
    is answered 500. *)
Theorem not_found_precedes_forbidden (r : Request) (o : Owner) (id : string)
  (u : ReqUser) (w : World)
  (Ht : target r = Some (o, id, u)) :
  (forall resp,
      fst (handle r w) = Val resp -> status resp = 403 ->
      exists i c, int4in id = Some i /\ creator_of o i (committed w) = Some c
                  /\ allowed o u c = false) /\
  (forall i,
      int4in id = Some i -> creator_of o i (committed w) = None ->
      (forall resp, fst (handle r w) = Val resp -> status resp <> 403) /\
      (body_valid r = true -> hd false (faults w) = false ->
       exists m, fst (handle r w) = Val {| status := 404; body := Message m |})) /\
  (body_valid r = false ->
   exists m, handle r w = (Val {| status := 400; body := Message m |}, w)) /\
  (body_valid r = true ->
   int4in id = None \/ hd false (faults w) = true ->
   fst (handle r w) = Val {| status := 500; body := Message "Server error" |} /\
   committed (snd (handle r w)) = committed w).
Proof.
  split; [ | split; [ | split ] ].
  - intros resp Hr Hs. exact (forbidden_only_if_refused r o id u w resp Ht Hr Hs).
  - intros i Hi Hc. split.
    + intros resp Hr Hs.
      destruct (forbidden_only_if_refused r o id u w resp Ht Hr Hs)
        as [i' [c' [Hi' [Hc' _]]]].
      congruence.
    + intros Hb Hf. exact (missing_gives_not_found r o id u i w Ht Hb Hi Hf Hc).
  - intros Hb. exact (invalid_body_gives_400 r w Hb).
  - intros Hb Hl. exact (failed_lookup_gives_500 r o id u w Ht Hb Hl).
Qed.

End Answers.

(** ** Further properties of the handlers *)

Section Refusals.
Context {pg : PgInput}.

(** X1. A mutation that answers 400, 403 or 404 has written nothing, and
    neither has a link, unlink or delete that answers 500: these make their
    one write as the last statement, outside any transaction. *)
Theorem refused_mutation_writes_nothing (r : Request) (w : World) (resp : Response)
  (Hr : fst (handle r w) = Val resp)
  (Hs : status resp = 400 \/ status resp = 403 \/ status resp = 404
        \/ (status resp = 500 /\ single_write r = true)) :
  committed (snd (handle r w)) = committed w.
Proof.
  destruct (handle r w) as [o w'] eqn:E. simpl in *. subst o. revert E.
  destruct r; simpl in *; run_handler.
  all: intros [= <- <-]; cbn in *; try reflexivity.
  all: destruct Hs as [Hs | [Hs | [Hs | [Hs Hw]]]]; discriminate.
Qed.

(** X2. Every mutation handler answers: no run throws past its [catch],
    and the status is one the handler has a response for; 201 comes from a
    create only, 403 never from a create, 400 never from an unlink or a
    delete. *)
Theorem handlers_answer_within_their_statuses (r : Request) (w : World) :
  exists resp, fst (handle r w) = Val resp /\ In (status resp) (possible_statuses r).
Proof.
  destruct (handle r w) as [o w'] eqn:E. simpl. revert E.
  destruct r; simpl; run_handler.
  all: intros [= <- <-]; eexists; split; [ reflexivity | simpl; tauto ].
Qed.

Lemma handle_frame r w :
  let d := committed w in
  let d' := committed (snd (handle r w)) in
  (users d' = users d /\ classes d' = classes d /\ modules d' = modules d
   /\ assignments d' = assignments d) /\
  match router_of r with
  | NewsOwner => posts d' = posts d /\ posts_entities d' = posts_entities d
  | PostOwner => news d' = news d /\ news_entities d' = news_entities d
  end.
Proof.
  cbv zeta.
  destruct (handle r w) as [o w'] eqn:E. simpl. revert E.
  destruct r; simpl; run_handler.
  all: intros [= <- <-]; cbn; repeat split; reflexivity.
Qed.

End Refusals.

Lemma links_of_update_other j i t e tbl :
  j <> i ->
  links_of j (map (fun x => if link_owner x =? i
                            then {| link_owner := i; entity_type := t; entity_id := e |}
                            else x) tbl) = links_of j tbl.
Proof.
  intros Hj. unfold links_of. induction tbl as [|x l IH]; simpl; [ reflexivity | ].
  destruct (link_owner x =? i) eqn:E; simpl.
  - assert (link_owner x = i) as Hx by lia.
    replace (i =? j) with false by lia. replace (link_owner x =? j) with false by lia.
    exact IH.
  - rewrite IH. reflexivity.
Qed.

Lemma link_update_other j i t e tbl l :
  link_update i t e tbl = Some l -> j <> i -> links_of j l = links_of j tbl.
Proof.
  unfold link_update. destruct (_ || _); [ | discriminate ].
  intros [= <-] Hj. apply links_of_update_other, Hj.
Qed.

Lemma link_insert_other j owners r tbl l :
  link_insert owners r tbl = Some l -> j <> link_owner r -> links_of j l = links_of j tbl.
Proof.
  unfold link_insert. destruct (_ && _); [ | discriminate ].
  intros [= <-] Hj. rewrite links_of_app. simpl.
  replace (link_owner r =? j) with false by lia. apply app_nil_r.
Qed.

Lemma link_delete_other j i tbl :
  j <> i -> links_of j (link_delete i tbl) = links_of j tbl.
Proof.
  intros Hj. unfold links_of, link_delete.
  induction tbl as [|x l IH]; simpl; [ reflexivity | ].
  destruct (link_owner x =? i) eqn:E; simpl.
  - replace (link_owner x =? j) with false by lia. exact IH.
  - rewrite IH. reflexivity.
Qed.

Lemma filter_key_map_other (A : Type) (key : A -> Z) (f : A -> A) (i j : Z) (l : list A) :
  (forall x, key (f x) = key x) ->
  j <> i ->
  filter (fun x => key x =? j) (map (fun x => if key x =? i then f x else x) l)
  = filter (fun x => key x =? j) l.
Proof.
  intros Hk Hj. induction l as [|x l IH]; simpl; [ reflexivity | ].
  destruct (key x =? i) eqn:E.
  - rewrite Hk. replace (key x =? j) with false by lia. exact IH.
  - rewrite IH. reflexivity.
Qed.

Lemma filter_key_delete_other (A : Type) (key : A -> Z) (i j : Z) (l : list A) :
  j <> i ->
  filter (fun x => key x =? j) (filter (fun x => negb (key x =? i)) l)
  = filter (fun x => key x =? j) l.
Proof.
  intros Hj. induction l as [|x l IH]; simpl; [ reflexivity | ].
  destruct (key x =? i) eqn:E; simpl.
  - replace (key x =? j) with false by lia. exact IH.
  - rewrite IH. reflexivity.
Qed.

Section Locality.
Context {pg : PgInput}.

(** X4. A mutation addressed to the owner record of key [i] leaves the
    link rows and the owner records of every other key as they were. *)
Theorem mutation_touches_only_its_owner (r : Request) (o : Owner) (id : string)
  (u : ReqUser) (i j : Z) (w : World)
  (Ht : target r = Some (o, id, u))
  (Hi : int4in id = Some i)
  (Hj : j <> i) :
  links_of j (link_table o (committed (snd (handle r w))))
  = links_of j (link_table o (committed w)) /\
  match o with
  | NewsOwner => news_of j (committed (snd (handle r w))) = news_of j (committed w)
  | PostOwner => posts_of j (committed (snd (handle r w))) = posts_of j (committed w)
  end.
Proof.
  destruct (handle r w) as [out w'] eqn:E. simpl. revert E.
  destruct r; simpl in Ht; try discriminate; injection Ht as <- <- <-;
    unfold news_of, posts_of; simpl; run_handler.
  all: intros [= <- <-]; cbn; try (split; reflexivity).
  all: injection Hi as ->; split; try reflexivity.
  all: first
         [ eapply link_update_other; eassumption
         | eapply link_insert_other; [ eassumption | simpl; assumption ]
         | apply link_delete_other; assumption
         | apply (filter_key_map_other _ news_id); [ reflexivity | assumption ]
         | apply (filter_key_map_other _ post_id); [ reflexivity | assumption ]
         | apply (filter_key_delete_other _ news_id); assumption
         | apply (filter_key_delete_other _ post_id); assumption ].
Qed.
End Locality.

Lemma link_update_is_upsert i t e tbl l :
  link_update i t e tbl = Some l -> nonempty (links_of i tbl) = true ->
  l = upsert i t e tbl.
Proof.
  unfold link_update, upsert. destruct (_ || _); [ | discriminate ].
  intros [= <-] ->. reflexivity.
Qed.

Lemma link_insert_is_upsert owners i t e tbl l :
  link_insert owners {| link_owner := i; entity_type := t; entity_id := e |} tbl = Some l ->
  nonempty (links_of i tbl) = false ->
  l = upsert i t e tbl.
Proof.
  unfold link_insert, upsert. destruct (_ && _); [ | discriminate ].
  intros [= <-] ->. reflexivity.
Qed.

(** The same of a kind as its column took it. *)
Lemma link_update_stored_is_upsert i t k e tbl l :
  varchar 20 t = Some k ->
  link_update i k e tbl = Some l -> nonempty (links_of i tbl) = true ->
  l = upsert i t e tbl.
Proof.
  intros Hv Hl Hn. assert (k = t) as ->; [ | eapply link_update_is_upsert; eassumption ].
  apply (varchar_check t k Hv). unfold link_update in Hl.
  rewrite existsb_links_of, Hn in Hl. simpl in Hl.
  destruct (entity_type_check k); [ reflexivity | discriminate ].
Qed.

Lemma link_insert_stored_is_upsert owners i t k e tbl l :
  varchar 20 t = Some k ->
  link_insert owners {| link_owner := i; entity_type := k; entity_id := e |} tbl = Some l ->
  nonempty (links_of i tbl) = false ->
  l = upsert i t e tbl.
Proof.
  intros Hv Hl Hn. assert (k = t) as ->; [ | eapply link_insert_is_upsert; eassumption ].
  apply (varchar_check t k Hv). unfold link_insert in Hl. simpl in Hl.
  destruct (entity_type_check k); [ reflexivity | ].
  rewrite andb_false_r in Hl. discriminate.
Qed.

Section UpdateAtomic.
Context {pg : PgInput}.

(** Every branch of an update handler: nothing committed, or both writes. *)
Ltac update_all_or_nothing :=
  match goal with
  | |- (committed (snd ?run) = _ \/ _) /\ _ =>
      let E := fresh "E" in destruct run as [? ?] eqn:E; simpl; revert E
  end;
  unfold news_updated, post_updated, news_of, posts_of, news_rewritten, posts_rewritten,
    stored_image;
  run_handler;
  intros [= <- <-]; cbn;
  try (split; [ left; reflexivity | intros resp [= <-]; discriminate ]);
  settle_columns;
  match goal with
  | |- (_ \/ ?G) /\ _ =>
      let HG := fresh "HG" in
      assert G as HG; [ | split; [ right; exact HG | intros; exact HG ] ]
  end;
  repeat match goal with
         | |- exists _, _ => eexists
         end;
  repeat match goal with
         | |- _ = _ /\ _ => split; [ first [ reflexivity | eassumption ] | ]
         end;
  first
    [ reflexivity
    | eexists; split; [ reflexivity | ]; f_equal;
      first [ eapply link_update_stored_is_upsert; eassumption
            | eapply link_insert_stored_is_upsert; eassumption ] ].

Lemma news_update_all_or_nothing u id b f w :
  let run := news_update u id b f w in
  (committed (snd run) = committed w
   \/ news_updated id b f (committed w) (committed (snd run)))
  /\ (forall resp, fst run = Val resp -> status resp = 200 ->
      news_updated id b f (committed w) (committed (snd run))).
Proof. cbv zeta. update_all_or_nothing. Qed.

Lemma posts_update_all_or_nothing u id b f w :
  let run := posts_update u id b f w in
  (committed (snd run) = committed w
   \/ post_updated id b f (committed w) (committed (snd run)))
  /\ (forall resp, fst run = Val resp -> status resp = 200 ->
      post_updated id b f (committed w) (committed (snd run))).
Proof. cbv zeta. update_all_or_nothing. Qed.

(** X5. An update is all or nothing: whatever it answers, the store is
    unchanged or holds both the rewritten record and the change of its link
    row, and an update that answers 200 has made both. *)
Theorem update_is_atomic (u : ReqUser) (id : string) (f : option UploadedFile)
  (w : World) :
  (forall b,
      let run := news_update u id b f w in
      (committed (snd run) = committed w
       \/ news_updated id b f (committed w) (committed (snd run)))
      /\ (forall resp, fst run = Val resp -> status resp = 200 ->
          news_updated id b f (committed w) (committed (snd run)))) /\
  (forall b,
      let run := posts_update u id b f w in
      (committed (snd run) = committed w
       \/ post_updated id b f (committed w) (committed (snd run)))
      /\ (forall resp, fst run = Val resp -> status resp = 200 ->
          post_updated id b f (committed w) (committed (snd run)))).
Proof.
  split; intros b.
  - apply news_update_all_or_nothing.
  - apply posts_update_all_or_nothing.
Qed.

End UpdateAtomic.

Section LinkOutcomes.
Context {pg : PgInput}.

(** X6. A request that names a target and is answered 200 or 201 named a
    kind of the enumeration and a target that was stored when the request
    arrived. *)
Theorem written_link_targets_exist (r : Request) (w : World) (resp : Response)
  (kind entity : string)
  (Hr : fst (handle r w) = Val resp)
  (Hs : status resp = 200 \/ status resp = 201)
  (Hq : asked_target r = Some (kind, entity)) :
  includes entity_kinds kind = true /\
  exists e, int4in entity = Some e /\ entity_present kind e (committed w) = true.
Proof.
  revert Hr.
  destruct r; simpl in Hq; try discriminate;
    unfold entity_present, entity_table; simpl;
    try (destruct (truthy _ && truthy _) eqn:Hb; [ | discriminate ]);
    injection Hq as <- <-;
    unfold_handlers; try rewrite Hb; unfold_monad; unfold_sql; cbn;
    repeat (break_match; cbn in *; try discriminate).
  all: intros [= <-]; cbn in Hs; try (destruct Hs; discriminate).
  all: split; [ reflexivity | ].
  all: eexists; split; [ reflexivity | ].
  all: apply negb_false_iff; assumption.
Qed.

Lemma link_delete_absent i tbl : links_of i tbl = [] -> link_delete i tbl = tbl.
Proof.
  unfold links_of, link_delete. induction tbl as [|x l IH]; simpl; [ reflexivity | ].
  destruct (link_owner x =? i); simpl; [ discriminate | ].
  intros H. rewrite (IH H). reflexivity.
Qed.

Lemma set_news_entities_same d : set_news_entities (news_entities d) d = d.
Proof. destruct d; reflexivity. Qed.

Lemma set_posts_entities_same d : set_posts_entities (posts_entities d) d = d.
Proof. destruct d; reflexivity. Qed.

(** A link handler that answers 200 has replaced the link table by its
    upsert. *)
Ltac link_answered_200 :=
  match goal with
  | |- fst ?run = _ -> _ =>
      let E := fresh "E" in destruct run as [? ?] eqn:E; simpl; revert E
  end;
  unfold creator_of, allowed, canMutate;
  run_handler;
  intros [= <- <-] [= <-]; cbn; try discriminate; intros _;
  match goal with
  | |- exists i e, Some ?z = Some i /\ Some ?z0 = Some e /\ _ =>
      exists z, z0; split; [ reflexivity | ]; split; [ reflexivity | ]
  end;
  first [ eapply link_update_stored_is_upsert; eassumption
        | eapply link_insert_stored_is_upsert; eassumption ].

Lemma news_link_answered_200 u id kind entity w resp :
  fst (news_link u id kind entity w) = Val resp -> status resp = 200 ->
  exists i e, int4in id = Some i /\ int4in entity = Some e /\
    news_entities (committed (snd (news_link u id kind entity w)))
    = upsert i kind e (news_entities (committed w)).
Proof. link_answered_200. Qed.

Lemma posts_link_answered_200 u id kind entity w resp :
  fst (posts_link u id kind entity w) = Val resp -> status resp = 200 ->
  exists i e, int4in id = Some i /\ int4in entity = Some e /\
    posts_entities (committed (snd (posts_link u id kind entity w)))
    = upsert i kind e (posts_entities (committed w)).
Proof. link_answered_200. Qed.


(** X7. After a link request that answered 200 the owner has exactly one
    link row, the one of the request. *)
Theorem link_answered_200_holds_the_row (o : Owner) (u : ReqUser)
  (id kind entity : string) (i e : Z) (w : World) (resp : Response)
  (Hr : fst (handle (link_request o u id kind entity) w) = Val resp)
  (Hs : status resp = 200)
  (Hi : int4in id = Some i) (He : int4in entity = Some e)
  (Hkey : (List.length (links_of i (link_table o (committed w))) <= 1)%nat) :
  links_of i (link_table o (committed (snd (handle (link_request o u id kind entity) w))))
  = [{| link_owner := i; entity_type := kind; entity_id := e |}].
Proof.
  destruct o; simpl in *.
  - destruct (news_link_answered_200 u id kind entity w resp Hr Hs)
      as [i' [e' [Hi' [He' Ht]]]].
    rewrite Ht. replace i' with i by congruence. replace e' with e by congruence.
    apply links_of_upsert, Hkey.
  - destruct (posts_link_answered_200 u id kind entity w resp Hr Hs)
      as [i' [e' [Hi' [He' Ht]]]].
    rewrite Ht. replace i' with i by congruence. replace e' with e by congruence.
    apply links_of_upsert, Hkey.
Qed.

(** The policy test of a handler against the hypothesis that the actor
    passes. *)
Ltac policy_contradiction :=
  repeat match goal with
         | H : Some _ = Some _ |- _ => injection H as H; subst
         end;
  match goal with
  | Ha : ?a || ?b = true, Hn : negb ?a && negb ?b = true |- _ =>
      destruct a, b; discriminate
  | Ha : ?a = true, Hn : negb ?a = true |- _ => rewrite Ha in Hn; discriminate
  end.

Ltac unlink_run Hi :=
  cbv zeta;
  match goal with
  | |- (forall resp, fst ?run = _ -> _) /\ _ =>
      let E := fresh "E" in destruct run as [? ?] eqn:E; simpl; revert E
  end;
  unfold creator_of, allowed, canMutate;
  unfold_handlers; unfold_monad; unfold_sql; cbn; rewrite Hi; cbn;
  repeat (break_match; cbn in *; try discriminate);
  intros [= <- <-]; cbn;
  (split;
   [ intros resp [= <-]; cbn; try discriminate; intros _; reflexivity
   | intros c Hf1 Hf2 Hc Ha; first [ reflexivity | congruence | policy_contradiction ] ]).

Lemma news_unlink_run u id i w :
  int4in id = Some i ->
  let run := news_unlink u id w in
  (forall resp, fst run = Val resp -> status resp = 200 ->
     committed (snd run)
     = set_news_entities (link_delete i (news_entities (committed w))) (committed w)) /\
  (forall c,
      hd false (faults w) = false -> hd false (tl (faults w)) = false ->
      creator_of NewsOwner i (committed w) = Some c -> allowed NewsOwner u c = true ->
      fst run = Val {| status := 200; body := Message "Entity link removed successfully" |}).
Proof. intros Hi. unlink_run Hi. Qed.

Lemma posts_unlink_run u id i w :
  int4in id = Some i ->
  let run := posts_unlink u id w in
  (forall resp, fst run = Val resp -> status resp = 200 ->
     committed (snd run)
     = set_posts_entities (link_delete i (posts_entities (committed w))) (committed w)) /\
  (forall c,
      hd false (faults w) = false -> hd false (tl (faults w)) = false ->
      creator_of PostOwner i (committed w) = Some c -> allowed PostOwner u c = true ->
      fst run = Val {| status := 200; body := Message "Entity link removed successfully" |}).
Proof. intros Hi. unlink_run Hi. Qed.

(** X8. An unlink that answers 200 leaves the owner without a link row,
    and changes nothing when there was none; it answers 200 whenever the
    owner record exists, the actor passes the policy of the router and
    neither of its two queries fails. *)
Theorem unlink_clears_and_repeats (o : Owner) (u : ReqUser) (id : string) (i : Z)
  (w : World) (Hi : int4in id = Some i) :
  let run := handle (unlink_request o u id) w in
  (forall resp,
      fst run = Val resp -> status resp = 200 ->
      links_of i (link_table o (committed (snd run))) = [] /\
      (links_of i (link_table o (committed w)) = [] -> committed (snd run) = committed w))
  /\
  (forall c,
      hd false (faults w) = false -> hd false (tl (faults w)) = false ->
      creator_of o i (committed w) = Some c -> allowed o u c = true ->
      fst run = Val {| status := 200; body := Message "Entity link removed successfully" |}).
Proof.
  destruct o; simpl.
  - destruct (news_unlink_run u id i w Hi) as [H200 Hok]. split; [ | exact Hok ].
    intros resp Hr Hs. rewrite (H200 resp Hr Hs). simpl. split.
    + apply links_of_delete.
    + intros Habs. rewrite (link_delete_absent i _ Habs). apply set_news_entities_same.
  - destruct (posts_unlink_run u id i w Hi) as [H200 Hok]. split; [ | exact Hok ].
    intros resp Hr Hs. rewrite (H200 resp Hr Hs). simpl. split.
    + apply links_of_delete.
    + intros Habs. rewrite (link_delete_absent i _ Habs). apply set_posts_entities_same.
Qed.


Lemma news_of_rewritten i t c img l :
  filter (fun n => news_id n =? i) (news_rewritten i t c img l)
  = map (fun n => {| news_id := news_id n; news_title := t; news_content := c;
                     news_image_url := img; news_created_by := news_created_by n |})
        (filter (fun n => news_id n =? i) l).
Proof.
  unfold news_rewritten. induction l as [|x l IH]; simpl; [ reflexivity | ].
  destruct (news_id x =? i) eqn:E; simpl; rewrite E, IH; reflexivity.
Qed.

Lemma posts_of_rewritten i c img l :
  filter (fun p => post_id p =? i) (posts_rewritten i c img l)
  = map (fun p => {| post_id := post_id p; post_user_id := post_user_id p;
                     post_content := c; post_image_url := img |})
        (filter (fun p => post_id p =? i) l).
Proof.
  unfold posts_rewritten. induction l as [|x l IH]; simpl; [ reflexivity | ].
  destruct (post_id x =? i) eqn:E; simpl; rewrite E, IH; reflexivity.
Qed.

End LinkOutcomes.

Create HintDb keep.

Lemma NoDup_map_filter (A : Type) (key : A -> Z) (p : A -> bool) (l : list A) :
  NoDup (map key l) -> NoDup (map key (filter p l)).
Proof.
  induction l as [|x l IH]; simpl; intros H; [ constructor | ].
  inversion H as [|? ? Hnin Hnd]; subst.
  destruct (p x); simpl; [ constructor | ]; auto.
  intros Hin. apply Hnin. apply in_map_iff in Hin. destruct Hin as [y [Hy Hin]].
  apply in_map_iff. exists y. split; [ exact Hy | ]. apply filter_In in Hin. apply Hin.
Qed.

Lemma map_key_rewrite (A : Type) (key : A -> Z) (f : A -> A) (i : Z) (l : list A) :
  (forall x, key (f x) = key x) ->
  map key (map (fun x => if key x =? i then f x else x) l) = map key l.
Proof.
  intros Hk. induction l as [|x l IH]; simpl; [ reflexivity | ].
  rewrite IH. destruct (key x =? i); [ rewrite Hk | ]; reflexivity.
Qed.

Lemma existsb_key_false (A : Type) (key : A -> Z) (i : Z) (l : list A) :
  existsb (fun x => key x =? i) l = false -> ~ In i (map key l).
Proof.
  intros H Hin. apply in_map_iff in Hin. destruct Hin as [x [Hx Hin]].
  assert (existsb (fun x => key x =? i) l = true) as C
      by (apply existsb_exists; exists x; split; [ exact Hin | lia ]).
  congruence.
Qed.

Lemma existsb_key_true (A : Type) (key : A -> Z) (i : Z) (l : list A) :
  existsb (fun x => key x =? i) l = true -> In i (map key l).
Proof.
  intros H. apply existsb_exists in H. destruct H as [x [Hin Hx]].
  apply in_map_iff. exists x. split; [ lia | exact Hin ].
Qed.

Lemma existsb_in_keys (i : Z) (l : list Z) :
  existsb (fun o => o =? i) l = true -> In i l.
Proof.
  intros H. apply existsb_exists in H. destruct H as [x [Hin Hx]].
  replace i with x by lia. exact Hin.
Qed.

Lemma NoDup_snoc (i : Z) (l : list Z) : NoDup l -> ~ In i l -> NoDup (l ++ [i]).
Proof.
  intros Hl Hi. apply NoDup_app; [ exact Hl | repeat constructor; intros [] | ].
  intros x Hx [<- | []]. exact (Hi Hx).
Qed.

Lemma link_insert_owner owners r tbl l x :
  link_insert owners r tbl = Some l -> In x l ->
  In x tbl \/ (x = r /\ In (link_owner r) owners).
Proof.
  unfold link_insert.
  destruct (existsb (fun o => o =? link_owner r) owners) eqn:E; simpl; [ | discriminate ].
  destruct (_ && _); [ | discriminate ].
  intros [= <-] Hin. apply in_app_iff in Hin. destruct Hin as [Hin | [<- | []]].
  - left. exact Hin.
  - right. split; [ reflexivity | apply existsb_in_keys, E ].
Qed.

Lemma link_update_owner i t e tbl l x :
  link_update i t e tbl = Some l -> In x l -> exists y, In y tbl /\ link_owner y = link_owner x.
Proof.
  unfold link_update. destruct (_ || _); [ | discriminate ].
  intros [= <-] Hin. apply in_map_iff in Hin. destruct Hin as [y [Hy Hin]].
  exists y. split; [ exact Hin | ].
  destruct (link_owner y =? i) eqn:E; subst x; simpl; lia.
Qed.

Lemma link_delete_owner i tbl x :
  In x (link_delete i tbl) -> In x tbl /\ link_owner x <> i.
Proof. unfold link_delete. intros H. apply filter_In in H. split; [ apply H | lia ]. Qed.

Section Consistency.
Context {pg : PgInput}.

Lemma select_entity_keeps tbl id : sql_keeps (select_entity tbl id).
Proof.
  intros sn sp d r d' H E. unfold select_entity in E.
  destruct (int4 id); [ | discriminate ]. injection E as <- <-. exact H.
Qed.

Lemma select_user_keeps id : sql_keeps (select_user id).
Proof.
  intros sn sp d r d' H E. unfold select_user in E.
  destruct (int4 id); [ | discriminate ]. injection E as <- <-. exact H.
Qed.

Lemma select_news_keeps id : sql_keeps (select_news id).
Proof.
  intros sn sp d r d' H E. unfold select_news in E.
  destruct (int4 id); [ | discriminate ]. injection E as <- <-. exact H.
Qed.

Lemma select_user_profile_keeps id : sql_keeps (select_user_profile id).
Proof.
  intros sn sp d r d' H E. unfold select_user_profile, reading_users in E.
  destruct (forallb _ _); [ | discriminate ]. exact (select_user_keeps id _ _ _ _ _ H E).
Qed.

Lemma select_news_complete_keeps id : sql_keeps (select_news_complete id).
Proof.
  intros sn sp d r d' H E. unfold select_news_complete, reading_users in E.
  destruct (forallb _ _); [ | discriminate ].
  destruct (int4 id); [ | discriminate ]. injection E as <- <-. exact H.
Qed.

Lemma select_news_entities_keeps id : sql_keeps (select_news_entities id).
Proof.
  intros sn sp d r d' H E. unfold select_news_entities in E.
  destruct (int4 id); [ | discriminate ]. injection E as <- <-. exact H.
Qed.

Lemma select_posts_keeps id : sql_keeps (select_posts id).
Proof.
  intros sn sp d r d' H E. unfold select_posts in E.
  destruct (int4 id); [ | discriminate ]. injection E as <- <-. exact H.
Qed.

Lemma select_posts_complete_keeps id : sql_keeps (select_posts_complete id).
Proof.
  intros sn sp d r d' H E. unfold select_posts_complete, reading_users in E.
  destruct (forallb _ _); [ | discriminate ].
  destruct (int4 id); [ | discriminate ]. injection E as <- <-. exact H.
Qed.

Lemma select_posts_entities_keeps id : sql_keeps (select_posts_entities id).
Proof.
  intros sn sp d r d' H E. unfold select_posts_entities in E.
  destruct (int4 id); [ | discriminate ]. injection E as <- <-. exact H.
Qed.

Lemma update_news_keeps t c im id : sql_keeps (update_news t c im id).
Proof.
  intros sn sp d r d' (Hn & Hp & Hnr & Hpr & Hnl & Hpl) H.
  unfold update_news in H.
  destruct (varchar 100 t) as [t'|]; [ | discriminate ].
  destruct (text_in c) as [c'|]; [ | discriminate ].
  destruct (varchar_opt 255 im) as [im'|]; [ | discriminate ].
  destruct (int4 id) as [i|]; [ | discriminate ]. injection H as <- <-.
  unfold store_consistent; simpl.
  rewrite (map_key_rewrite _ news_id) by reflexivity.
  split; [ exact Hn | ]. split; [ exact Hp | ]. split; [ | auto ].
  intros n Hin. apply in_map_iff in Hin. destruct Hin as [y [Hy Hin]].
  destruct (news_id y =? i); subst n; simpl; apply Hnr; exact Hin.
Qed.

Lemma update_posts_keeps c im id : sql_keeps (update_posts c im id).
Proof.
  intros sn sp d r d' (Hn & Hp & Hnr & Hpr & Hnl & Hpl) H.
  unfold update_posts in H.
  destruct (text_in c) as [c'|]; [ | discriminate ].
  destruct (varchar_opt 255 im) as [im'|]; [ | discriminate ].
  destruct (int4 id) as [i|]; [ | discriminate ]. injection H as <- <-.
  unfold store_consistent; simpl.
  rewrite (map_key_rewrite _ post_id) by reflexivity.
  split; [ exact Hn | ]. split; [ exact Hp | ]. split; [ exact Hnr | ].
  split; [ | auto ].
  intros p Hin. apply in_map_iff in Hin. destruct Hin as [y [Hy Hin]].
  destruct (post_id y =? i); subst p; simpl; apply Hpr; exact Hin.
Qed.

Lemma delete_news_keeps id : sql_keeps (delete_news id).
Proof.
  intros sn sp d r d' (Hn & Hp & Hnr & Hpr & Hnl & Hpl) H.
  unfold delete_news in H. destruct (int4 id) as [i|]; [ | discriminate ].
  injection H as <- <-. unfold store_consistent; simpl.
  split; [ apply NoDup_map_filter, Hn | ]. split; [ exact Hp | ].
  split; [ intros n Hin; apply filter_In in Hin; apply Hnr, Hin | ].
  split; [ exact Hpr | ]. split; [ | exact Hpl ].
  intros l Hin. apply link_delete_owner in Hin. destruct Hin as [Hin Hne].
  specialize (Hnl l Hin). apply in_map_iff in Hnl. destruct Hnl as [n [Hk Hnin]].
  apply in_map_iff. exists n. split; [ exact Hk | ].
  apply filter_In. split; [ exact Hnin | ]. apply negb_true_iff. lia.
Qed.

Lemma delete_posts_keeps id : sql_keeps (delete_posts id).
Proof.
  intros sn sp d r d' (Hn & Hp & Hnr & Hpr & Hnl & Hpl) H.
  unfold delete_posts in H. destruct (int4 id) as [i|]; [ | discriminate ].
  injection H as <- <-. unfold store_consistent; simpl.
  split; [ exact Hn | ]. split; [ apply NoDup_map_filter, Hp | ].
  split; [ exact Hnr | ].
  split; [ intros p Hin; apply filter_In in Hin; apply Hpr, Hin | ].
  split; [ exact Hnl | ].
  intros l Hin. apply link_delete_owner in Hin. destruct Hin as [Hin Hne].
  specialize (Hpl l Hin). apply in_map_iff in Hpl. destruct Hpl as [p [Hk Hpin]].
  apply in_map_iff. exists p. split; [ exact Hk | ].
  apply filter_In. split; [ exact Hpin | ]. apply negb_true_iff. lia.
Qed.

Lemma insert_news_entities_keeps i t e : sql_keeps (insert_news_entities i t e).
Proof.
  intros sn sp d r d' (Hn & Hp & Hnr & Hpr & Hnl & Hpl) H.
  unfold insert_news_entities in H.
  destruct (int4 i) as [o|]; [ | discriminate ].
  destruct (varchar 20 t) as [k|]; [ | discriminate ].
  destruct (int4 e) as [ei|]; [ | discriminate ].
  destruct (link_insert _ _ _) as [tbl|] eqn:E; [ | discriminate ].
  injection H as <- <-. unfold store_consistent; simpl.
  repeat (split; [ assumption | ]). split; [ | exact Hpl ].
  intros l Hin. destruct (link_insert_owner _ _ _ _ _ E Hin) as [Hold | [-> Hown]];
    [ apply Hnl, Hold | exact Hown ].
Qed.

Lemma insert_posts_entities_keeps i t e : sql_keeps (insert_posts_entities i t e).
Proof.
  intros sn sp d r d' (Hn & Hp & Hnr & Hpr & Hnl & Hpl) H.
  unfold insert_posts_entities in H.
  destruct (int4 i) as [o|]; [ | discriminate ].
  destruct (varchar 20 t) as [k|]; [ | discriminate ].
  destruct (int4 e) as [ei|]; [ | discriminate ].
  destruct (link_insert _ _ _) as [tbl|] eqn:E; [ | discriminate ].
  injection H as <- <-. unfold store_consistent; simpl.
  repeat (split; [ assumption | ]).
  intros l Hin. destruct (link_insert_owner _ _ _ _ _ E Hin) as [Hold | [-> Hown]];
    [ apply Hpl, Hold | exact Hown ].
Qed.

Lemma update_news_entities_keeps t e i : sql_keeps (update_news_entities t e i).
Proof.
  intros sn sp d r d' (Hn & Hp & Hnr & Hpr & Hnl & Hpl) H.
  unfold update_news_entities in H.
  destruct (varchar 20 t) as [k|]; [ | discriminate ].
  destruct (int4 e) as [ei|]; [ | discriminate ]. destruct (int4 i) as [o|]; [ | discriminate ].
  destruct (link_update _ _ _ _) as [tbl|] eqn:E; [ | discriminate ].
  injection H as <- <-. unfold store_consistent; simpl.
  repeat (split; [ assumption | ]). split; [ | exact Hpl ].
  intros l Hin. destruct (link_update_owner _ _ _ _ _ _ E Hin) as [y [Hy <-]].
  apply Hnl, Hy.
Qed.

Lemma update_posts_entities_keeps t e i : sql_keeps (update_posts_entities t e i).
Proof.
  intros sn sp d r d' (Hn & Hp & Hnr & Hpr & Hnl & Hpl) H.
  unfold update_posts_entities in H.
  destruct (varchar 20 t) as [k|]; [ | discriminate ].
  destruct (int4 e) as [ei|]; [ | discriminate ]. destruct (int4 i) as [o|]; [ | discriminate ].
  destruct (link_update _ _ _ _) as [tbl|] eqn:E; [ | discriminate ].
  injection H as <- <-. unfold store_consistent; simpl.
  repeat (split; [ assumption | ]).
  intros l Hin. destruct (link_update_owner _ _ _ _ _ _ E Hin) as [y [Hy <-]].
  apply Hpl, Hy.
Qed.

Lemma delete_news_entities_keeps id : sql_keeps (delete_news_entities id).
Proof.
  intros sn sp d r d' (Hn & Hp & Hnr & Hpr & Hnl & Hpl) H.
  unfold delete_news_entities in H. destruct (int4 id) as [i|]; [ | discriminate ].
  injection H as <- <-. unfold store_consistent; simpl.
  repeat (split; [ assumption | ]). split; [ | exact Hpl ].
  intros l Hin. apply link_delete_owner in Hin. apply Hnl, Hin.
Qed.

Lemma delete_posts_entities_keeps id : sql_keeps (delete_posts_entities id).
Proof.
  intros sn sp d r d' (Hn & Hp & Hnr & Hpr & Hnl & Hpl) H.
  unfold delete_posts_entities in H. destruct (int4 id) as [i|]; [ | discriminate ].
  injection H as <- <-. unfold store_consistent; simpl.
  repeat (split; [ assumption | ]).
  intros l Hin. apply link_delete_owner in Hin. apply Hpl, Hin.
Qed.

(** The INSERT of an owner record keeps the constraints when its key was
    drawn below the sequence. *)
Lemma insert_news_keeps run nid t c im u sn sp d r d' :
  insert_news t c im u = Some run ->
  store_consistent sn sp d -> nid < sn ->
  run nid d = Some (r, d') -> store_consistent sn sp d'.
Proof.
  unfold insert_news. intros Hrun (Hn & Hp & Hnr & Hpr & Hnl & Hpl) Hlt H.
  destruct (varchar 100 t) as [t'|]; [ | discriminate ].
  destruct (text_in c) as [c'|]; [ | discriminate ].
  destruct (varchar_opt 255 im) as [im'|]; [ | discriminate ].
  injection Hrun as <-. cbv beta zeta in H.
  destruct (existsb (fun u0 => usr_id u0 =? u) (users d)) eqn:Eu; simpl in H;
    [ | discriminate ].
  destruct (existsb (fun n => news_id n =? nid) (news d)) eqn:Ek; simpl in H;
    [ discriminate | ].
  injection H as <- <-. unfold store_consistent; simpl.
  rewrite map_app. simpl.
  split; [ apply NoDup_snoc; [ exact Hn | apply (existsb_key_false _ news_id), Ek ] | ].
  split; [ exact Hp | ]. split.
  - intros n Hin. apply in_app_iff in Hin. destruct Hin as [Hin | [<- | []]].
    + apply Hnr, Hin.
    + simpl. split; [ exact Hlt | apply (existsb_key_true _ usr_id), Eu ].
  - split; [ exact Hpr | ]. split; [ | exact Hpl ].
    intros l Hin. apply in_app_iff. left. apply Hnl, Hin.
Qed.

Lemma insert_posts_keeps run pid u c im sn sp d r d' :
  insert_posts u c im = Some run ->
  store_consistent sn sp d -> pid < sp ->
  run pid d = Some (r, d') -> store_consistent sn sp d'.
Proof.
  unfold insert_posts. intros Hrun (Hn & Hp & Hnr & Hpr & Hnl & Hpl) Hlt H.
  destruct (text_in c) as [c'|]; [ | discriminate ].
  destruct (varchar_opt 255 im) as [im'|]; [ | discriminate ].
  injection Hrun as <-. cbv beta zeta in H.
  destruct (existsb (fun u0 => usr_id u0 =? u) (users d)) eqn:Eu; simpl in H;
    [ | discriminate ].
  destruct (existsb (fun p => post_id p =? pid) (posts d)) eqn:Ek; simpl in H;
    [ discriminate | ].
  injection H as <- <-. unfold store_consistent; simpl.
  rewrite map_app. simpl.
  split; [ exact Hn | ].
  split; [ apply NoDup_snoc; [ exact Hp | apply (existsb_key_false _ post_id), Ek ] | ].
  split; [ exact Hnr | ]. split.
  - intros p Hin. apply in_app_iff in Hin. destruct Hin as [Hin | [<- | []]].
    + apply Hpr, Hin.
    + simpl. split; [ exact Hlt | apply (existsb_key_true _ usr_id), Eu ].
  - split; [ exact Hnl | ].
    intros l Hin. apply in_app_iff. left. apply Hpl, Hin.
Qed.

Lemma store_consistent_mono sn sp sn' sp' d :
  store_consistent sn sp d -> sn <= sn' -> sp <= sp' -> store_consistent sn' sp' d.
Proof.
  intros (Hn & Hp & Hnr & Hpr & Hnl & Hpl) H1 H2. unfold store_consistent.
  repeat (split; [ assumption | ]). split; [ | split; [ | split; assumption ] ].
  - intros n Hin. destruct (Hnr n Hin). split; [ lia | assumption ].
  - intros p Hin. destruct (Hpr p Hin). split; [ lia | assumption ].
Qed.

Lemma keeps_ret A (a : A) : keeps (ret a).
Proof. intros w H. exact H. Qed.

Lemma keeps_throw A : keeps (@throw A).
Proof. intros w H. exact H. Qed.

Lemma keeps_bind A B (m : M A) (f : A -> M B) :
  keeps m -> (forall a, keeps (f a)) -> keeps (bind m f).
Proof.
  intros Hm Hf w H. unfold bind. specialize (Hm w H).
  destruct (m w) as [[a|] w']; simpl in *; [ apply Hf; exact Hm | exact Hm ].
Qed.

Lemma keeps_try_catch A (m h : M A) : keeps m -> keeps h -> keeps (try_catch m h).
Proof.
  intros Hm Hh w H. unfold try_catch. specialize (Hm w H).
  destruct (m w) as [[a|] w']; simpl in *; [ exact Hm | apply Hh; exact Hm ].
Qed.

Lemma keeps_finally A (m : M A) (f : M unit) : keeps m -> keeps f -> keeps (finally m f).
Proof.
  intros Hm Hf w H. unfold finally. specialize (Hm w H).
  destruct (m w) as [o w']; simpl in *. specialize (Hf w' Hm).
  destruct (f w') as [[u|] w'']; simpl in *; exact Hf.
Qed.

Lemma keeps_await_io : keeps await_io.
Proof. intros w H. unfold await_io. destruct (hd false (faults w)); exact H. Qed.

Lemma keeps_run_committed R (q : Sql R) : sql_keeps q -> keeps (run_committed q).
Proof.
  intros Hq w [Hc Ht]. unfold run_committed.
  destruct (q (committed w)) as [[r d]|] eqn:E; simpl; [ | split; assumption ].
  split; [ exact (Hq _ _ _ _ _ Hc E) | exact Ht ].
Qed.

Lemma keeps_run_client R (q : Sql R) : sql_keeps q -> keeps (run_client q).
Proof.
  intros Hq w H. unfold run_client. destruct (txn w) as [t|] eqn:Et.
  - destruct H as [Hc Ht]. destruct (q t) as [[r d]|] eqn:E; simpl.
    + split; [ exact Hc | ]. intros t' [= <-]. exact (Hq _ _ _ _ _ (Ht _ Et) E).
    + split; assumption.
  - apply keeps_run_committed; assumption.
Qed.

Lemma keeps_db_query R (q : Sql R) : sql_keeps q -> keeps (db_query q).
Proof.
  intros Hq. apply keeps_bind; [ apply keeps_await_io | intros _; apply keeps_run_committed, Hq ].
Qed.

Lemma keeps_client_query R (q : Sql R) : sql_keeps q -> keeps (client_query q).
Proof.
  intros Hq. apply keeps_bind; [ apply keeps_await_io | intros _; apply keeps_run_client, Hq ].
Qed.

Lemma keeps_drop_txn : keeps (fun w => (Val tt, set_txn None w)).
Proof. intros w [Hc _]. split; [ exact Hc | discriminate ]. Qed.

Lemma keeps_pool_connect : keeps pool_connect.
Proof. apply keeps_bind; [ apply keeps_await_io | intros _; apply keeps_drop_txn ]. Qed.

Lemma keeps_client_rollback : keeps client_rollback.
Proof. apply keeps_bind; [ apply keeps_await_io | intros _; apply keeps_drop_txn ]. Qed.

Lemma keeps_client_release : keeps client_release.
Proof. apply keeps_drop_txn. Qed.

Lemma keeps_client_begin : keeps client_begin.
Proof.
  apply keeps_bind; [ apply keeps_await_io | intros _ ].
  intros w H. destruct (txn w) eqn:E; simpl; [ exact H | ].
  destruct H as [Hc Ht]. split; [ exact Hc | ]. intros t [= <-]. exact Hc.
Qed.

Lemma keeps_client_commit : keeps client_commit.
Proof.
  apply keeps_bind; [ apply keeps_await_io | intros _ ].
  intros w H. destruct (txn w) eqn:E; simpl; [ | exact H ].
  destruct H as [Hc Ht]. split; [ apply Ht; exact E | discriminate ].
Qed.

Lemma keeps_uploadFile f : keeps (uploadFile f).
Proof. apply keeps_bind; [ apply keeps_await_io | intros _; apply keeps_ret ]. Qed.

Lemma keeps_message c m : keeps (message c m).
Proof. apply keeps_ret. Qed.

(** The INSERT of a news item, with the draw of its key. *)
Lemma keeps_insert_news t c im u :
  keeps (client_query_serial nextval_news (insert_news t c im u)).
Proof.
  apply keeps_bind; [ apply keeps_await_io | intros _ ].
  destruct (insert_news t c im u) as [run|] eqn:Hrun; [ | apply keeps_throw ].
  intros w [Hc Ht]. unfold bind, nextval_news, run_client, run_committed.
  destruct (news_id_seq w <=? 2147483647); [ | split; assumption ]. simpl.
  assert (forall d, store_consistent (news_id_seq w) (posts_id_seq w) d ->
                    store_consistent (news_id_seq w + 1) (posts_id_seq w) d) as Hup
      by (intros d Hd; apply (store_consistent_mono _ _ _ _ _ Hd); lia).
  destruct (txn w) as [t0|] eqn:Et; simpl.
  - destruct (run (news_id_seq w) t0) as [[r d]|] eqn:E; simpl.
    + split; [ apply Hup, Hc | ]. intros t' [= <-].
      apply (insert_news_keeps _ _ _ _ _ _ _ _ _ _ _ Hrun (Hup _ (Ht _ eq_refl))) in E;
        [ exact E | lia ].
    + split; [ apply Hup, Hc | ]. intros t' Heq. apply Hup, Ht. exact Heq.
  - destruct (run (news_id_seq w) (committed w)) as [[r d]|] eqn:E; simpl.
    + split; [ | simpl; discriminate ].
      apply (insert_news_keeps _ _ _ _ _ _ _ _ _ _ _ Hrun (Hup _ Hc)) in E; [ exact E | lia ].
    + split; [ apply Hup, Hc | simpl; discriminate ].
Qed.

Lemma keeps_insert_posts u c im :
  keeps (client_query_serial nextval_posts (insert_posts u c im)).
Proof.
  apply keeps_bind; [ apply keeps_await_io | intros _ ].
  destruct (insert_posts u c im) as [run|] eqn:Hrun; [ | apply keeps_throw ].
  intros w [Hc Ht]. unfold bind, nextval_posts, run_client, run_committed.
  destruct (posts_id_seq w <=? 2147483647); [ | split; assumption ]. simpl.
  assert (forall d, store_consistent (news_id_seq w) (posts_id_seq w) d ->
                    store_consistent (news_id_seq w) (posts_id_seq w + 1) d) as Hup
      by (intros d Hd; apply (store_consistent_mono _ _ _ _ _ Hd); lia).
  destruct (txn w) as [t0|] eqn:Et; simpl.
  - destruct (run (posts_id_seq w) t0) as [[r d]|] eqn:E; simpl.
    + split; [ apply Hup, Hc | ]. intros t' [= <-].
      apply (insert_posts_keeps _ _ _ _ _ _ _ _ _ _ Hrun (Hup _ (Ht _ eq_refl))) in E;
        [ exact E | lia ].
    + split; [ apply Hup, Hc | ]. intros t' Heq. apply Hup, Ht. exact Heq.
  - destruct (run (posts_id_seq w) (committed w)) as [[r d]|] eqn:E; simpl.
    + split; [ | simpl; discriminate ].
      apply (insert_posts_keeps _ _ _ _ _ _ _ _ _ _ Hrun (Hup _ Hc)) in E; [ exact E | lia ].
    + split; [ apply Hup, Hc | simpl; discriminate ].
Qed.

#[local] Hint Resolve keeps_ret keeps_throw keeps_await_io keeps_db_query
  keeps_client_query keeps_pool_connect keeps_client_rollback keeps_client_release
  keeps_client_begin keeps_client_commit keeps_uploadFile keeps_message
  keeps_insert_news keeps_insert_posts
  select_entity_keeps select_user_keeps select_user_profile_keeps select_news_keeps
  select_news_complete_keeps
  select_news_entities_keeps select_posts_keeps select_posts_complete_keeps
  select_posts_entities_keeps update_news_keeps update_posts_keeps delete_news_keeps
  delete_posts_keeps insert_news_entities_keeps insert_posts_entities_keeps
  update_news_entities_keeps update_posts_entities_keeps delete_news_entities_keeps
  delete_posts_entities_keeps : keep.

Ltac keep_step :=
  first
    [ solve [ auto with keep ]
    | match goal with
      | |- keeps (if ?b then _ else _) => destruct b
      | |- keeps (match ?x with _ => _ end) => destruct x
      end
    | apply keeps_try_catch
    | apply keeps_finally
    | apply keeps_bind; [ | intros ? ] ].

Ltac keep := cbv zeta; repeat keep_step.

Lemma keeps_entity_exists kind id : keeps (entity_exists kind id).
Proof. unfold entity_exists. keep. Qed.

Lemma keeps_entity_details kind id : keeps (entity_details kind id).
Proof. unfold entity_details. keep. Qed.

#[local] Hint Resolve keeps_entity_exists keeps_entity_details : keep.

Lemma keeps_handle r : keeps (handle r).
Proof.
  destruct r; simpl;
    unfold news_create, news_create_transaction, news_update, news_link, news_unlink,
      news_delete, posts_create, posts_create_transaction, posts_update, posts_link,
      posts_unlink, posts_delete;
    keep.
Qed.

Lemma serve_consistent rs : forall w, world_consistent w -> world_consistent (serve rs w).
Proof.
  induction rs as [|r rs IH]; intros w H; simpl; [ exact H | ].
  apply IH, keeps_handle, H.
Qed.

(** X10. Whatever requests are served, the keys of news items and posts
    stay unique and below their sequences, every creator is a stored user
    and every link row belongs to a stored owner record. *)
Theorem keys_and_references_are_kept (rs : list Request) (w : World)
  (H : world_consistent w) :
  store_consistent (news_id_seq (serve rs w)) (posts_id_seq (serve rs w))
    (committed (serve rs w)).
Proof. exact (proj1 (serve_consistent rs w H)). Qed.

End Consistency.

Section Created.
Context {pg : PgInput}.

Lemma fresh_news_key sn sp d :
  store_consistent sn sp d ->
  existsb (fun n => news_id n =? sn) (news d) = false /\
  existsb (fun x => link_owner x =? sn) (news_entities d) = false.
Proof.
  intros (_ & _ & Hn & _ & Hl & _).
  assert (existsb (fun n => news_id n =? sn) (news d) = false) as H1.
  { destruct (existsb _ (news d)) eqn:E; [ | reflexivity ].
    apply existsb_exists in E. destruct E as [n [Hin Hk]].
    specialize (Hn n Hin). lia. }
  split; [ exact H1 | ].
  destruct (existsb _ (news_entities d)) eqn:E; [ | reflexivity ].
  apply existsb_exists in E. destruct E as [l [Hin Hk]].
  specialize (Hl l Hin). apply in_map_iff in Hl. destruct Hl as [n [Hk' Hin']].
  specialize (Hn n Hin'). lia.
Qed.

Lemma fresh_posts_key sn sp d :
  store_consistent sn sp d ->
  existsb (fun p => post_id p =? sp) (posts d) = false /\
  existsb (fun x => link_owner x =? sp) (posts_entities d) = false.
Proof.
  intros (_ & _ & _ & Hn & _ & Hl).
  assert (existsb (fun p => post_id p =? sp) (posts d) = false) as H1.
  { destruct (existsb _ (posts d)) eqn:E; [ | reflexivity ].
    apply existsb_exists in E. destruct E as [n [Hin Hk]].
    specialize (Hn n Hin). lia. }
  split; [ exact H1 | ].
  destruct (existsb _ (posts_entities d)) eqn:E; [ | reflexivity ].
  apply existsb_exists in E. destruct E as [l [Hin Hk]].
  specialize (Hl l Hin). apply in_map_iff in Hl. destruct Hl as [n [Hk' Hin']].
  specialize (Hn n Hin'). lia.
Qed.

Lemma existsb_filter_nonempty (A : Type) (p : A -> bool) (l : list A) :
  existsb p l = true -> exists x r, filter p l = x :: r.
Proof.
  induction l as [|a l IH]; simpl; [ discriminate | ].
  destruct (p a); [ intros _; eauto | simpl; exact IH ].
Qed.

Lemma nonempty_filter (A : Type) (p : A -> bool) (l : list A) :
  nonempty (filter p l) = true -> exists x r, filter p l = x :: r.
Proof. destruct (filter p l); [ discriminate | eauto ]. Qed.

Lemma existsb_key_snoc (A : Type) (key : A -> Z) (l : list A) (x : A) :
  existsb (fun o => o =? key x) (map key (l ++ [x])) = true.
Proof.
  rewrite map_app, existsb_app. simpl. rewrite Z.eqb_refl. apply orb_true_iff.
  right. reflexivity.
Qed.

Lemma varchar_opt_url n f :
  varchar_opt n (option_map cloud_url f) = Some (option_map cloud_url f) ->
  match f with
  | Some x => varchar n (cloud_url x) = Some (cloud_url x)
  | None => True
  end.
Proof.
  destruct f as [x|]; simpl; [ | trivial ].
  destruct (varchar n (cloud_url x)); simpl; congruence.
Qed.

Lemma news_create_run (u : ReqUser) (b : NewsBody)
  (f : option UploadedFile) (w : World)
  (Hw : world_consistent w) (Ha : news_create_accepted u b f w)
  (Hs : news_id_seq w <= 2147483647) :
  let r := NewsCreate u b f in
  let n := created_news (news_id_seq w) u b f in
  fst (handle r w) = Val {| status := 201; body := NewsJson (Some n) |} /\
  news_id_seq (snd (handle r w)) = news_id_seq w + 1 /\
  committed (snd (handle r w)) =
    set_news_entities
      (news_entities (committed w) ++ created_links (news_id_seq w) (asked_target r))%list
      (set_news (news (committed w) ++ [n])%list (committed w)) /\
  faults (snd (handle r w)) = [].
Proof.
  destruct Hw as [Hw _]. apply fresh_news_key in Hw. destruct Hw as [Hk Hl].
  destruct Ha as (Hf & Hu & Ht & Hc & Hlen & Htxt & Himg & Hkind & Htgt).
  apply varchar_opt_url in Himg. apply Z.leb_le in Hs.
  destruct w as [d t sn sp fl]. simpl in Hk, Hl, Hf, Hu, Htgt, Hs. subst fl.
  pose proof Hu as Hue.
  apply existsb_filter_nonempty in Hu. destruct Hu as (ur & us & Hu).
  pose proof (existsb_key_snoc _ news_id (news d) (created_news sn u b f)) as Hown.
  unfold created_news in *. simpl in Hown.
  unfold created_links, entity_present, entity_table in *.
  cbv zeta. unfold handle, asked_target.
  unfold_handlers; unfold_monad; unfold_sql; cbn.
  rewrite Ht, Hc. cbn.
  destruct (truthy (linkedType b)) eqn:Elt; [ specialize (Hkind eq_refl) | clear Hkind ].
  - pose proof (varchar_kind _ Hkind) as Hvk. apply includes_kinds in Hkind.
    destruct (truthy (linkedId b)) eqn:Eli; simpl in Htgt.
    + destruct (Htgt eq_refl) as (e & He & Hp). clear Htgt.
      destruct Hkind as [Hkd | [Hkd | Hkd]]; rewrite Hkd in *; simpl in Hp;
        apply nonempty_filter in Hp; destruct Hp as (x & xs & Hp);
        destruct f as [f|]; cbn in Hown; cbn;
        rewrite ?He; cbn; rewrite ?Hp; cbn;
        rewrite ?Hlen, ?Htxt, ?Himg; cbn; rewrite ?Hs; cbn; rewrite ?Hue, ?Hk; cbn;
        rewrite ?Hvk; unfold link_insert; cbn;
        rewrite ?Hown, ?Hl; cbn; rewrite ?Hu; cbn; rewrite ?He; cbn;
        repeat split; reflexivity.
    + clear Htgt.
      destruct Hkind as [Hkd | [Hkd | Hkd]]; rewrite Hkd in *;
        destruct f as [f|]; cbn in Hown; cbn;
        rewrite ?Hlen, ?Htxt, ?Himg; cbn; rewrite ?Hs; cbn; rewrite ?Hue, ?Hk; cbn;
        rewrite ?Hu; cbn;
        rewrite ?app_nil_r; repeat split; reflexivity.
  - clear Htgt.
    destruct f as [f|]; cbn in Hown; cbn;
      rewrite ?Hlen, ?Htxt, ?Himg; cbn; rewrite ?Hs; cbn; rewrite ?Hue, ?Hk; cbn;
      rewrite ?Hu; cbn;
      rewrite ?app_nil_r; repeat split; reflexivity.
Qed.

(** The posts handler commits the same way, and then fails on the read of
    the author. *)
Lemma posts_create_run (u : ReqUser) (b : PostBody)
  (f : option UploadedFile) (w : World)
  (Hw : world_consistent w) (Ha : posts_create_accepted u b f w)
  (Hs : posts_id_seq w <= 2147483647) :
  let r := PostsCreate u b f in
  let p := created_post (posts_id_seq w) u b f in
  fst (handle r w) = Val {| status := 500; body := Message "Server error" |} /\
  posts_id_seq (snd (handle r w)) = posts_id_seq w + 1 /\
  committed (snd (handle r w)) =
    set_posts_entities
      (posts_entities (committed w) ++ created_links (posts_id_seq w) (asked_target r))%list
      (set_posts (posts (committed w) ++ [p])%list (committed w)) /\
  faults (snd (handle r w)) = [].
Proof.
  destruct Hw as [Hw _]. apply fresh_posts_key in Hw. destruct Hw as [Hk Hl].
  destruct Ha as (Hf & Hu & Hc & Htxt & Himg & Hkind & Htgt).
  apply varchar_opt_url in Himg. apply Z.leb_le in Hs.
  destruct w as [d t sn sp fl]. simpl in Hk, Hl, Hf, Hu, Htgt, Hs. subst fl.
  pose proof Hu as Hue.
  apply existsb_filter_nonempty in Hu. destruct Hu as (ur & us & Hu).
  pose proof (existsb_key_snoc _ post_id (posts d) (created_post sp u b f)) as Hown.
  unfold created_post in *. simpl in Hown.
  unfold created_links, entity_present, entity_table in *.
  cbv zeta. unfold handle, asked_target.
  unfold_handlers; unfold_monad; unfold_sql; cbn.
  rewrite Hc. cbn.
  destruct (truthy (entityType b)) eqn:Elt; [ specialize (Hkind eq_refl) | clear Hkind ].
  - pose proof (varchar_kind _ Hkind) as Hvk. apply includes_kinds in Hkind.
    destruct (truthy (entityId b)) eqn:Eli; simpl in Htgt.
    + destruct (Htgt eq_refl) as (e & He & Hp). clear Htgt.
      destruct Hkind as [Hkd | [Hkd | Hkd]]; rewrite Hkd in *; simpl in Hp;
        apply nonempty_filter in Hp; destruct Hp as (x & xs & Hp);
        destruct f as [f|]; cbn in Hown; cbn;
        rewrite ?He; cbn; rewrite ?Hp; cbn;
        rewrite ?Htxt, ?Himg; cbn; rewrite ?Hs; cbn; rewrite ?Hue, ?Hk; cbn;
        rewrite ?Hvk; unfold link_insert; cbn;
        rewrite ?Hown, ?Hl; cbn; rewrite ?He; cbn;
        repeat split; reflexivity.
    + clear Htgt.
      destruct Hkind as [Hkd | [Hkd | Hkd]]; rewrite Hkd in *;
        destruct f as [f|]; cbn in Hown; cbn;
        rewrite ?Htxt, ?Himg; cbn; rewrite ?Hs; cbn; rewrite ?Hue, ?Hk; cbn;
        rewrite ?app_nil_r; repeat split; reflexivity.
  - clear Htgt.
    destruct f as [f|]; cbn in Hown; cbn;
      rewrite ?Htxt, ?Himg; cbn; rewrite ?Hs; cbn; rewrite ?Hue, ?Hk; cbn;
      rewrite ?app_nil_r; repeat split; reflexivity.
Qed.

(** No run of the posts create reaches its [res.status(201)]. *)
Lemma posts_create_never_201 u b f w resp :
  fst (posts_create u b f w) = Val resp -> status resp <> 201.
Proof.
  destruct (posts_create u b f w) as [o w'] eqn:E. simpl. revert E.
  run_handler.
  all: intros [= <- <-] [= <-]; cbn; discriminate.
Qed.

(** X11. A create request that is accepted on a consistent store, with no
    awaited call failing and a key left in the sequence, commits the record
    under the next value of the sequence, together with the link row of
    the target asked for, if any, and advances the sequence. The news
    handler answers 201 with that record. The posts handler answers 500
    after it has committed, because the read of the author that follows its
    COMMIT names a column that [users] does not have; it answers 201 on no
    run. *)
Theorem create_stores_the_request (u : ReqUser) (f : option UploadedFile) (w : World)
  (Hw : world_consistent w) :
  (forall b, news_create_accepted u b f w -> news_id_seq w <= 2147483647 ->
     let r := NewsCreate u b f in
     let n := created_news (news_id_seq w) u b f in
     fst (handle r w) = Val {| status := 201; body := NewsJson (Some n) |} /\
     news_id_seq (snd (handle r w)) = news_id_seq w + 1 /\
     committed (snd (handle r w)) =
       set_news_entities
         (news_entities (committed w)
          ++ created_links (news_id_seq w) (asked_target r))%list
         (set_news (news (committed w) ++ [n])%list (committed w))) /\
  (forall b, posts_create_accepted u b f w -> posts_id_seq w <= 2147483647 ->
     let r := PostsCreate u b f in
     let p := created_post (posts_id_seq w) u b f in
     fst (handle r w) = Val {| status := 500; body := Message "Server error" |} /\
     posts_id_seq (snd (handle r w)) = posts_id_seq w + 1 /\
     committed (snd (handle r w)) =
       set_posts_entities
         (posts_entities (committed w)
          ++ created_links (posts_id_seq w) (asked_target r))%list
         (set_posts (posts (committed w) ++ [p])%list (committed w))) /\
  (forall b resp, fst (handle (PostsCreate u b f) w) = Val resp -> status resp <> 201).
Proof.
  split; [ | split ].
  - intros b Ha Hs. destruct (news_create_run u b f w Hw Ha Hs) as (H1 & H2 & H3 & _). auto.
  - intros b Ha Hs. destruct (posts_create_run u b f w Hw Ha Hs) as (H1 & H2 & H3 & _). auto.
  - intros b resp. apply posts_create_never_201.
Qed.

End Created.

(** ** Updates that commit *)

Lemma existsb_key_rewritten (A : Type) (key : A -> Z) (g : A -> A) (i : Z) (l : list A) x r :
  (forall a, key (g a) = key a) ->
  filter (fun a => key a =? i) l = x :: r ->
  existsb (fun o => o =? i) (map key (map (fun a => if key a =? i then g a else a) l)) = true.
Proof.
  intros Hg Hf. rewrite (map_key_rewrite _ key g i l Hg).
  exact (owner_key_present _ key i l x r Hf).
Qed.

Section Committed.
Context {pg : PgInput}.

(** An update of a post that nothing stops: both writes are committed, and
    the read that follows the COMMIT throws, since it names a column that
    [users] does not have; the handler answers 500. *)
Lemma posts_update_run u id b f w :
  posts_update_accepted u id b f w ->
  fst (posts_update u id b f w) = Val {| status := 500; body := Message "Server error" |} /\
  post_updated id b f (committed w) (committed (snd (posts_update u id b f w))) /\
  faults (snd (posts_update u id b f w)) = [].
Proof.
  intros (Hf & Hb & (i & p & rest & Hi & Hp & Ha & Himg) & Htxt & Htgt).
  apply body_valid_posts in Hb. destruct Hb as [Hc Hk].
  destruct (text_in (text (body_content b))) as [c|] eqn:Ec; [ | congruence ].
  pose proof (text_in_some _ _ Ec) as ->. clear Htxt.
  destruct (varchar_opt 255 (stored_image f (post_image_url p))) as [img|] eqn:Eimg;
    [ | congruence ]. clear Himg.
  pose proof (existsb_key_rewritten _ post_id
                (fun a => {| post_id := post_id a; post_user_id := post_user_id a;
                             post_content := text (body_content b);
                             post_image_url := img |}) i (posts (committed w)) p rest
                (fun a => eq_refl) Hp) as Hown.
  unfold post_updated, posts_of, posts_rewritten, allowed in *.
  destruct w as [d t sn sp fl]. simpl in Hf, Hp, Htgt, Hown |- *. subst fl.
  unfold posts_update. rewrite Hc, Hk.
  unfold_monad; unfold_sql; cbn. rewrite Hi. cbn. rewrite Hp. cbn.
  rewrite Ha. cbn.
  destruct (truthy (entityType b) && truthy (entityId b)) eqn:Et.
  - destruct (Htgt eq_refl) as (e & He & Hpres). clear Htgt.
    apply andb_true_iff in Et. destruct Et as [Et1 Et2]. rewrite Et1 in Hk. simpl in Hk.
    apply negb_false_iff in Hk. pose proof (varchar_kind _ Hk) as Hvk.
    unfold entity_present, entity_table in Hpres. unfold entity_exists.
    apply includes_kinds in Hk.
    destruct (links_of i (posts_entities d)) as [|lr lrs] eqn:El.
    + destruct Hk as [Hkd | [Hkd | Hkd]]; rewrite Hkd in *; simpl in Hpres;
        apply nonempty_filter in Hpres; destruct Hpres as (x & xs & Hpres);
        unfold_monad; unfold_sql; cbn; rewrite ?He; cbn; rewrite ?Hpres; cbn;
        destruct f as [f|]; cbn in Eimg |- *; rewrite ?Ec, ?Eimg; cbn; rewrite ?Hi; cbn;
        unfold links_of in El; rewrite ?El; cbn; rewrite ?Hvk; unfold link_insert; cbn;
        rewrite ?Hown, ?existsb_links_of; unfold links_of; rewrite ?El; cbn.
      all: split; [ reflexivity | ]; split; [ | reflexivity ].
      all: exists i, p, rest, img.
      all: repeat (split; [ first [ reflexivity | assumption ] | ]).
      all: exists e; split; [ reflexivity | ].
      all: unfold upsert, links_of; rewrite El; reflexivity.
    + destruct Hk as [Hkd | [Hkd | Hkd]]; rewrite Hkd in *; simpl in Hpres;
        apply nonempty_filter in Hpres; destruct Hpres as (x & xs & Hpres);
        unfold_monad; unfold_sql; cbn; rewrite ?He; cbn; rewrite ?Hpres; cbn;
        destruct f as [f|]; cbn in Eimg |- *; rewrite ?Ec, ?Eimg; cbn; rewrite ?Hi; cbn;
        unfold links_of in El; rewrite ?El; cbn; rewrite ?Hvk; unfold link_update; cbn;
        rewrite ?orb_true_r; cbn.
      all: split; [ reflexivity | ]; split; [ | reflexivity ].
      all: exists i, p, rest, img.
      all: repeat (split; [ first [ reflexivity | assumption ] | ]).
      all: exists e; split; [ reflexivity | ].
      all: unfold upsert, links_of; rewrite El; reflexivity.
  - clear Htgt.
    destruct f as [f|]; cbn in Eimg |- *; rewrite ?Ec, ?Eimg; cbn; rewrite ?Hi; cbn.
    all: split; [ reflexivity | ]; split; [ | reflexivity ].
    all: exists i, p, rest, img.
    all: repeat (split; [ first [ reflexivity | assumption ] | ]).
    all: reflexivity.
Qed.

(** An update of a news item that nothing stops: both writes are
    committed and the handler answers 200. *)
Lemma news_update_run u id b f w :
  news_update_accepted u id b f w ->
  (exists resp, fst (news_update u id b f w) = Val resp /\ status resp = 200) /\
  news_updated id b f (committed w) (committed (snd (news_update u id b f w))) /\
  faults (snd (news_update u id b f w)) = [].
Proof.
  intros (Hf & Hb & (i & n & rest & Hi & Hn & Ha & Himg) & Htitle & Htxt & Htgt).
  apply body_valid_news in Hb. destruct Hb as [Hc Hk].
  destruct (varchar 100 (text (title b))) as [t|] eqn:Et; [ | congruence ]. clear Htitle.
  destruct (text_in (text (content b))) as [c|] eqn:Ec; [ | congruence ].
  pose proof (text_in_some _ _ Ec) as ->. clear Htxt.
  destruct (varchar_opt 255 (stored_image f (news_image_url n))) as [img|] eqn:Eimg;
    [ | congruence ]. clear Himg.
  pose proof (existsb_key_rewritten _ news_id
                (fun a => {| news_id := news_id a; news_title := t;
                             news_content := text (content b);
                             news_image_url := img;
                             news_created_by := news_created_by a |})
                i (news (committed w)) n rest (fun a => eq_refl) Hn) as Hown.
  unfold news_updated, news_of, news_rewritten, allowed, canMutate in *.
  apply orb_true_iff in Ha.
  assert (negb (news_created_by n =? user_id u) && negb (user_role u =? "aslab")%string
          = false) as Hpol
      by (destruct Ha as [-> | ->]; simpl; [ reflexivity | apply andb_false_r ]).
  destruct w as [d t0 sn sp fl]. simpl in Hf, Hn, Htgt, Hown |- *. subst fl.
  unfold news_update. rewrite Hc, Hk.
  unfold_monad; unfold_sql; cbn. rewrite Hi. cbn. rewrite Hn. cbn.
  rewrite Hpol. cbn.
  destruct (truthy (linkedType b) && truthy (linkedId b)) eqn:Etg.
  - destruct (Htgt eq_refl) as (e & He & Hpres). clear Htgt.
    apply andb_true_iff in Etg. destruct Etg as [Et1 Et2]. rewrite Et1 in Hk. simpl in Hk.
    apply negb_false_iff in Hk. pose proof (varchar_kind _ Hk) as Hvk.
    unfold entity_present, entity_table in Hpres. unfold entity_exists.
    apply includes_kinds in Hk.
    destruct (links_of i (news_entities d)) as [|lr lrs] eqn:El.
    + destruct Hk as [Hkd | [Hkd | Hkd]]; rewrite Hkd in *; simpl in Hpres;
        apply nonempty_filter in Hpres; destruct Hpres as (x & xs & Hpres);
        unfold_monad; unfold_sql; cbn; rewrite ?He; cbn; rewrite ?Hpres; cbn;
        destruct f as [f|]; cbn in Eimg |- *; rewrite ?Et, ?Ec, ?Eimg; cbn;
        rewrite ?Hi; cbn;
        unfold links_of in El; rewrite ?El; cbn; rewrite ?Hvk; unfold link_insert; cbn;
        rewrite ?Hown, ?existsb_links_of; unfold links_of; rewrite ?El; cbn.
      all: split; [ eexists; split; reflexivity | ]; split; [ | reflexivity ].
      all: exists i, n, rest, t, img.
      all: repeat (split; [ first [ reflexivity | assumption ] | ]).
      all: exists e; split; [ reflexivity | ].
      all: unfold upsert, links_of; rewrite El; reflexivity.
    + destruct Hk as [Hkd | [Hkd | Hkd]]; rewrite Hkd in *; simpl in Hpres;
        apply nonempty_filter in Hpres; destruct Hpres as (x & xs & Hpres);
        unfold_monad; unfold_sql; cbn; rewrite ?He; cbn; rewrite ?Hpres; cbn;
        destruct f as [f|]; cbn in Eimg |- *; rewrite ?Et, ?Ec, ?Eimg; cbn;
        rewrite ?Hi; cbn;
        unfold links_of in El; rewrite ?El; cbn; rewrite ?Hvk; unfold link_update; cbn;
        rewrite ?orb_true_r; cbn.
      all: split; [ eexists; split; reflexivity | ]; split; [ | reflexivity ].
      all: exists i, n, rest, t, img.
      all: repeat (split; [ first [ reflexivity | assumption ] | ]).
      all: exists e; split; [ reflexivity | ].
      all: unfold upsert, links_of; rewrite El; reflexivity.
  - clear Htgt.
    destruct f as [f|]; cbn in Eimg |- *; rewrite ?Et, ?Ec, ?Eimg; cbn; rewrite ?Hi; cbn.
    all: split; [ eexists; split; reflexivity | ]; split; [ | reflexivity ].
    all: exists i, n, rest, t, img.
    all: repeat (split; [ first [ reflexivity | assumption ] | ]).
    all: reflexivity.
Qed.

(** No run of the posts update reaches its [res.json]. *)
Lemma posts_update_never_200 u id b f w resp :
  fst (posts_update u id b f w) = Val resp -> status resp <> 200.
Proof.
  destruct (posts_update u id b f w) as [o w'] eqn:E. simpl. revert E.
  run_handler.
  all: intros [= <- <-] [= <-]; cbn; discriminate.
Qed.

Lemma news_update_clears u id b f w i r :
  int4in id = Some i ->
  truthy (linkedType b) && truthy (linkedId b) = false ->
  fst (news_update u id b f w) = Val r -> status r = 200 ->
  links_of i (news_entities (committed (snd (news_update u id b f w)))) = [].
Proof.
  intros Hi Ht Hr Hs.
  destruct (news_update_all_or_nothing u id b f w) as [_ H200].
  destruct (H200 r Hr Hs) as (i' & n & rest & t & img & Hi' & _ & _ & _ & Hd).
  cbv zeta in Hd. rewrite Ht in Hd. rewrite Hd. simpl.
  replace i' with i by congruence. apply links_of_delete.
Qed.

Lemma news_update_accepted_clears u id b f w i :
  int4in id = Some i ->
  truthy (linkedType b) && truthy (linkedId b) = false ->
  news_update_accepted u id b f w ->
  (exists resp, fst (news_update u id b f w) = Val resp /\ status resp = 200) /\
  links_of i (news_entities (committed (snd (news_update u id b f w)))) = [].
Proof.
  intros Hi Ht Ha. destruct (news_update_run u id b f w Ha) as ((resp & Hr & Hs) & _ & _).
  split; [ exists resp; auto | ]. exact (news_update_clears u id b f w i resp Hi Ht Hr Hs).
Qed.

Lemma posts_update_accepted_clears u id b f w i :
  int4in id = Some i ->
  truthy (entityType b) && truthy (entityId b) = false ->
  posts_update_accepted u id b f w ->
  fst (posts_update u id b f w) = Val {| status := 500; body := Message "Server error" |} /\
  links_of i (posts_entities (committed (snd (posts_update u id b f w)))) = [].
Proof.
  intros Hi Ht Ha. destruct (posts_update_run u id b f w Ha) as (Hr & Hd & _).
  split; [ exact Hr | ].
  destruct Hd as (i' & p & rest & img & Hi' & _ & _ & Hd).
  cbv zeta in Hd. rewrite Ht in Hd. rewrite Hd. simpl.
  replace i' with i by congruence. apply links_of_delete.
Qed.

(** C5. An update whose body carries no target (no kind, or no id, in
    particular neither) removes the link row of the owner record. With no
    awaited call failing, a stored record, an actor who passes the policy
    and values that fit their columns, the update of a news item answers
    200 and the store it has committed holds no link row of that item; the
    update of a post commits as well, the store holds no link row of the
    post, and the handler then answers 500, because its read after COMMIT
    names a column that [users] does not have. Under any schedule of
    failures, a news update without target that answers 200 has removed
    the link row. *)
Theorem update_without_target_removes_link (u : ReqUser) (id : string) (i : Z)
  (f : option UploadedFile) (w : World) (Hi : int4in id = Some i) :
  (forall b,
      truthy (linkedType b) && truthy (linkedId b) = false ->
      news_update_accepted u id b f w ->
      (exists resp, fst (news_update u id b f w) = Val resp /\ status resp = 200) /\
      links_of i (news_entities (committed (snd (news_update u id b f w)))) = []) /\
  (forall b,
      truthy (entityType b) && truthy (entityId b) = false ->
      posts_update_accepted u id b f w ->
      fst (posts_update u id b f w)
      = Val {| status := 500; body := Message "Server error" |} /\
      links_of i (posts_entities (committed (snd (posts_update u id b f w)))) = []) /\
  (forall b r,
      truthy (linkedType b) && truthy (linkedId b) = false ->
      fst (news_update u id b f w) = Val r -> status r = 200 ->
      links_of i (news_entities (committed (snd (news_update u id b f w)))) = []).
Proof.
  split; [ | split ].
  - intros b Ht Ha. exact (news_update_accepted_clears u id b f w i Hi Ht Ha).
  - intros b Ht Ha. exact (posts_update_accepted_clears u id b f w i Hi Ht Ha).
  - intros b r Ht Hr Hs. exact (news_update_clears u id b f w i r Hi Ht Hr Hs).
Qed.

Lemma partial_news_target_none b :
  partial_news_target b = true -> truthy (linkedType b) && truthy (linkedId b) = false.
Proof.
  unfold partial_news_target. destruct (truthy (linkedType b)), (truthy (linkedId b));
    simpl; congruence.
Qed.

Lemma partial_post_target_none b :
  partial_post_target b = true -> truthy (entityType b) && truthy (entityId b) = false.
Proof.
  unfold partial_post_target. destruct (truthy (entityType b)), (truthy (entityId b));
    simpl; congruence.
Qed.

Lemma news_update_as_without_target u id b f w :
  truthy (linkedType b) && truthy (linkedId b) = false ->
  (truthy (linkedType b) = true -> includes entity_kinds (text (linkedType b)) = true) ->
  news_update u id b f w = news_update u id (without_news_target b) f w.
Proof.
  intros Ht Hk.
  unfold news_update, without_news_target. cbn [title content linkedType linkedId truthy].
  rewrite Ht. cbn [andb].
  destruct (truthy (linkedType b)); [ rewrite (Hk eq_refl) | ]; reflexivity.
Qed.

Lemma posts_update_as_without_target u id b f w :
  truthy (entityType b) && truthy (entityId b) = false ->
  (truthy (entityType b) = true -> includes entity_kinds (text (entityType b)) = true) ->
  posts_update u id b f w = posts_update u id (without_post_target b) f w.
Proof.
  intros Ht Hk.
  unfold posts_update, without_post_target. cbn [body_content entityType entityId truthy].
  rewrite Ht. cbn [andb].
  destruct (truthy (entityType b)); [ rewrite (Hk eq_refl) | ]; reflexivity.
Qed.

(** Without a whole target an update reads none of the tables of
    classes, modules and assignments. *)
Lemma news_update_ignores_entities u id b f w cs ms asg :
  truthy (linkedType b) && truthy (linkedId b) = false ->
  news_update u id b f (world_with_entities cs ms asg w)
  = (fst (news_update u id b f w),
     world_with_entities cs ms asg (snd (news_update u id b f w))).
Proof.
  intros Ht. unfold news_update. rewrite Ht.
  destruct w as [d t sn sp fl]. destruct d as [us c m a ns ne ps pe].
  unfold world_with_entities, with_entities.
  unfold_monad; unfold_sql; cbn.
  repeat (break_match; cbn in *; try discriminate).
  all: reflexivity.
Qed.

Lemma posts_update_ignores_entities u id b f w cs ms asg :
  truthy (entityType b) && truthy (entityId b) = false ->
  posts_update u id b f (world_with_entities cs ms asg w)
  = (fst (posts_update u id b f w),
     world_with_entities cs ms asg (snd (posts_update u id b f w))).
Proof.
  intros Ht. unfold posts_update. rewrite Ht.
  destruct w as [d t sn sp fl]. destruct d as [us c m a ns ne ps pe].
  unfold world_with_entities, with_entities.
  unfold_monad; unfold_sql; cbn.
  repeat (break_match; cbn in *; try discriminate).
  all: reflexivity.
Qed.

(** C10. On update of a news item or post, a body that names one half of
    a target, a kind and no id or an id and no kind, is handled as the same
    body with no target. When the kind, if given, is of the enumeration, the
    whole run is that of the body without target, answer and final state
    alike. No lookup of a target is made: the answer and the state are the
    same whatever the tables of classes, modules and assignments hold. And
    the link row is deleted: when nothing stops the update, the store it
    commits holds no link row of the owner record; the news handler
    answers 200, the posts handler 500 after its COMMIT. *)
Theorem partial_target_is_no_target (u : ReqUser) (id : string) (i : Z)
  (f : option UploadedFile) (w : World) (Hi : int4in id = Some i) :
  (forall b,
      partial_news_target b = true ->
      ((truthy (linkedType b) = true -> includes entity_kinds (text (linkedType b)) = true) ->
       news_update u id b f w = news_update u id (without_news_target b) f w) /\
      (forall cs ms asg,
          news_update u id b f (world_with_entities cs ms asg w)
          = (fst (news_update u id b f w),
             world_with_entities cs ms asg (snd (news_update u id b f w)))) /\
      (news_update_accepted u id b f w ->
       (exists resp, fst (news_update u id b f w) = Val resp /\ status resp = 200) /\
       links_of i (news_entities (committed (snd (news_update u id b f w)))) = [])) /\
  (forall b,
      partial_post_target b = true ->
      ((truthy (entityType b) = true -> includes entity_kinds (text (entityType b)) = true) ->
       posts_update u id b f w = posts_update u id (without_post_target b) f w) /\
      (forall cs ms asg,
          posts_update u id b f (world_with_entities cs ms asg w)
          = (fst (posts_update u id b f w),
             world_with_entities cs ms asg (snd (posts_update u id b f w)))) /\
      (posts_update_accepted u id b f w ->
       fst (posts_update u id b f w)
       = Val {| status := 500; body := Message "Server error" |} /\
       links_of i (posts_entities (committed (snd (posts_update u id b f w)))) = [])).
Proof.
  split; intros b Hp.
  - apply partial_news_target_none in Hp. split; [ | split ].
    + intros Hk. exact (news_update_as_without_target u id b f w Hp Hk).
    + intros cs ms asg. exact (news_update_ignores_entities u id b f w cs ms asg Hp).
    + intros Ha. exact (news_update_accepted_clears u id b f w i Hi Hp Ha).
  - apply partial_post_target_none in Hp. split; [ | split ].
    + intros Hk. exact (posts_update_as_without_target u id b f w Hp Hk).
    + intros cs ms asg. exact (posts_update_ignores_entities u id b f w cs ms asg Hp).
    + intros Ha. exact (posts_update_accepted_clears u id b f w i Hi Hp Ha).
Qed.

Lemma news_updated_stored i b f d d' id :
  int4in id = Some i ->
  news_updated id b f d d' ->
  (List.length (links_of i (news_entities d)) <= 1)%nat ->
  news_of i d' <> [] /\
  Forall (fun n => varchar 100 (text (title b)) = Some (news_title n)
                   /\ news_content n = text (content b)) (news_of i d') /\
  map news_created_by (news_of i d') = map news_created_by (news_of i d) /\
  (truthy (linkedType b) && truthy (linkedId b) = true ->
   exists e, int4in (text (linkedId b)) = Some e /\
     links_of i (news_entities d')
     = [{| link_owner := i; entity_type := text (linkedType b); entity_id := e |}]).
Proof.
  intros Hi (i' & n & rest & t & img & Hi' & Hrows & Ht & _ & Hd) Hkey.
  replace i' with i in * by congruence. clear Hi'. cbv zeta in Hd.
  assert (news_of i d'
          = map (fun n0 => {| news_id := news_id n0; news_title := t;
                              news_content := text (content b);
                              news_image_url := img;
                              news_created_by := news_created_by n0 |})
                (news_of i d)) as Hnew.
  { destruct (truthy (linkedType b) && truthy (linkedId b));
      [ destruct Hd as [e [_ Hd]] | ]; rewrite Hd; unfold news_of; simpl;
      apply news_of_rewritten. }
  rewrite Hnew, Hrows. repeat split.
  - discriminate.
  - apply Forall_forall. intros x Hx. apply in_map_iff in Hx.
    destruct Hx as [y [<- _]]. split; [ exact Ht | reflexivity ].
  - rewrite map_map. reflexivity.
  - intros Htg. rewrite Htg in Hd. destruct Hd as [e [He Hd]]. exists e.
    split; [ exact He | ]. rewrite Hd. simpl. apply links_of_upsert, Hkey.
Qed.

Lemma post_updated_stored i b f d d' id :
  int4in id = Some i ->
  post_updated id b f d d' ->
  (List.length (links_of i (posts_entities d)) <= 1)%nat ->
  posts_of i d' <> [] /\
  Forall (fun p => post_content p = text (body_content b)) (posts_of i d') /\
  map post_user_id (posts_of i d') = map post_user_id (posts_of i d) /\
  (truthy (entityType b) && truthy (entityId b) = true ->
   exists e, int4in (text (entityId b)) = Some e /\
     links_of i (posts_entities d')
     = [{| link_owner := i; entity_type := text (entityType b); entity_id := e |}]).
Proof.
  intros Hi (i' & p & rest & img & Hi' & Hrows & _ & Hd) Hkey.
  replace i' with i in * by congruence. clear Hi'. cbv zeta in Hd.
  assert (posts_of i d'
          = map (fun p0 => {| post_id := post_id p0; post_user_id := post_user_id p0;
                              post_content := text (body_content b);
                              post_image_url := img |})
                (posts_of i d)) as Hnew.
  { destruct (truthy (entityType b) && truthy (entityId b));
      [ destruct Hd as [e [_ Hd]] | ]; rewrite Hd; unfold posts_of; simpl;
      apply posts_of_rewritten. }
  rewrite Hnew, Hrows. repeat split.
  - discriminate.
  - apply Forall_forall. intros x Hx. apply in_map_iff in Hx.
    destruct Hx as [y [<- _]]. reflexivity.
  - rewrite map_map. reflexivity.
  - intros Htg. rewrite Htg in Hd. destruct Hd as [e [He Hd]]. exists e.
    split; [ exact He | ]. rewrite Hd. simpl. apply links_of_upsert, Hkey.
Qed.

(** X9. An update that commits stores the request. After a news update
    that answered 200 the record of the key exists, carries the title of
    the body as its column takes it and the content of the body, under its
    old creator, and its link rows are the one row of the target when the
    body names one; an update that nothing stops is answered 200. A posts
    update that nothing stops commits the content and the link row in the
    same way and is answered 500: the read after its COMMIT names a column
    that [users] does not have, and no posts update is answered 200. *)
Theorem committed_update_stores_the_request (u : ReqUser) (id : string) (i : Z)
  (f : option UploadedFile) (w : World)
  (Hi : int4in id = Some i) :
  (forall b resp,
      fst (news_update u id b f w) = Val resp -> status resp = 200 ->
      (List.length (links_of i (news_entities (committed w))) <= 1)%nat ->
      let d' := committed (snd (news_update u id b f w)) in
      news_of i d' <> [] /\
      Forall (fun n => varchar 100 (text (title b)) = Some (news_title n)
                       /\ news_content n = text (content b))
        (news_of i d') /\
      map news_created_by (news_of i d') = map news_created_by (news_of i (committed w)) /\
      (truthy (linkedType b) && truthy (linkedId b) = true ->
       exists e, int4in (text (linkedId b)) = Some e /\
         links_of i (news_entities d')
         = [{| link_owner := i; entity_type := text (linkedType b); entity_id := e |}])) /\
  (forall b,
      news_update_accepted u id b f w ->
      exists resp, fst (news_update u id b f w) = Val resp /\ status resp = 200) /\
  (forall b,
      posts_update_accepted u id b f w ->
      (List.length (links_of i (posts_entities (committed w))) <= 1)%nat ->
      let d' := committed (snd (posts_update u id b f w)) in
      fst (posts_update u id b f w)
      = Val {| status := 500; body := Message "Server error" |} /\
      posts_of i d' <> [] /\
      Forall (fun p => post_content p = text (body_content b)) (posts_of i d') /\
      map post_user_id (posts_of i d') = map post_user_id (posts_of i (committed w)) /\
      (truthy (entityType b) && truthy (entityId b) = true ->
       exists e, int4in (text (entityId b)) = Some e /\
         links_of i (posts_entities d')
         = [{| link_owner := i; entity_type := text (entityType b); entity_id := e |}])) /\
  (forall b resp, fst (posts_update u id b f w) = Val resp -> status resp <> 200).
Proof.
  split; [ | split; [ | split ] ].
  - intros b resp Hr Hs Hkey d'. subst d'.
    destruct (news_update_all_or_nothing u id b f w) as [_ H200].
    exact (news_updated_stored i b f _ _ id Hi (H200 resp Hr Hs) Hkey).
  - intros b Ha. exact (proj1 (news_update_run u id b f w Ha)).
  - intros b Ha Hkey d'. subst d'.
    destruct (posts_update_run u id b f w Ha) as (Hr & Hd & _).
    split; [ exact Hr | ]. exact (post_updated_stored i b f _ _ id Hi Hd Hkey).
  - intros b resp. apply posts_update_never_200.
Qed.

End Committed.

(** ** The joins *)

Lemma in_inner_join A B (on : A -> B -> bool) l r a b :
  In (a, b) (inner_join on l r) <-> In a l /\ In b r /\ on a b = true.
Proof.
  unfold inner_join. rewrite in_flat_map. split.
  - intros (x & Hx & Hin). apply in_map_iff in Hin. destruct Hin as (y & [= <- <-] & Hy).
    apply filter_In in Hy. tauto.
  - intros (Ha & Hb & Hon). exists a. split; [ exact Ha | ].
    apply in_map. apply filter_In. tauto.
Qed.

Lemma in_left_join A B (on : A -> B -> bool) l r a ob :
  In (a, ob) (left_join on l r) ->
  In a l /\ match ob with
            | Some b => In b r /\ on a b = true
            | None => filter (on a) r = []
            end.
Proof.
  unfold left_join. rewrite in_flat_map. intros (x & Hx & Hin).
  destruct (filter (on x) r) as [|b bs] eqn:E.
  - destruct Hin as [[= <- <-] | []]. split; assumption.
  - apply in_map_iff in Hin. destruct Hin as (y & [= <- <-] & Hy).
    split; [ exact Hx | ]. rewrite <- E in Hy. apply filter_In in Hy. exact Hy.
Qed.

Lemma filter_flat_map A B (p : B -> bool) (f : A -> list B) (l : list A) :
  filter p (flat_map f l) = flat_map (fun a => filter p (f a)) l.
Proof.
  induction l as [|a l IH]; simpl; [ reflexivity | ].
  rewrite filter_app, IH. reflexivity.
Qed.

Lemma flat_map_filter A B (q : A -> bool) (f : A -> list B) (l : list A) :
  flat_map f (filter q l) = flat_map (fun a => if q a then f a else []) l.
Proof.
  induction l as [|a l IH]; simpl; [ reflexivity | ].
  destruct (q a); simpl; rewrite IH; reflexivity.
Qed.

Lemma filter_map_fst A B C (q : A -> bool) (a : A) (g : B -> A * C) (l : list B) :
  (forall b, fst (g b) = a) ->
  filter (fun x => q (fst x)) (map g l) = if q a then map g l else [].
Proof.
  intros Hg. induction l as [|b l IH]; simpl.
  - destruct (q a); reflexivity.
  - rewrite Hg, IH. destruct (q a); reflexivity.
Qed.

(** A condition on the left row passes through a join. *)
Lemma filter_left_join A B (on : A -> B -> bool) (q : A -> bool) l r :
  filter (fun x => q (fst x)) (left_join on l r) = left_join on (filter q l) r.
Proof.
  unfold left_join. rewrite filter_flat_map, flat_map_filter.
  apply flat_map_ext. intros a.
  destruct (filter (on a) r) as [|b bs].
  - simpl. destruct (q a); reflexivity.
  - apply (filter_map_fst _ _ _ q a (fun x => (a, Some x))). reflexivity.
Qed.

Lemma filter_inner_join A B (on : A -> B -> bool) (q : A -> bool) l r :
  filter (fun x => q (fst x)) (inner_join on l r) = inner_join on (filter q l) r.
Proof.
  unfold inner_join. rewrite filter_flat_map, flat_map_filter.
  apply flat_map_ext. intros a.
  apply (filter_map_fst _ _ _ q a (pair a)). reflexivity.
Qed.

Lemma filter_map_comm A B (p : B -> bool) (f : A -> B) (l : list A) :
  filter p (map f l) = map f (filter (fun a => p (f a)) l).
Proof.
  induction l as [|a l IH]; simpl; [ reflexivity | ].
  destruct (p (f a)); simpl; rewrite IH; reflexivity.
Qed.

(** The first row of a left join. *)
Lemma hd_left_join A B (on : A -> B -> bool) l r :
  hd_error (left_join on l r)
  = option_map (fun a => (a, hd_error (filter (on a) r))) (hd_error l).
Proof.
  destruct l as [|a l]; simpl; [ reflexivity | ].
  destruct (filter (on a) r); reflexivity.
Qed.

Lemma hd_map A B (f : A -> B) (l : list A) :
  hd_error (map f l) = option_map f (hd_error l).
Proof. destruct l; reflexivity. Qed.


Lemma links_of_sym o tbl :
  filter (fun e => o =? link_owner e) tbl = links_of o tbl.
Proof. unfold links_of. apply filter_ext. intros a. apply Z.eqb_sym. Qed.

Lemma news_joined_by_key i d :
  hd_error (filter (fun v => news_id (view_news v) =? i) (news_joined d))
  = option_map (view_of d)
      (hd_error (inner_join (fun n u => news_created_by n =? usr_id u)
                            (news_of i d) (users d))).
Proof.
  unfold news_joined, news_with_author, news_of.
  rewrite filter_map_comm. cbn [view_news].
  rewrite (filter_left_join _ _ _
             (fun x => news_id (fst (fst (fst (fst x)))) =? i)).
  rewrite (filter_left_join _ _ _ (fun x => news_id (fst (fst (fst x))) =? i)).
  rewrite (filter_left_join _ _ _ (fun x => news_id (fst (fst x)) =? i)).
  rewrite (filter_left_join _ _ _ (fun x => news_id (fst x) =? i)).
  rewrite (filter_inner_join _ _ _ (fun n => news_id n =? i)).
  rewrite hd_map, !hd_left_join.
  destruct (hd_error (inner_join _ _ _)) as [[n u]|]; [ | reflexivity ].
  simpl. unfold view_of. simpl. rewrite links_of_sym. reflexivity.
Qed.

Ltac unfold_reads :=
  unfold read, news_all, news_get, news_for, news_entity, read_message, read_json,
    select_all_news, select_news_view, select_news_for, select_entity_news.

Section ReadsProofs.
Context {pg : PgInput}.
Variable newest_first : forall A : Type, (A -> NewsRow) -> list A -> list A.
Hypothesis newest_first_permutes :
  forall A (key : A -> NewsRow) (l : list A), Permutation (newest_first A key l) l.

(** The answer of the read by key, when its query runs. *)
Lemma news_get_run id i w :
  int4in id = Some i -> hd false (faults w) = false ->
  fst (news_get id w)
  = Val match hd_error (inner_join (fun n u => news_created_by n =? usr_id u)
                                   (news_of i (committed w)) (users (committed w))) with
        | Some x => {| read_status := 200; read_body := NewsItem (view_of (committed w) x) |}
        | None => {| read_status := 404; read_body := ReadMessage "News not found" |}
        end.
Proof.
  intros Hi Hf. pose proof (news_joined_by_key i (committed w)) as Hd.
  unfold_reads; unfold_monad; unfold_sql; cbn. rewrite Hi, Hf. cbn.
  destruct (filter _ (news_joined (committed w))) as [|v vs];
    destruct (hd_error (inner_join _ _ _)) as [x|]; simpl in Hd; try discriminate;
    [ reflexivity | injection Hd as -> ; reflexivity ].
Qed.

(** The rows of the read by key. *)
Lemma news_get_rows id w resp :
  fst (news_get id w) = Val resp -> read_status resp = 200 ->
  exists i v, int4in id = Some i /\ read_body resp = NewsItem v /\
              news_id (view_news v) = i /\ In v (news_joined (committed w)).
Proof.
  unfold_reads; unfold_monad; unfold_sql; cbn.
  destruct (hd false (faults w)); cbn; [ intros [= <-]; discriminate | ].
  destruct (int4in id) as [i|]; cbn; [ | intros [= <-]; discriminate ].
  destruct (filter _ (news_joined (committed w))) as [|v vs] eqn:E; cbn;
    intros [= <-]; [ discriminate | ]. intros _.
  assert (In v (filter (fun v => news_id (view_news v) =? i) (news_joined (committed w))))
    as Hin by (rewrite E; left; reflexivity).
  apply filter_In in Hin. destruct Hin as [Hin Hk].
  exists i, v. repeat split; [ lia | exact Hin ].
Qed.

Lemma links_to_sound kind e c :
  links_to kind e c = true ->
  exists l, e = Some l /\ entity_type l = kind /\ entity_id l = ent_id c.
Proof.
  destruct e as [l|]; simpl; [ | discriminate ].
  intros H. apply andb_true_iff in H. destruct H as [Hk He].
  apply String.eqb_eq in Hk. exists l. repeat split; [ exact Hk | lia ].
Qed.

(** What the joins put in a row. *)
Lemma news_joined_sound d v :
  In v (news_joined d) ->
  In (view_news v) (news d) /\
  (exists u, In u (users d) /\ usr_id u = news_created_by (view_news v)
             /\ view_author v = usr_username u) /\
  (forall l, view_link v = Some l ->
             In l (news_entities d) /\ link_owner l = news_id (view_news v)) /\
  (forall c, view_class v = Some c ->
             In c (classes d) /\ links_to "class" (view_link v) c = true) /\
  (forall c, view_module v = Some c ->
             In c (modules d) /\ links_to "module" (view_link v) c = true) /\
  (forall c, view_assignment v = Some c ->
             In c (assignments d) /\ links_to "assignment" (view_link v) c = true).
Proof.
  unfold news_joined, news_with_author. intros Hin.
  apply in_map_iff in Hin. destruct Hin as ([[[[[n u] e] c] m] a] & <- & Hin).
  cbn [fst snd view_news view_author view_link view_class view_module view_assignment].
  apply in_left_join in Hin. destruct Hin as [Hin Ha].
  apply in_left_join in Hin. destruct Hin as [Hin Hm].
  apply in_left_join in Hin. destruct Hin as [Hin Hc].
  apply in_left_join in Hin. destruct Hin as [Hin He].
  apply in_inner_join in Hin. destruct Hin as (Hn & Hu & Hnu).
  cbn [fst snd] in *.
  split; [ exact Hn | ].
  split; [ exists u; repeat split; [ exact Hu | lia ] | ].
  split; [ intros l ->; destruct He as [He He']; split; [ exact He | lia ] | ].
  split; [ intros x ->; exact Hc | ].
  split; [ intros x ->; exact Hm | ].
  intros x ->; exact Ha.
Qed.

(** X12. A read by key that answers 200 shows a stored news item of that
    key under the name of its creator, with a stored link row of that item
    if any, and fills the columns of a class, module or assignment only
    with a stored target of the kind and key of the link row, so of at most
    one kind. *)
Theorem news_get_shows_the_stored_link (id : string) (w : World) (resp : ReadResponse)
  (Hr : fst (news_get id w) = Val resp) (Hs : read_status resp = 200) :
  exists v,
    read_body resp = NewsItem v /\
    int4in id = Some (news_id (view_news v)) /\
    In (view_news v) (news (committed w)) /\
    (exists u, In u (users (committed w)) /\ usr_id u = news_created_by (view_news v)
               /\ view_author v = usr_username u) /\
    (forall l, view_link v = Some l ->
               In l (news_entities (committed w))
               /\ link_owner l = news_id (view_news v)) /\
    (forall kind c,
        In (kind, Some c) [("class", view_class v); ("module", view_module v);
                           ("assignment", view_assignment v)] ->
        In c (entity_table kind (committed w)) /\
        exists l, view_link v = Some l /\ entity_type l = kind
                  /\ entity_id l = ent_id c) /\
    (List.length (filter (fun x => match x with Some _ => true | None => false end)
                    [view_class v; view_module v; view_assignment v]) <= 1)%nat.
Proof.
  destruct (news_get_rows id w resp Hr Hs) as (i & v & Hi & Hb & Hk & Hin).
  destruct (news_joined_sound _ _ Hin) as (Hn & Hu & Hl & Hc & Hm & Ha).
  exists v. split; [ exact Hb | ]. split; [ rewrite Hk; exact Hi | ].
  split; [ exact Hn | ]. split; [ exact Hu | ]. split; [ exact Hl | ].
  assert (forall kind c,
             In (kind, Some c) [("class", view_class v); ("module", view_module v);
                                ("assignment", view_assignment v)] ->
             In c (entity_table kind (committed w)) /\
             exists l, view_link v = Some l /\ entity_type l = kind
                       /\ entity_id l = ent_id c) as Hkinds.
  { intros kind c [H | [H | [H | []]]]; injection H as <- H;
      [ destruct (Hc c H) as [Hin' Hto] | destruct (Hm c H) as [Hin' Hto]
        | destruct (Ha c H) as [Hin' Hto] ];
      (split; [ exact Hin' | apply links_to_sound, Hto ]). }
  split; [ exact Hkinds | ].
  destruct (view_class v) as [c|] eqn:Ec, (view_module v) as [m|] eqn:Em,
           (view_assignment v) as [a|] eqn:Ea; simpl; try lia.
  all: try (destruct (Hkinds "class" c) as (_ & l1 & Hl1 & Ht1 & _);
            [ simpl; tauto | ]).
  all: try (destruct (Hkinds "module" m) as (_ & l2 & Hl2 & Ht2 & _);
            [ simpl; tauto | ]).
  all: try (destruct (Hkinds "assignment" a) as (_ & l3 & Hl3 & Ht3 & _);
            [ simpl; tauto | ]).
  all: congruence.
Qed.


(** X13. A read route always answers, with 200, 400, 404 or 500, and leaves
    the store, the open transaction and the sequences as they were. *)
Theorem reads_answer_and_write_nothing (r : ReadRequest) (w : World) :
  (exists resp, fst (read newest_first r w) = Val resp
                /\ In (read_status resp) [200; 400; 404; 500]) /\
  committed (snd (read newest_first r w)) = committed w /\
  txn (snd (read newest_first r w)) = txn w /\
  news_id_seq (snd (read newest_first r w)) = news_id_seq w /\
  posts_id_seq (snd (read newest_first r w)) = posts_id_seq w.
Proof.
  destruct r; unfold_reads; unfold_monad; unfold_sql; cbn;
    repeat (break_match; cbn in *; try discriminate);
    repeat match goal with
           | H : (_, _) = (_, _) |- _ => injection H as <- <-
           end;
    cbn; (split; [ eexists; split; [ reflexivity | simpl; tauto ] | tauto ]).
Qed.

(** The rows listed for a target. *)
Lemma news_linked_to_sound t e d x :
  In x (news_linked_to t e d) ->
  In (fst (fst x)) (news d) /\ In (snd x) (news_entities d) /\
  link_owner (snd x) = news_id (fst (fst x)) /\
  entity_type (snd x) = t /\ entity_id (snd x) = e.
Proof.
  unfold news_linked_to, news_with_author. intros Hin.
  apply filter_In in Hin. destruct Hin as [Hin Hx].
  destruct x as [[n u] l]. cbn [fst snd] in *.
  apply in_inner_join in Hin. destruct Hin as (Hnu & Hl & Hon).
  apply in_inner_join in Hnu. destruct Hnu as (Hn & _ & _).
  apply andb_true_iff in Hx. destruct Hx as [Ht He]. apply String.eqb_eq in Ht.
  cbn [fst snd] in *. repeat split; [ exact Hn | exact Hl | lia | exact Ht | lia ].
Qed.

Lemma news_for_rows t id w resp :
  fst (news_for newest_first t id w) = Val resp -> read_status resp = 200 ->
  exists e,
    int4in id = Some e /\
    read_body resp
    = LinkedNewsList
        (map (fun x => {| linked_news := fst (fst x);
                          linked_author := usr_username (snd (fst x));
                          linked_type := entity_type (snd x);
                          linked_id := entity_id (snd x) |})
             (newest_first _ (fun x => fst (fst x)) (news_linked_to t e (committed w)))).
Proof.
  unfold_reads; unfold_monad; unfold_sql.
  destruct (includes entity_kinds t); cbn;
    [ | intros Hr Hs; injection Hr as Hr; subst resp; discriminate ].
  destruct (hd false (faults w)); cbn;
    [ intros Hr Hs; injection Hr as Hr; subst resp; discriminate | ].
  destruct (int4in id) as [e|]; cbn;
    [ | intros Hr Hs; injection Hr as Hr; subst resp; discriminate ].
  intros Hr Hs; injection Hr as Hr; subst resp. exists e. split; reflexivity.
Qed.

Lemma news_entity_rows t id w resp :
  fst (news_entity newest_first t id w) = Val resp -> read_status resp = 200 ->
  exists e,
    int4in id = Some e /\
    read_body resp
    = EntityNewsList
        (map (fun x => (fst (fst x), usr_username (snd (fst x))))
             (newest_first _ (fun x => fst (fst x)) (news_linked_to t e (committed w)))).
Proof.
  unfold_reads; unfold_monad; unfold_sql.
  destruct (includes entity_kinds t); cbn;
    [ | intros Hr Hs; injection Hr as Hr; subst resp; discriminate ].
  destruct (hd false (faults w)); cbn;
    [ intros Hr Hs; injection Hr as Hr; subst resp; discriminate | ].
  destruct (int4in id) as [e|]; cbn;
    [ | intros Hr Hs; injection Hr as Hr; subst resp; discriminate ].
  intros Hr Hs; injection Hr as Hr; subst resp. exists e. split; reflexivity.
Qed.

(** X14. The listing for a target shows only news items whose link row names
    that target, and, the owner column being a key of the link table, no
    news item is listed for two targets. *)
Theorem listed_news_have_one_target (t1 id1 t2 id2 : string) (w : World)
  (vs1 vs2 : list LinkedNews)
  (H1 : fst (news_for newest_first t1 id1 w)
        = Val {| read_status := 200; read_body := LinkedNewsList vs1 |})
  (H2 : fst (news_for newest_first t2 id2 w)
        = Val {| read_status := 200; read_body := LinkedNewsList vs2 |})
  (Hkey : link_table_ok (news_entities (committed w))) :
  (forall v, In v vs1 ->
             linked_type v = t1 /\ int4in id1 = Some (linked_id v) /\
             In (linked_news v) (news (committed w)) /\
             In {| link_owner := news_id (linked_news v); entity_type := t1;
                   entity_id := linked_id v |} (news_entities (committed w))) /\
  (forall v1 v2, In v1 vs1 -> In v2 vs2 ->
                 news_id (linked_news v1) = news_id (linked_news v2) ->
                 t1 = t2 /\ linked_id v1 = linked_id v2).
Proof.
  destruct (news_for_rows _ _ _ _ H1 eq_refl) as (e1 & He1 & Hb1).
  destruct (news_for_rows _ _ _ _ H2 eq_refl) as (e2 & He2 & Hb2).
  simpl in Hb1, Hb2. injection Hb1 as ->. injection Hb2 as ->.
  assert (forall t e v,
             In v (map (fun x => {| linked_news := fst (fst x);
                                    linked_author := usr_username (snd (fst x));
                                    linked_type := entity_type (snd x);
                                    linked_id := entity_id (snd x) |})
                       (newest_first _ (fun x => fst (fst x))
                          (news_linked_to t e (committed w)))) ->
             linked_type v = t /\ linked_id v = e /\
             In (linked_news v) (news (committed w)) /\
             In {| link_owner := news_id (linked_news v); entity_type := t;
                   entity_id := e |} (news_entities (committed w))) as Hrow.
  { intros t e v Hin. apply in_map_iff in Hin. destruct Hin as (x & <- & Hin).
    apply (Permutation_in _ (newest_first_permutes _ _ _)) in Hin.
    apply news_linked_to_sound in Hin. destruct Hin as (Hn & Hl & Ho & Ht & He).
    cbn [linked_type linked_id linked_news].
    repeat split; [ exact Ht | exact He | exact Hn | ].
    destruct (snd x) as [o k ei]; simpl in *; subst; exact Hl. }
  split.
  - intros v Hv. destruct (Hrow _ _ _ Hv) as (Ht & He & Hn & Hl).
    rewrite He. repeat split; assumption.
  - intros v1 v2 Hv1 Hv2 Hk.
    destruct (Hrow _ _ _ Hv1) as (Ht1 & Hi1 & _ & Hl1).
    destruct (Hrow _ _ _ Hv2) as (Ht2 & Hi2 & _ & Hl2).
    destruct Hkey as [Hkey _]. specialize (Hkey (news_id (linked_news v1))).
    rewrite <- Hk in Hl2.
    assert (forall a b tbl o, In a tbl -> In b tbl -> link_owner a = o ->
                              link_owner b = o ->
                              (List.length (links_of o tbl) <= 1)%nat -> a = b) as Huniq.
    { clear. intros a b tbl o Ha Hb Hoa Hob Hlen.
      assert (In a (links_of o tbl)) as Ha' by (apply filter_In; split; [ exact Ha | lia ]).
      assert (In b (links_of o tbl)) as Hb' by (apply filter_In; split; [ exact Hb | lia ]).
      destruct (links_of o tbl) as [|x [|y r]]; simpl in *; [ tauto | | lia ].
      destruct Ha' as [<- | []], Hb' as [<- | []]. reflexivity. }
    pose proof (Huniq _ _ _ _ Hl1 Hl2 eq_refl eq_refl Hkey) as Heq.
    injection Heq as Ht He. subst. split; congruence.
Qed.

(** X15. The two listing routes of a target show the same news items under
    the same authors. *)
Theorem listing_routes_agree (t id : string) (w : World)
  (vs : list LinkedNews) (es : list (NewsRow * string))
  (H1 : fst (news_for newest_first t id w)
        = Val {| read_status := 200; read_body := LinkedNewsList vs |})
  (H2 : fst (news_entity newest_first t id w)
        = Val {| read_status := 200; read_body := EntityNewsList es |}) :
  Permutation es (map (fun v => (linked_news v, linked_author v)) vs).
Proof.
  destruct (news_for_rows _ _ _ _ H1 eq_refl) as (e1 & He1 & Hb1).
  destruct (news_entity_rows _ _ _ _ H2 eq_refl) as (e2 & He2 & Hb2).
  simpl in Hb1, Hb2. injection Hb1 as ->. injection Hb2 as ->.
  replace e2 with e1 by congruence. rewrite map_map. apply Permutation_refl.
Qed.


Lemma existsb_false_filter (A : Type) (p : A -> bool) (l : list A) :
  existsb p l = false -> filter p l = [].
Proof.
  induction l as [|a l IH]; simpl; [ reflexivity | ].
  destruct (p a); simpl; [ discriminate | exact IH ].
Qed.

(** The link columns of a row are null only for an item without link row. *)
Lemma news_joined_link_complete d v :
  In v (news_joined d) -> view_link v = None ->
  links_of (news_id (view_news v)) (news_entities d) = [].
Proof.
  unfold news_joined, news_with_author. intros Hin.
  apply in_map_iff in Hin. destruct Hin as ([[[[[n u] e] c] m] a] & <- & Hin).
  cbn [fst snd view_news view_link].
  apply in_left_join in Hin. destruct Hin as [Hin _].
  apply in_left_join in Hin. destruct Hin as [Hin _].
  apply in_left_join in Hin. destruct Hin as [Hin _].
  apply in_left_join in Hin. destruct Hin as [_ He].
  intros ->. cbn [fst] in He. rewrite <- links_of_sym. exact He.
Qed.

(** X16. A news item that was created is read back under its key: the read
    answers 200 with the stored record and the target of the request. *)
Theorem created_news_is_read_back (u : ReqUser) (b : NewsBody)
  (f : option UploadedFile) (id : string) (w : World)
  (Hw : world_consistent w) (Ha : news_create_accepted u b f w)
  (Hi : int4in id = Some (news_id_seq w)) :
  exists v,
    fst (news_get id (snd (handle (NewsCreate u b f) w)))
    = Val {| read_status := 200; read_body := NewsItem v |} /\
    view_news v = created_news (news_id_seq w) u b f /\
    view_link v
    = hd_error (created_links (news_id_seq w) (asked_target (NewsCreate u b f))).
Proof.
  destruct (news_create_run u b f w Hw Ha (proj2 (int4in_range _ _ Hi)))
    as (_ & _ & Hd & Hfl).
  cbv zeta in Hd, Hfl.
  destruct Hw as [Hw _]. apply fresh_news_key in Hw. destruct Hw as [Hk Hl].
  destruct Ha as (_ & Hu & _).
  set (w' := snd (handle (NewsCreate u b f) w)) in *.
  rewrite (news_get_run id (news_id_seq w) w' Hi) by (rewrite Hfl; reflexivity).
  rewrite Hd. unfold news_of. cbn [news users set_news set_news_entities].
  destruct (committed w) as [us cs ms asg ns ne ps pe]. cbn in *.
  rewrite filter_app, (existsb_false_filter _ _ _ Hk). cbn.
  rewrite Z.eqb_refl. cbn.
  apply existsb_filter_nonempty in Hu. destruct Hu as (ur & urs & Hu).
  rewrite (filter_ext _ (fun x => usr_id x =? user_id u))
    by (intros a; apply Z.eqb_sym).
  rewrite Hu. cbn. eexists. split; [ reflexivity | ].
  split; [ reflexivity | ].
  unfold view_of. cbn. unfold links_of. rewrite filter_app.
  fold (links_of (news_id_seq w) ne).
  unfold links_of. rewrite (existsb_false_filter _ _ _ Hl). cbn.
  unfold created_links. destruct (truthy (linkedType b) && truthy (linkedId b));
    [ | reflexivity ].
  destruct (int4in (text (linkedId b))); [ | reflexivity ].
  cbn. rewrite Z.eqb_refl. reflexivity.
Qed.

Lemma links_of_single_in (tbl : list LinkRow) o row l :
  links_of o tbl = [row] -> In l tbl -> link_owner l = o -> l = row.
Proof.
  intros H Hin Ho.
  assert (In l (links_of o tbl)) as Hl by (apply filter_In; split; [ exact Hin | lia ]).
  rewrite H in Hl. destruct Hl as [<- | []]. reflexivity.
Qed.

(** X17. The read by key shows the link a link request left, and no link
    and no target after an unlink request. *)
Theorem news_get_follows_link_and_unlink (u : ReqUser) (id : string) (i : Z)
  (w : World) (resp : Response) (Hi : int4in id = Some i) (Hs : status resp = 200) :
  (forall kind entity e,
      fst (handle (NewsLink u id kind entity) w) = Val resp ->
      int4in entity = Some e ->
      (List.length (links_of i (news_entities (committed w))) <= 1)%nat ->
      forall rr,
        fst (news_get id (snd (handle (NewsLink u id kind entity) w))) = Val rr ->
        read_status rr = 200 ->
        exists v, read_body rr = NewsItem v /\
                  view_link v = Some {| link_owner := i; entity_type := kind;
                                        entity_id := e |}) /\
  (fst (handle (NewsUnlink u id) w) = Val resp ->
   forall rr,
     fst (news_get id (snd (handle (NewsUnlink u id) w))) = Val rr ->
     read_status rr = 200 ->
     exists v, read_body rr = NewsItem v /\ view_link v = None /\
               view_class v = None /\ view_module v = None /\ view_assignment v = None).
Proof.
  split.
  - intros kind entity e Hr He Hkey rr Hg Hgs. simpl in *.
    destruct (news_link_answered_200 u id kind entity w resp Hr Hs)
      as (i' & e' & Hi' & He' & Ht).
    replace i' with i in Ht by congruence. replace e' with e in Ht by congruence.
    destruct (news_get_rows _ _ _ Hg Hgs) as (j & v & Hj & Hb & Hk & Hin).
    replace j with i in Hk by congruence.
    exists v. split; [ exact Hb | ].
    pose proof (links_of_upsert i kind e _ Hkey) as Hrow. rewrite <- Ht in Hrow.
    destruct (view_link v) as [l|] eqn:El.
    + destruct (news_joined_sound _ _ Hin) as (_ & _ & Hl & _).
      destruct (Hl l El) as [Hlin Hlo]. f_equal.
      apply (links_of_single_in _ i _ _ Hrow Hlin). congruence.
    + apply news_joined_link_complete in Hin; [ | exact El ].
      rewrite Hk, Hrow in Hin. discriminate.
  - intros Hr rr Hg Hgs. simpl in *.
    destruct (news_unlink_run u id i w Hi) as [H200 _]. cbv zeta in H200.
    specialize (H200 resp Hr Hs).
    destruct (news_get_rows _ _ _ Hg Hgs) as (j & v & Hj & Hb & Hk & Hin).
    replace j with i in Hk by congruence.
    exists v. split; [ exact Hb | ].
    destruct (news_joined_sound _ _ Hin) as (_ & _ & Hl & Hc & Hm & Ha).
    assert (view_link v = None) as El.
    { destruct (view_link v) as [l|] eqn:El; [ | reflexivity ].
      destruct (Hl l eq_refl) as [Hlin Hlo]. rewrite H200 in Hlin.
      destruct (committed w); cbn in Hlin. apply filter_In in Hlin.
      destruct Hlin as [_ Hne]. apply negb_true_iff in Hne. lia. }
    rewrite El in *. split; [ reflexivity | ].
    split; [ | split ].
    + destruct (view_class v) as [c|]; [ | reflexivity ].
      destruct (Hc c eq_refl) as [_ C]. discriminate C.
    + destruct (view_module v) as [c|]; [ | reflexivity ].
      destruct (Hm c eq_refl) as [_ C]. discriminate C.
    + destruct (view_assignment v) as [c|]; [ | reflexivity ].
      destruct (Ha c eq_refl) as [_ C]. discriminate C.
Qed.

(** X18. A news item that was deleted is not found: once the delete has
    answered 200, the read by key answers 404 whenever its query runs. *)
Theorem deleted_news_is_not_found (u : ReqUser) (id : string) (i : Z) (w : World)
  (resp : Response)
  (Hi : int4in id = Some i)
  (Hr : fst (handle (NewsDelete u id) w) = Val resp) (Hs : status resp = 200)
  (Hf : hd false (faults (snd (handle (NewsDelete u id) w))) = false) :
  fst (news_get id (snd (handle (NewsDelete u id) w)))
  = Val {| read_status := 404; read_body := ReadMessage "News not found" |}.
Proof.
  simpl in *. destruct (news_delete_cascades u id w i resp Hi Hr Hs) as [_ Hc].
  rewrite (news_get_run id i _ Hi Hf). unfold news_of.
  simpl in Hc.
  destruct (filter _ (news (committed (snd (news_delete u id w))))); [ reflexivity | ].
  discriminate Hc.
Qed.

(** X19. A key that is not an integer is answered with 500 by the read by key,
    and every GET of one segment goes to that handler, [/with-entity]
    too. *)
Theorem get_by_text_key_answers_500 (s : string) (w : World)
  (Hs : s <> "") (Hbad : int4in s = None) :
  exists ps,
    dispatch news_router GET [s] = Some (GetNewsById, ps) /\
    read_request GetNewsById ps = Some (GetById s) /\
    fst (read newest_first (GetById s) w)
    = Val {| read_status := 500; read_body := ReadMessage "Server error" |} /\
    committed (snd (read newest_first (GetById s) w)) = committed w.
Proof.
  exists [("id", s)]. apply String.eqb_neq in Hs.
  split; [ unfold news_router; simpl; rewrite Hs; reflexivity | ].
  split; [ reflexivity | ].
  unfold_reads; unfold_monad; unfold_sql; cbn. rewrite Hbad.
  destruct (hd false (faults w)); cbn; split; reflexivity.
Qed.

End ReadsProofs.

(** ** The route table *)

Lemma dispatch_first_match routes m path :
  option_map fst (dispatch routes m path)
  = option_map route_handler (hd_error (filter (route_matches m path) routes)).
Proof.
  induction routes as [|r routes IH]; simpl; [ reflexivity | ].
  unfold route_matches at 1.
  destruct (method_eqb (route_method r) m); simpl; [ | exact IH ].
  destruct (match_path (route_path r) path); simpl; [ reflexivity | exact IH ].
Qed.

(** X20. A request is handled by the first route that matches it, and the
    routes of the news router do not overlap, but for the GET of the one
    segment [with-entity], which two routes match. *)
Theorem only_with_entity_is_shadowed (m : Method) (path : list string) :
  option_map fst (dispatch news_router m path)
  = option_map route_handler (hd_error (filter (route_matches m path) news_router)) /\
  ((List.length (filter (route_matches m path) news_router) <= 1)%nat \/
   (method_eqb GET m = true /\ exists s, path = [s] /\ lower s = "with-entity")).
Proof.
  split; [ apply dispatch_first_match | ].
  destruct path as [|a [|b [|c [|d [|e path]]]]];
    destruct m; unfold news_router, route_matches; cbn;
    repeat (break_match; cbn in *; try discriminate); try (left; lia).
  all: try (right; split; [ reflexivity | ]; eexists; split; [ reflexivity | ];
            match goal with
            | H : String.eqb (lower ?s) _ = true |- _ => apply String.eqb_eq in H; exact H
            end).
  all: repeat match goal with
         | H : String.eqb _ _ = true |- _ => apply String.eqb_eq in H
         end; congruence.
Qed.

Section Frame.
Context {pg : PgInput}.

(** X3. No sequence of mutation requests changes the users or the classes,
    modules and assignments a link may name, and the requests of one router
    leave the tables of the other as they were. *)
Theorem routers_keep_to_their_tables (rs : list Request) (w : World) :
  let d := committed w in
  let d' := committed (serve rs w) in
  (users d' = users d /\ classes d' = classes d /\ modules d' = modules d
   /\ assignments d' = assignments d) /\
  (Forall (fun r => router_of r = NewsOwner) rs ->
   posts d' = posts d /\ posts_entities d' = posts_entities d) /\
  (Forall (fun r => router_of r = PostOwner) rs ->
   news d' = news d /\ news_entities d' = news_entities d).
Proof.
  cbv zeta. revert w. induction rs as [|r rs IH]; intros w; simpl.
  - repeat split; reflexivity.
  - destruct (IH (snd (handle r w))) as ((Hu & Hc & Hm & Ha) & Hn & Hp).
    destruct (handle_frame r w) as ((Hu' & Hc' & Hm' & Ha') & Hr).
    cbv zeta in *.
    split; [ repeat split; congruence | ].
    split; intros Hall; inversion Hall as [|? ? Hhd Htl]; subst.
    + rewrite Hhd in Hr. destruct (Hn Htl) as [H1 H2]. destruct Hr as [H3 H4].
      split; congruence.
    + rewrite Hhd in Hr. destruct (Hp Htl) as [H1 H2]. destruct Hr as [H3 H4].
      split; congruence.
Qed.

End Frame.

Ltac unfold_class :=
  unfold class_handle, class_get, class_create, class_update, class_delete,
    class_enroll, class_enrolled_me, c_message, c_uploadFile, c_query, c_query_serial,
    nextval_classes, nextval_enrollments, c_try_catch, c_bind, c_ret, c_await, c_run,
    select_class_with_creator, select_class, insert_class, update_class, delete_class,
    select_enrollment, insert_enrollment, select_enrolled, int4.

Ltac run_class :=
  unfold_class; cbn; repeat (break_match; cbn in *; try discriminate).

Section ClassProofs.
Context {pg : PgInput}.
Variable latest_enrollment_first :
  list (ClassRow * UserRow * Enrollment) -> list (ClassRow * UserRow * Enrollment).
Hypothesis latest_enrollment_first_permutes :
  forall l, Permutation (latest_enrollment_first l) l.

(** X21. Every handler of the classes router answers, and one that answers
    anything but 200 or 201 has written nothing: each makes its one write
    as its last statement. *)
Theorem class_refusals_write_nothing (r : ClassRequest) (w : CampusWorld) :
  exists resp,
    fst (class_handle latest_enrollment_first r w) = Val resp /\
    In (class_status resp) [200; 201; 400; 403; 404; 500] /\
    (class_status resp <> 200 -> class_status resp <> 201 ->
     campus (snd (class_handle latest_enrollment_first r w)) = campus w).
Proof.
  destruct (class_handle latest_enrollment_first r w) as [o w'] eqn:E. simpl. revert E.
  destruct r; run_class.
  all: intros E; injection E as <- <-; eexists; split; [ reflexivity | ].
  all: cbn; split; [ tauto | ]; intros H1 H2; try reflexivity; try congruence.
Qed.

(** X22. An update or a delete of a class whose body passes validation and
    whose class is found answers 403 exactly when the actor is neither the
    creator of the class nor of role aslab. *)
Theorem class_policy_is_creator_or_aslab (r : ClassRequest) (id : string) (u : ReqUser)
  (i c : Z) (w : CampusWorld)
  (Ht : class_target r = Some (id, u))
  (Hb : class_body_valid r = true)
  (Hi : int4in id = Some i)
  (Hf : hd false (campus_faults w) = false)
  (Hc : option_map class_created_by (hd_error (classes_of i (campus w))) = Some c) :
  exists resp,
    fst (class_handle latest_enrollment_first r w) = Val resp /\
    (class_status resp = 403 <-> canMutate (user_id u) (user_role u) c = false).
Proof.
  unfold canMutate, classes_of in *.
  destruct (class_handle latest_enrollment_first r w) as [o w'] eqn:E. simpl. revert E.
  destruct w as [cm sc se fl]. simpl in Hf, Hc.
  destruct (filter _ (campus_classes cm)) as [|row rest] eqn:Hrow;
    simpl in Hc; [ discriminate | ]; injection Hc as <-.
  destruct r; simpl in Ht; try discriminate; injection Ht as -> ->; simpl in Hb;
    unfold_class; cbn; rewrite ?Hb, ?Hi; cbn;
    (destruct fl as [|[|] fl]; simpl in Hf; try discriminate); cbn; rewrite ?Hrow; cbn;
    destruct (class_created_by row =? user_id u);
    destruct (String.eqb (user_role u) "aslab"); cbn;
    repeat (break_match; cbn in *; try discriminate).
  all: intros E; injection E as <- <-; eexists; split; [ reflexivity | ].
  all: cbn; split; intros H; try reflexivity; discriminate.
Qed.


(** *** The references of the classes router *)

Lemma NoDup_map_filter_any (A K : Type) (key : A -> K) (p : A -> bool) (l : list A) :
  NoDup (map key l) -> NoDup (map key (filter p l)).
Proof.
  induction l as [|x l IH]; simpl; intros H; [ constructor | ].
  inversion H as [|? ? Hnin Hnd]; subst.
  destruct (p x); simpl; [ constructor | ]; auto.
  intros Hin. apply Hnin. apply in_map_iff in Hin. destruct Hin as [y [Hy Hin]].
  apply in_map_iff. exists y. split; [ exact Hy | ]. apply filter_In in Hin. apply Hin.
Qed.

Lemma NoDup_snoc_any (K : Type) (i : K) (l : list K) :
  NoDup l -> ~ In i l -> NoDup (l ++ [i]).
Proof.
  intros Hl Hi. apply NoDup_app; [ exact Hl | repeat constructor; intros [] | ].
  intros x Hx [<- | []]. exact (Hi Hx).
Qed.

Lemma refers_false p keys k : refers p keys = false -> p = Some k -> ~ In k keys.
Proof.
  intros H -> Hin. simpl in H.
  assert (existsb (fun x => x =? k) keys = true) as C
      by (apply existsb_exists; exists k; split; [ exact Hin | apply Z.eqb_refl ]).
  congruence.
Qed.

Lemma existsb_eqb_false k keys :
  existsb (fun x => x =? k) keys = false -> ~ In k keys.
Proof. intros H. exact (refers_false (Some k) keys k H eq_refl). Qed.

(** A key of a table is the key of a row that is kept or of a row that is
    removed. *)
Lemma kept_or_gone (A : Type) (key : A -> Z) (p : A -> bool) (l : list A) (y : Z) :
  In y (map key l) ->
  In y (map key (filter (fun x => negb (p x)) l)) \/ In y (map key (filter p l)).
Proof.
  intros H. apply in_map_iff in H. destruct H as (x & <- & Hin).
  destruct (p x) eqn:E.
  - right. apply in_map, filter_In. split; assumption.
  - left. apply in_map, filter_In. split; [ exact Hin | rewrite E; reflexivity ].
Qed.

Lemma kept_class_key i (l : list ClassRow) k :
  In k (map class_id l) ->
  ~ In k (map class_id (filter (fun x => class_id x =? i) l)) ->
  In k (map class_id (filter (fun x => negb (class_id x =? i)) l)).
Proof.
  intros H Hn. destruct (kept_or_gone _ class_id (fun x => class_id x =? i) l k H);
    [ assumption | contradiction ].
Qed.

Lemma select_class_keeps id : campus_sql_keeps (select_class id).
Proof.
  intros sc se c r c' H. unfold select_class. destruct (int4 id); [ | discriminate ].
  intros [= _ <-]. exact H.
Qed.

Lemma select_class_with_creator_keeps id : campus_sql_keeps (select_class_with_creator id).
Proof.
  intros sc se c r c' H. unfold select_class_with_creator.
  destruct (int4 id); [ | discriminate ]. intros [= _ <-]. exact H.
Qed.

Lemma select_enrollment_keeps a b : campus_sql_keeps (select_enrollment a b).
Proof.
  intros sc se c r c' H. unfold select_enrollment.
  destruct (int4 a); [ | discriminate ]. destruct (int4 b); [ | discriminate ].
  intros [= _ <-]. exact H.
Qed.

Lemma select_enrolled_keeps u : campus_sql_keeps (select_enrolled latest_enrollment_first u).
Proof.
  intros sc se c r c' H. unfold select_enrolled.
  destruct (int4 u); [ | discriminate ]. intros [= _ <-]. exact H.
Qed.

Lemma update_class_keeps t d img id : campus_sql_keeps (update_class t d img id).
Proof.
  intros sc se c r c' (H1 & H2 & H3 & H4 & H5 & H6 & H7 & H8 & H9 & H10 & H11).
  unfold update_class.
  destruct (varchar 100 t) as [t'|]; [ | discriminate ].
  destruct (text_opt d) as [d'|]; [ | discriminate ].
  destruct (varchar_opt 255 img) as [img'|]; [ | discriminate ].
  destruct (int4 id) as [i|]; [ | discriminate ]. cbv zeta. intros [= _ <-].
  assert (map class_id
            (map (fun k => if class_id k =? i
                           then {| class_id := class_id k; class_title := t';
                                   class_description := d'; class_image_url := img';
                                   class_created_by := class_created_by k |}
                           else k) (campus_classes c))
          = map class_id (campus_classes c)) as Hkeys
      by (apply (map_key_rewrite _ class_id
                   (fun k => {| class_id := class_id k; class_title := t';
                                class_description := d'; class_image_url := img';
                                class_created_by := class_created_by k |}));
          reflexivity).
  unfold campus_ok. cbn [campus_classes campus_users enrollments folders campus_modules
                           module_files campus_assignments submissions set_campus_classes].
  rewrite Hkeys.
  split; [ exact H1 | ]. split; [ | tauto ].
  intros k Hk. apply in_map_iff in Hk. destruct Hk as (x & <- & Hx).
  destruct (class_id x =? i); simpl; apply (H2 x Hx).
Qed.

Lemma insert_class_keeps run cid t d img u sc se c r c' :
  insert_class t d img u = Some run ->
  campus_ok sc se c -> cid < sc -> run cid c = Some (r, c') ->
  campus_ok sc se c'.
Proof.
  unfold insert_class.
  intros Hrun (H1 & H2 & H3 & H4 & H5 & H6 & H7 & H8 & H9 & H10 & H11) Hlt.
  destruct (varchar 100 t) as [t'|]; [ | discriminate ].
  destruct (text_opt d) as [d'|]; [ | discriminate ].
  destruct (varchar_opt 255 img) as [img'|]; [ | discriminate ].
  injection Hrun as <-. cbv beta zeta.
  destruct (existsb _ (campus_users c)) eqn:Eu; simpl; [ | discriminate ].
  destruct (existsb _ (campus_classes c)) eqn:Ek; simpl; [ discriminate | ].
  intros [= _ <-].
  unfold campus_ok. cbn [campus_classes campus_users enrollments folders campus_modules
                           module_files campus_assignments submissions set_campus_classes].
  rewrite map_app. simpl.
  assert (forall k, In k (map class_id (campus_classes c)) ->
                    In k (map class_id (campus_classes c) ++ [cid])%list) as Hin
      by (intros k Hk; apply in_or_app; left; exact Hk).
  split; [ apply NoDup_snoc; [ exact H1 | apply existsb_key_false, Ek ] | ].
  split.
  { intros k Hk. apply in_app_iff in Hk. destruct Hk as [Hk | [<- | []]].
    - apply (H2 k Hk).
    - simpl. split; [ exact Hlt | apply existsb_key_true, Eu ]. }
  split; [ exact H3 | ]. split; [ exact H4 | ].
  split; [ intros e He; destruct (H5 e He) as (A & B & C); auto | ].
  split; [ intros f k Hf Hk; apply Hin, (H6 f k Hf Hk) | ].
  split; [ intros m k Hm Hk; apply Hin, (H7 m k Hm Hk) | ].
  split; [ exact H8 | ]. split; [ exact H9 | ].
  split; [ intros a k Ha Hk; apply Hin, (H10 a k Ha Hk) | exact H11 ].
Qed.

Lemma insert_enrollment_keeps run eid a b sc se c r c' :
  insert_enrollment a b = Some run ->
  campus_ok sc se c -> eid < se -> run eid c = Some (r, c') ->
  campus_ok sc se c'.
Proof.
  unfold insert_enrollment.
  intros Hrun (H1 & H2 & H3 & H4 & H5 & H6 & H7 & H8 & H9 & H10 & H11) Hlt.
  destruct (int4 a) as [i|]; [ | discriminate ].
  destruct (int4 b) as [u|]; [ | discriminate ].
  injection Hrun as <-. cbv beta.
  destruct (existsb _ (campus_classes c)) eqn:Ek; simpl; [ | discriminate ].
  destruct (existsb _ (campus_users c)) eqn:Eu; simpl; [ | discriminate ].
  destruct (existsb _ (enrollments c)) eqn:Ep; simpl; [ discriminate | ].
  destruct (existsb (fun e => enr_id e =? eid) (enrollments c)) eqn:Ee; simpl;
    [ discriminate | ].
  intros Heq.
  match type of Heq with
  | Some (_, ?x) = _ => assert (c' = x) as Hc' by congruence
  end.
  rewrite Hc'. clear Heq Hc'.
  unfold campus_ok. cbn [campus_classes campus_users enrollments folders campus_modules
                           module_files campus_assignments submissions set_enrollments].
  rewrite !map_app. simpl.
  split; [ exact H1 | ]. split; [ exact H2 | ].
  split; [ apply NoDup_snoc; [ exact H3 | apply existsb_key_false, Ee ] | ].
  split.
  { apply NoDup_snoc_any; [ exact H4 | ].
    intros Hin. apply in_map_iff in Hin. destruct Hin as (e & He & Hin).
    injection He as Hc Hu.
    assert (existsb (fun e => (enr_class e =? i) && (enr_user e =? u)) (enrollments c)
            = true) as C.
    { apply existsb_exists. exists e. split; [ exact Hin | ].
      apply andb_true_iff. split; lia. }
    congruence. }
  split; [ | tauto ].
  intros e He. apply in_app_iff in He. destruct He as [He | [<- | []]].
  - apply (H5 e He).
  - simpl. split; [ exact Hlt | ].
    split; [ apply existsb_key_true, Ek | apply existsb_key_true, Eu ].
Qed.

Lemma delete_class_keeps id : campus_sql_keeps (delete_class id).
Proof.
  intros sc se c r c' (H1 & H2 & H3 & H4 & H5 & H6 & H7 & H8 & H9 & H10 & H11).
  unfold delete_class. destruct (int4 id) as [i|]; [ | discriminate ].
  cbv zeta. intros Heq.
  match type of Heq with
  | Some (_, ?x) = _ => assert (c' = x) as Hc' by congruence
  end.
  rewrite Hc'. clear Heq Hc'.
  unfold campus_ok. cbn [campus_classes campus_users enrollments folders campus_modules
                           module_files campus_assignments submissions].
  set (gone := map class_id (filter (fun k => class_id k =? i) (campus_classes c))) in *.
  set (gone_folders :=
         map folder_id (filter (fun f => refers (folder_class f) gone) (folders c))) in *.
  set (gone_modules :=
         map module_id
             (filter (fun m => refers (module_class m) gone
                               || refers (module_folder m) gone_folders)
                     (campus_modules c))) in *.
  set (gone_assignments :=
         map assignment_id
             (filter (fun a => refers (assignment_class a) gone) (campus_assignments c)))
    in *.
  assert (forall k, In k (map class_id (campus_classes c)) -> ~ In k gone ->
                    In k (map class_id
                            (filter (fun x => negb (class_id x =? i)) (campus_classes c))))
    as Hclass by (intros k; apply kept_class_key).
  split; [ apply NoDup_map_filter, H1 | ].
  split; [ intros k Hk; apply filter_In in Hk; apply (H2 k), Hk | ].
  split; [ apply NoDup_map_filter, H3 | ].
  split; [ apply NoDup_map_filter_any, H4 | ].
  split.
  { intros e He. apply filter_In in He. destruct He as [He Hk].
    destruct (H5 e He) as (A & B & C). apply negb_true_iff in Hk.
    split; [ exact A | ]. split; [ | exact C ].
    apply Hclass; [ exact B | apply existsb_eqb_false, Hk ]. }
  split.
  { intros f k Hf Hk. apply filter_In in Hf. destruct Hf as [Hf Hg].
    apply negb_true_iff in Hg.
    apply Hclass; [ exact (H6 f k Hf Hk) | exact (refers_false _ _ _ Hg Hk) ]. }
  split.
  { intros m k Hm Hk. apply filter_In in Hm. destruct Hm as [Hm Hg].
    apply negb_true_iff, orb_false_iff in Hg. destruct Hg as [Hg _].
    apply Hclass; [ exact (H7 m k Hm Hk) | exact (refers_false _ _ _ Hg Hk) ]. }
  split.
  { intros m f Hm Hf. apply filter_In in Hm. destruct Hm as [Hm Hg].
    apply negb_true_iff, orb_false_iff in Hg. destruct Hg as [_ Hg].
    destruct (kept_or_gone _ folder_id (fun x => refers (folder_class x) gone)
                (folders c) f (H8 m f Hm Hf)) as [Hk | Hk]; [ exact Hk | ].
    exfalso. exact (refers_false _ _ _ Hg Hf Hk). }
  split.
  { intros f m Hf Hm. apply filter_In in Hf. destruct Hf as [Hf Hg].
    apply negb_true_iff in Hg.
    destruct (kept_or_gone _ module_id
                (fun x => refers (module_class x) gone
                          || refers (module_folder x) gone_folders)
                (campus_modules c) m (H9 f m Hf Hm)) as [Hk | Hk]; [ exact Hk | ].
    exfalso. exact (refers_false _ _ _ Hg Hm Hk). }
  split.
  { intros a k Ha Hk. apply filter_In in Ha. destruct Ha as [Ha Hg].
    apply negb_true_iff in Hg.
    apply Hclass; [ exact (H10 a k Ha Hk) | exact (refers_false _ _ _ Hg Hk) ]. }
  intros x a Hx Ha. apply filter_In in Hx. destruct Hx as [Hx Hg].
  apply negb_true_iff in Hg.
  destruct (kept_or_gone _ assignment_id (fun y => refers (assignment_class y) gone)
              (campus_assignments c) a (H11 x a Hx Ha)) as [Hk | Hk]; [ exact Hk | ].
  exfalso. exact (refers_false _ _ _ Hg Ha Hk).
Qed.

Lemma campus_ok_mono sc se sc' se' c :
  campus_ok sc se c -> sc <= sc' -> se <= se' -> campus_ok sc' se' c.
Proof.
  intros (H1 & H2 & H3 & H4 & H5 & H6) Hc He.
  split; [ exact H1 | ].
  split; [ intros k Hk; destruct (H2 k Hk); split; [ lia | assumption ] | ].
  split; [ exact H3 | ]. split; [ exact H4 | ].
  split; [ | exact H6 ].
  intros e Hin. destruct (H5 e Hin) as (A & B & C). split; [ lia | tauto ].
Qed.

Lemma campus_keeps_ret A (a : A) : campus_keeps (c_ret a).
Proof. intros w H. exact H. Qed.

Lemma campus_keeps_bind A B (m : MC A) (f : A -> MC B) :
  campus_keeps m -> (forall a, campus_keeps (f a)) -> campus_keeps (c_bind m f).
Proof.
  intros Hm Hf w H. unfold c_bind. specialize (Hm w H).
  destruct (m w) as [[a|] w']; simpl in *; [ apply Hf; exact Hm | exact Hm ].
Qed.

Lemma campus_keeps_try_catch A (m h : MC A) :
  campus_keeps m -> campus_keeps h -> campus_keeps (c_try_catch m h).
Proof.
  intros Hm Hh w H. unfold c_try_catch. specialize (Hm w H).
  destruct (m w) as [[a|] w']; simpl in *; [ exact Hm | apply Hh; exact Hm ].
Qed.

Lemma campus_keeps_await : campus_keeps c_await.
Proof. intros w H. unfold c_await. destruct (hd false (campus_faults w)); exact H. Qed.

Lemma campus_keeps_run R (q : CampusSql R) : campus_sql_keeps q -> campus_keeps (c_run q).
Proof.
  intros Hq w H. unfold c_run.
  destruct (q (campus w)) as [[r c]|] eqn:E; simpl; [ | exact H ].
  exact (Hq _ _ _ _ _ H E).
Qed.

Lemma campus_keeps_query R (q : CampusSql R) : campus_sql_keeps q -> campus_keeps (c_query q).
Proof.
  intros Hq. apply campus_keeps_bind;
    [ apply campus_keeps_await | intros _; apply campus_keeps_run, Hq ].
Qed.

Lemma campus_keeps_message code m : campus_keeps (c_message code m).
Proof. apply campus_keeps_ret. Qed.

Lemma campus_keeps_uploadFile f : campus_keeps (c_uploadFile f).
Proof.
  apply campus_keeps_bind; [ apply campus_keeps_await | intros _; apply campus_keeps_ret ].
Qed.

Lemma campus_keeps_insert_class t d img u :
  campus_keeps (c_query_serial nextval_classes (insert_class t d img u)).
Proof.
  apply campus_keeps_bind; [ apply campus_keeps_await | intros _ ].
  destruct (insert_class t d img u) as [run|] eqn:Hrun; [ | intros w H; exact H ].
  intros w H. unfold c_bind, nextval_classes, c_run.
  destruct (classes_id_seq w <=? 2147483647); [ | exact H ]. simpl.
  assert (campus_ok (classes_id_seq w + 1) (enrollments_id_seq w) (campus w)) as Hup
      by (apply (campus_ok_mono _ _ _ _ _ H); lia).
  destruct (run (classes_id_seq w) (campus w)) as [[r c]|] eqn:E;
    simpl; [ | exact Hup ].
  apply (insert_class_keeps _ _ _ _ _ _ _ _ _ _ _ Hrun Hup) in E; [ exact E | lia ].
Qed.

Lemma campus_keeps_insert_enrollment a b :
  campus_keeps (c_query_serial nextval_enrollments (insert_enrollment a b)).
Proof.
  apply campus_keeps_bind; [ apply campus_keeps_await | intros _ ].
  destruct (insert_enrollment a b) as [run|] eqn:Hrun; [ | intros w H; exact H ].
  intros w H. unfold c_bind, nextval_enrollments, c_run.
  destruct (enrollments_id_seq w <=? 2147483647); [ | exact H ]. simpl.
  assert (campus_ok (classes_id_seq w) (enrollments_id_seq w + 1) (campus w)) as Hup
      by (apply (campus_ok_mono _ _ _ _ _ H); lia).
  destruct (run (enrollments_id_seq w) (campus w)) as [[r c]|] eqn:E;
    simpl; [ | exact Hup ].
  apply (insert_enrollment_keeps _ _ _ _ _ _ _ _ _ Hrun Hup) in E; [ exact E | lia ].
Qed.

Lemma campus_keeps_handle r : campus_keeps (class_handle latest_enrollment_first r).
Proof.
  destruct r; simpl;
    unfold class_get, class_create, class_update, class_delete, class_enroll,
      class_enrolled_me;
    repeat first
      [ apply campus_keeps_message
      | apply campus_keeps_ret
      | apply campus_keeps_uploadFile
      | apply campus_keeps_insert_class
      | apply campus_keeps_insert_enrollment
      | apply campus_keeps_query;
        first [ apply select_class_keeps | apply select_class_with_creator_keeps
              | apply select_enrollment_keeps | apply select_enrolled_keeps
              | apply update_class_keeps | apply delete_class_keeps ]
      | apply campus_keeps_try_catch
      | match goal with
        | |- campus_keeps (if ?b then _ else _) => destruct b
        | |- campus_keeps (match ?x with _ => _ end) => destruct x
        end
      | apply campus_keeps_bind; [ | intros ? ] ].
Qed.

(** X23. Whatever requests the classes router serves, the keys of classes
    and enrollments stay unique and below their sequences, no user is
    enrolled twice in a class, and every reference of an enrollment,
    folder, module, module file, assignment or submission that is not null
    names a stored row: the cascade of a class delete leaves no orphan. *)
Theorem campus_references_are_kept (rs : list ClassRequest) (w : CampusWorld)
  (H : campus_world_ok w) :
  campus_world_ok (class_serve latest_enrollment_first rs w).
Proof.
  revert w H. induction rs as [|r rs IH]; intros w H; simpl; [ exact H | ].
  apply IH, campus_keeps_handle, H.
Qed.


(** *** Delete, enrollment and reads *)

(** The store a class delete that answered 200 leaves. *)
Lemma class_delete_run u id i w resp :
  int4in id = Some i ->
  fst (class_delete u id w) = Val resp -> class_status resp = 200 ->
  classes_of i (campus w) <> [] /\
  delete_class (PNum i) (campus w) = Some (tt, campus (snd (class_delete u id w))).
Proof.
  intros Hi. unfold classes_of.
  destruct (class_delete u id w) as [o w'] eqn:E. simpl. revert E.
  unfold_class; cbn; rewrite ?Hi; cbn.
  repeat (break_match; cbn in *; try discriminate).
  all: intros E; injection E as <- <-; intros Hr; injection Hr as <-; cbn;
    try discriminate.
  all: intros _; split; [ discriminate | ].
  all: match goal with
       | H : filter _ _ = _ :: _ |- _ => rewrite H
       end; reflexivity.
Qed.

Lemma gone_class_keys i (l : list ClassRow) k :
  filter (fun x => class_id x =? i) l <> [] ->
  existsb (fun x => x =? k) (map class_id (filter (fun x => class_id x =? i) l))
  = (k =? i).
Proof.
  intros Hne. destruct (k =? i) eqn:E.
  - destruct (filter (fun x => class_id x =? i) l) as [|x r] eqn:F; [ contradiction | ].
    assert (In x (filter (fun x => class_id x =? i) l)) as Hx by (rewrite F; left; reflexivity).
    apply filter_In in Hx. simpl. apply orb_true_iff. left. lia.
  - destruct (existsb _ _) eqn:X; [ | reflexivity ].
    apply existsb_exists in X. destruct X as (y & Hy & Hk).
    apply in_map_iff in Hy. destruct Hy as (x & <- & Hx). apply filter_In in Hx. lia.
Qed.

(** X24. A class delete that answered 200 has removed the class and, by the
    cascade, every enrollment, folder, module and assignment of the class;
    it leaves the users, and the rows of every other class, as they
    were. *)
Theorem class_delete_cascades (u : ReqUser) (id : string) (i : Z) (w : CampusWorld)
  (resp : ClassResponse)
  (Hi : int4in id = Some i)
  (Hr : fst (class_handle latest_enrollment_first (ClassDelete u id) w) = Val resp)
  (Hs : class_status resp = 200) :
  let c := campus w in
  let c' := campus (snd (class_handle latest_enrollment_first (ClassDelete u id) w)) in
  classes_of i c' = [] /\
  Forall (fun e => enr_class e <> i) (enrollments c') /\
  Forall (fun f => folder_class f <> Some i) (folders c') /\
  Forall (fun m => module_class m <> Some i) (campus_modules c') /\
  Forall (fun a => assignment_class a <> Some i) (campus_assignments c') /\
  campus_users c' = campus_users c /\
  forall j, j <> i ->
            classes_of j c' = classes_of j c /\
            filter (fun e => enr_class e =? j) (enrollments c')
            = filter (fun e => enr_class e =? j) (enrollments c).
Proof.
  simpl in Hr. cbv zeta. simpl class_handle.
  destruct (class_delete_run u id i w resp Hi Hr Hs) as [Hne Hd].
  unfold classes_of in *.
  set (c' := campus (snd (class_delete u id w))) in *.
  unfold delete_class in Hd. simpl in Hd. injection Hd as Hd.
  pose proof (fun k => gone_class_keys i (campus_classes (campus w)) k Hne) as Hgone.
  rewrite <- Hd. cbn [campus_classes campus_users enrollments folders campus_modules
                         campus_assignments].
  split; [ apply filter_filter_negb | ].
  split.
  { apply Forall_forall. intros e He. apply filter_In in He. destruct He as [_ He].
    rewrite Hgone in He. apply negb_true_iff in He. lia. }
  split.
  { apply Forall_forall. intros f Hf. apply filter_In in Hf. destruct Hf as [_ Hf].
    intros Hk. rewrite Hk in Hf. simpl in Hf. rewrite Hgone, Z.eqb_refl in Hf.
    discriminate. }
  split.
  { apply Forall_forall. intros m Hm. apply filter_In in Hm. destruct Hm as [_ Hm].
    intros Hk. rewrite Hk in Hm. simpl in Hm. rewrite Hgone, Z.eqb_refl in Hm.
    discriminate. }
  split.
  { apply Forall_forall. intros a Ha. apply filter_In in Ha. destruct Ha as [_ Ha].
    intros Hk. rewrite Hk in Ha. simpl in Ha. rewrite Hgone, Z.eqb_refl in Ha.
    discriminate. }
  split; [ reflexivity | ].
  intros j Hj. split.
  - apply (filter_key_delete_other _ class_id i j _ Hj).
  - replace (filter (fun e => negb (existsb (fun x => x =? enr_class e)
                                      (map class_id
                                           (filter (fun k => class_id k =? i)
                                                   (campus_classes (campus w))))))
                    (enrollments (campus w)))
      with (filter (fun e => negb (enr_class e =? i)) (enrollments (campus w)))
      by (apply filter_ext; intros e; rewrite Hgone; reflexivity).
    apply (filter_key_delete_other _ enr_class i j _ Hj).
Qed.


(** The store an enrollment that answered 201 leaves. *)
Lemma class_enroll_run u id i w resp :
  int4in id = Some i ->
  fst (class_enroll u id w) = Val resp -> class_status resp = 201 ->
  classes_of i (campus w) <> [] /\
  enrollments_of i (user_id u) (campus w) = [] /\
  campus (snd (class_enroll u id w))
  = set_enrollments
      (enrollments (campus w)
       ++ [{| enr_id := enrollments_id_seq w; enr_class := i; enr_user := user_id u |}])%list
      (campus w).
Proof.
  intros Hi. unfold classes_of, enrollments_of.
  destruct (class_enroll u id w) as [o w'] eqn:E. simpl. revert E.
  unfold_class; cbn; rewrite ?Hi; cbn.
  repeat (break_match; cbn in *; try discriminate).
  all: intros E; injection E as <- <-; intros Hr; injection Hr as <-; cbn;
    try discriminate.
  all: intros _; split; [ discriminate | ]; split; [ | reflexivity ].
  all: match goal with
       | H : nonempty ?l = false |- ?l = [] =>
           destruct l; [ reflexivity | discriminate H ]
       end.
Qed.

(** The answer to a user who is enrolled already. *)
Lemma class_enroll_again u id i w :
  int4in id = Some i ->
  hd false (campus_faults w) = false -> hd false (tl (campus_faults w)) = false ->
  classes_of i (campus w) <> [] ->
  enrollments_of i (user_id u) (campus w) <> [] ->
  fst (class_enroll u id w)
  = Val {| class_status := 400;
           class_answer := ClassMessage "Already enrolled in this class" |} /\
  campus (snd (class_enroll u id w)) = campus w.
Proof.
  intros Hi Hf1 Hf2. unfold classes_of, enrollments_of. intros Hc He.
  unfold_class; cbn. rewrite Hf1, Hi. cbn.
  destruct (filter _ (campus_classes (campus w))); [ contradiction | ].
  cbn. rewrite Hf2. cbn.
  destruct (filter _ (enrollments (campus w))); [ contradiction | ].
  cbn. split; reflexivity.
Qed.

(** X25. An enrollment that answers 201 found the class, found no
    enrollment of the user in it, and added exactly one, under the next
    value of the sequence; the same request made again is answered 400 and
    adds nothing. *)
Theorem enrolling_twice_is_refused (u : ReqUser) (id : string) (i : Z) (w : CampusWorld)
  (resp : ClassResponse)
  (Hi : int4in id = Some i)
  (Hr : fst (class_handle latest_enrollment_first (ClassEnroll u id) w) = Val resp)
  (Hs : class_status resp = 201) :
  let w' := snd (class_handle latest_enrollment_first (ClassEnroll u id) w) in
  classes_of i (campus w) <> [] /\
  enrollments_of i (user_id u) (campus w) = [] /\
  enrollments (campus w')
  = (enrollments (campus w)
     ++ [{| enr_id := enrollments_id_seq w; enr_class := i; enr_user := user_id u |}])%list /\
  (hd false (campus_faults w') = false -> hd false (tl (campus_faults w')) = false ->
   fst (class_handle latest_enrollment_first (ClassEnroll u id) w')
   = Val {| class_status := 400;
            class_answer := ClassMessage "Already enrolled in this class" |} /\
   campus (snd (class_handle latest_enrollment_first (ClassEnroll u id) w')) = campus w').
Proof.
  simpl in *. destruct (class_enroll_run u id i w resp Hi Hr Hs) as (Hc & He & Hd).
  split; [ exact Hc | ]. split; [ exact He | ].
  split; [ rewrite Hd; reflexivity | ].
  intros Hf1 Hf2. apply (class_enroll_again u id i _ Hi Hf1 Hf2).
  - rewrite Hd. exact Hc.
  - rewrite Hd. unfold enrollments_of. cbn [enrollments set_enrollments].
    rewrite filter_app. cbn. rewrite !Z.eqb_refl. cbn.
    intros C. apply app_eq_nil in C. destruct C as [_ C]. discriminate C.
Qed.

(** X26. The listing of the classes a user is enrolled in shows exactly the
    stored classes that have an enrollment of the user, each under the
    name of its creator. *)
Theorem enrolled_classes_are_listed (u : ReqUser) (w : CampusWorld)
  (rows : list (ClassRow * string))
  (Hr : fst (class_handle latest_enrollment_first (ClassEnrolledMe u) w)
        = Val {| class_status := 200; class_answer := ClassList rows |}) :
  forall k name,
    In (k, name) rows <->
    In k (campus_classes (campus w)) /\
    (exists x, In x (campus_users (campus w)) /\ class_created_by k = usr_id x
               /\ usr_username x = name) /\
    (exists e, In e (enrollments (campus w)) /\ enr_class e = class_id k
               /\ enr_user e = user_id u).
Proof.
  simpl in Hr. revert Hr. unfold_class; cbn.
  destruct (hd false (campus_faults w)); cbn; [ discriminate | ].
  intros Hr. injection Hr as <-. intros k name. rewrite in_map_iff. split.
  - intros ([[k' x] e] & Heq & Hin). cbn [fst snd] in Heq. injection Heq as -> <-.
    apply (Permutation_in _ (latest_enrollment_first_permutes _)) in Hin.
    apply filter_In in Hin. destruct Hin as [Hin Hu]. cbn [fst snd] in Hu.
    apply in_inner_join in Hin. destruct Hin as (Hkx & He & Hon).
    apply in_inner_join in Hkx. destruct Hkx as (Hk & Hx & Hc).
    cbn [fst snd] in *.
    split; [ exact Hk | ]. split.
    + exists x. repeat split; [ exact Hx | lia ].
    + exists e. repeat split; [ exact He | lia | lia ].
  - intros (Hk & (x & Hx & Hc & Hn) & (e & He & Hec & Heu)).
    exists (k, x, e). split; [ cbn; rewrite Hn; reflexivity | ].
    apply (Permutation_in _ (Permutation_sym (latest_enrollment_first_permutes _))).
    apply filter_In. split; [ | cbn; lia ].
    apply in_inner_join. split; [ | split; [ exact He | cbn; lia ] ].
    apply in_inner_join. split; [ exact Hk | split; [ exact Hx | lia ] ].
Qed.

(** The store a class create that answered 201 leaves. *)
Lemma class_create_run u b f w resp :
  fst (class_create u b f w) = Val resp -> class_status resp = 201 ->
  exists t descr img,
    varchar 100 (text (class_body_title b)) = Some t /\
    text_opt (class_body_description b) = Some descr /\
    varchar_opt 255 (option_map cloud_url f) = Some img /\
    let row := {| class_id := classes_id_seq w; class_title := t;
                  class_description := descr; class_image_url := img;
                  class_created_by := user_id u |} in
    resp = {| class_status := 201; class_answer := ClassJson (Some row) |} /\
    campus (snd (class_create u b f w))
    = set_campus_classes (campus_classes (campus w) ++ [row])%list (campus w) /\
    campus_faults (snd (class_create u b f w))
    = tl (match f with Some _ => tl (campus_faults w) | None => campus_faults w end) /\
    existsb (fun x => usr_id x =? user_id u) (campus_users (campus w)) = true /\
    truthy (class_body_title b) = true.
Proof.
  destruct (class_create u b f w) as [o w'] eqn:E. simpl. revert E.
  unfold_class; cbn.
  destruct f as [f|]; cbn;
    repeat (break_match; cbn in *; try discriminate).
  all: intros E; injection E as <- <-; intros Hr; injection Hr as <-; cbn;
    try discriminate.
  all: intros _.
  all: repeat match goal with
         | H : Some _ = Some _ |- _ => injection H as H
         | H : (_, _) = (_, _) |- _ => injection H as H
         end; subst.
  all: repeat match goal with
         | H : _ && _ = true |- _ => apply andb_true_iff in H; destruct H
         | H : negb _ = false |- _ => apply negb_false_iff in H
         end.
  all: do 3 eexists.
  all: repeat split; try reflexivity; eassumption.
Qed.

(** X27. A class create that answers 201 has stored the class of the answer
    under the next value of the sequence, with the actor as creator and
    with the title of the body as its column takes it: text of at most 100
    characters, the whole title or, of a longer one that ends in spaces,
    its first 100 characters. The read by that key answers 200 with the
    class and the name of the actor. *)
Theorem created_class_is_read_back (u : ReqUser) (b : ClassBody)
  (f : option UploadedFile) (id : string) (w : CampusWorld) (resp : ClassResponse)
  (Hok : campus_world_ok w)
  (Hr : fst (class_handle latest_enrollment_first (ClassCreate u b f) w) = Val resp)
  (Hs : class_status resp = 201)
  (Hi : int4in id = Some (classes_id_seq w))
  (Hf : hd false (campus_faults
                    (snd (class_handle latest_enrollment_first (ClassCreate u b f) w)))
        = false) :
  let w' := snd (class_handle latest_enrollment_first (ClassCreate u b f) w) in
  exists row name,
    resp = {| class_status := 201; class_answer := ClassJson (Some row) |} /\
    class_id row = classes_id_seq w /\
    varchar 100 (text (class_body_title b)) = Some (class_title row) /\
    (exists cs, utf8_chars (class_title row) = Some cs /\ (List.length cs <= 100)%nat) /\
    class_created_by row = user_id u /\
    classes_of (classes_id_seq w) (campus w') = [row] /\
    In name (map usr_username
               (filter (fun x => usr_id x =? user_id u) (campus_users (campus w)))) /\
    fst (class_handle latest_enrollment_first (ClassGet id) w')
    = Val {| class_status := 200; class_answer := ClassWithCreator row name |}.
Proof.
  simpl in *.
  destruct (class_create_run u b f w resp Hr Hs)
    as (t & descr & img & Ht & _ & _ & Hresp & Hd & _ & Hu & _).
  cbv zeta in *.
  set (row := {| class_id := classes_id_seq w; class_title := t;
                 class_description := descr; class_image_url := img;
                 class_created_by := user_id u |}) in *.
  assert (filter (fun k => class_id k =? classes_id_seq w) (campus_classes (campus w)) = [])
    as Hfresh.
  { apply existsb_false_filter.
    destruct (existsb (fun k => class_id k =? classes_id_seq w)
                      (campus_classes (campus w))) eqn:E; [ | reflexivity ].
    apply existsb_exists in E. destruct E as (k & Hk & Hid).
    destruct Hok as (_ & H2 & _). specialize (H2 k Hk). lia. }
  apply existsb_filter_nonempty in Hu. destruct Hu as (x & xs & Hu).
  exists row, (usr_username x).
  split; [ exact Hresp | ]. split; [ reflexivity | ]. split; [ exact Ht | ].
  split; [ exact (varchar_chars _ _ _ Ht) | ]. split; [ reflexivity | ].
  assert (classes_of (classes_id_seq w) (campus (snd (class_create u b f w))) = [row])
    as Hrow.
  { rewrite Hd. unfold classes_of. cbn [campus_classes set_campus_classes].
    rewrite filter_app, Hfresh. cbn. rewrite Z.eqb_refl. reflexivity. }
  split; [ exact Hrow | ].
  split; [ rewrite Hu; left; reflexivity | ].
  set (w' := snd (class_create u b f w)) in *. clearbody w'.
  unfold_class; cbn. rewrite Hf, Hi. cbn.
  rewrite (filter_inner_join _ _ _ (fun k => class_id k =? classes_id_seq w)).
  fold (classes_of (classes_id_seq w) (campus w')).
  rewrite Hrow. rewrite Hd. cbn.
  rewrite (filter_ext _ (fun x => usr_id x =? user_id u))
    by (intros a; apply Z.eqb_sym).
  rewrite Hu. cbn. reflexivity.
Qed.

End ClassProofs.

Section Columns.
Context {pg : PgInput}.

Lemma news_create_overlong u b f w resp :
  varchar 100 (text (title b)) = None ->
  fst (news_create u b f w) = Val resp ->
  status resp <> 201 /\ committed (snd (news_create u b f w)) = committed w
  /\ news_id_seq (snd (news_create u b f w)) = news_id_seq w.
Proof.
  intros Hlen.
  destruct (news_create u b f w) as [o w'] eqn:E. simpl. revert E.
  unfold news_create, news_create_transaction, entity_exists, entity_details.
  unfold_monad; unfold_sql; cbn. rewrite ?Hlen. cbn.
  repeat (break_match; cbn in *; try discriminate).
  all: intros E; injection E as <- <-; intros Hr; injection Hr as <-; cbn;
    repeat split; try discriminate; try reflexivity.
Qed.

Lemma existsb_nonempty_filter (A : Type) (p : A -> bool) (l : list A) :
  existsb p l = nonempty (filter p l).
Proof.
  induction l as [|x l IH]; simpl; [ reflexivity | ].
  destruct (p x); simpl; [ reflexivity | exact IH ].
Qed.

Lemma news_update_overlong u id b f w resp :
  varchar 100 (text (title b)) = None ->
  fst (news_update u id b f w) = Val resp ->
  status resp <> 200 /\ committed (snd (news_update u id b f w)) = committed w.
Proof.
  intros Hlen.
  destruct (news_update u id b f w) as [o w'] eqn:E. simpl. revert E.
  unfold news_update, entity_exists, entity_details.
  unfold_monad; unfold_sql; cbn. rewrite ?Hlen. cbn.
  repeat (break_match; cbn in *; try discriminate).
  all: intros E; injection E as <- <-; intros Hr; injection Hr as <-; cbn;
    split; try discriminate; try reflexivity.
Qed.

Lemma class_create_overlong u b f w resp :
  varchar 100 (text (class_body_title b)) = None ->
  fst (class_create u b f w) = Val resp ->
  class_status resp <> 201 /\ campus (snd (class_create u b f w)) = campus w
  /\ classes_id_seq (snd (class_create u b f w)) = classes_id_seq w.
Proof.
  intros Hlen.
  destruct (class_create u b f w) as [o w'] eqn:E. simpl. revert E.
  unfold_class; cbn. rewrite ?Hlen. cbn.
  repeat (break_match; cbn in *; try discriminate).
  all: intros E; injection E as <- <-; intros Hr; injection Hr as <-; cbn;
    repeat split; try discriminate; try reflexivity.
Qed.

(** X28. A title of more than 100 characters, of which one past the
    hundredth is not a space, is never stored: no check of the handlers
    refuses it, the column does when the statement is bound, and the create
    or update is not answered with success, leaves the store as it was and
    draws no key from the sequence. The count is of characters, whatever
    the number of bytes that encode them. *)
Theorem overlong_title_is_not_stored (u : ReqUser) (f : option UploadedFile)
  (t : field) (cs : list string)
  (Hcs : utf8_chars (text t) = Some cs)
  (Hlen : (100 < List.length cs)%nat)
  (Hsp : forallb (String.eqb " ") (skipn 100 cs) = false) :
  (forall b w resp,
      title b = t -> fst (handle (NewsCreate u b f) w) = Val resp ->
      status resp <> 201 /\ committed (snd (handle (NewsCreate u b f) w)) = committed w
      /\ news_id_seq (snd (handle (NewsCreate u b f) w)) = news_id_seq w) /\
  (forall id b w resp,
      title b = t -> fst (handle (NewsUpdate u id b f) w) = Val resp ->
      status resp <> 200
      /\ committed (snd (handle (NewsUpdate u id b f) w)) = committed w) /\
  (forall b w resp,
      class_body_title b = t -> fst (class_create u b f w) = Val resp ->
      class_status resp <> 201 /\ campus (snd (class_create u b f w)) = campus w
      /\ classes_id_seq (snd (class_create u b f w)) = classes_id_seq w).
Proof.
  pose proof (varchar_too_long 100 (text t) cs Hcs Hlen Hsp) as Hv.
  split; [ | split ].
  - intros b w resp <-. apply news_create_overlong, Hv.
  - intros id b w resp <-. apply news_update_overlong, Hv.
  - intros b w resp <-. apply class_create_overlong, Hv.
Qed.

End Columns.

(** ** The rows of a read by key *)

Lemma NoDup_key_filter (A : Type) (key : A -> Z) (i : Z) (l : list A) :
  NoDup (map key l) -> (List.length (filter (fun x => (key x =? i)%Z) l) <= 1)%nat.
Proof.
  induction l as [|x l IH]; simpl; intros H; [ lia | ].
  inversion H as [|? ? Hnin Hnd]; subst.
  destruct (key x =? i) eqn:E; [ | apply IH, Hnd ].
  simpl. assert (filter (fun x => key x =? i) l = []) as ->; [ | simpl; lia ].
  apply existsb_false_filter.
  destruct (existsb (fun x => key x =? i) l) eqn:X; [ | reflexivity ].
  exfalso. apply Hnin. apply existsb_key_true in X. replace (key x) with i by lia. exact X.
Qed.

Lemma left_join_length A B (on : A -> B -> bool) (l : list A) (r : list B) :
  (forall a, In a l -> (List.length (filter (on a) r) <= 1)%nat) ->
  List.length (left_join on l r) = List.length l.
Proof.
  induction l as [|a l IH]; simpl; intros H; [ reflexivity | ].
  rewrite length_app, IH by (intros x Hx; apply H; right; exact Hx).
  specialize (H a (or_introl eq_refl)).
  destruct (filter (on a) r) as [|b [|b' bs]]; simpl in *; lia.
Qed.

Lemma inner_join_length A B (on : A -> B -> bool) (l : list A) (r : list B) :
  (forall a, In a l -> (List.length (filter (on a) r) <= 1)%nat) ->
  (List.length (inner_join on l r) <= List.length l)%nat.
Proof.
  induction l as [|a l IH]; simpl; intros H; [ lia | ].
  rewrite length_app, length_map.
  specialize (IH (fun x Hx => H x (or_intror Hx))).
  specialize (H a (or_introl eq_refl)). lia.
Qed.

Lemma filter_none (A : Type) (l : list A) : filter (fun _ => false) l = [].
Proof. induction l; simpl; auto. Qed.

Lemma links_to_filter_length kind e (l : list Entity) :
  NoDup (map ent_id l) -> (List.length (filter (links_to kind e) l) <= 1)%nat.
Proof.
  intros H. destruct e as [x|].
  - destruct (String.eqb (entity_type x) kind) eqn:E.
    + rewrite (filter_ext (links_to kind (Some x)) (fun c => ent_id c =? entity_id x))
        by (intros c; unfold links_to; rewrite E; simpl; apply Z.eqb_sym).
      apply NoDup_key_filter, H.
    + rewrite (filter_ext (links_to kind (Some x)) (fun _ => false))
        by (intros c; unfold links_to; rewrite E; reflexivity).
      rewrite filter_none. simpl. lia.
  - rewrite (filter_ext (links_to kind None) (fun _ => false)) by reflexivity.
    rewrite filter_none. simpl. lia.
Qed.

Section OneRow.
Context {pg : PgInput}.

(** X29. With the primary keys of the schema in force, the joined read of a
    news item by its key has at most one row: the joins with the link row
    and with its target add columns and no rows, and the row the handler
    answers with is the only one; a read answered 404 means that no news
    item has the key or that its creator is no stored user. *)
Theorem read_by_key_has_one_row (id : string) (i : Z) (w : World)
  (Hi : int4in id = Some i) (Hk : read_keys_ok (committed w)) :
  (List.length (filter (fun v => (news_id (view_news v) =? i)%Z)
                       (news_joined (committed w))) <= 1)%nat /\
  forall resp,
    fst (news_get id w) = Val resp -> read_status resp = 404 ->
    forall n, In n (news_of i (committed w)) ->
              ~ In (news_created_by n) (map usr_id (users (committed w))).
Proof.
  destruct Hk as (Hn & Hu & Hc & Hm & Ha & Hl & _).
  assert (List.length (filter (fun v => (news_id (view_news v) =? i)%Z)
                                 (news_joined (committed w))) <= 1)%nat as Hone.
  { unfold news_joined, news_with_author.
    rewrite filter_map_comm. cbn [view_news]. rewrite length_map.
    rewrite (filter_left_join _ _ _
               (fun x => news_id (fst (fst (fst (fst x)))) =? i)).
    rewrite (filter_left_join _ _ _ (fun x => news_id (fst (fst (fst x))) =? i)).
    rewrite (filter_left_join _ _ _ (fun x => news_id (fst (fst x)) =? i)).
    rewrite (filter_left_join _ _ _ (fun x => news_id (fst x) =? i)).
    rewrite (filter_inner_join _ _ _ (fun n => news_id n =? i)).
    rewrite !left_join_length.
    - etransitivity; [ apply inner_join_length | apply NoDup_key_filter, Hn ].
      intros n _.
      rewrite (filter_ext _ (fun u => usr_id u =? news_created_by n))
        by (intros u; apply Z.eqb_sym).
      apply NoDup_key_filter, Hu.
    - intros x _. rewrite links_of_sym. apply Hl.
    - intros x _. apply links_to_filter_length, Hc.
    - intros x _. apply links_to_filter_length, Hm.
    - intros x _. apply links_to_filter_length, Ha. }
  split; [ exact Hone | ].
  intros resp Hr Hs n Hin Huser.
  revert Hr. unfold_reads; unfold_monad; unfold_sql; cbn.
  destruct (hd false (faults w)); cbn;
    [ intros Hr; injection Hr as <-; discriminate Hs | ].
  rewrite Hi. cbn.
  pose proof (news_joined_by_key i (committed w)) as Hd.
  destruct (filter _ (news_joined (committed w))) as [|v vs];
    [ | intros Hr; injection Hr as <-; discriminate Hs ].
  intros _. simpl in Hd. symmetry in Hd.
  destruct (hd_error (inner_join _ _ _)) as [x|] eqn:E; [ discriminate Hd | ].
  apply in_map_iff in Huser. destruct Huser as (u & Hu' & Hin').
  assert (In (n, u) (inner_join (fun n u => news_created_by n =? usr_id u)
                                (news_of i (committed w)) (users (committed w)))) as C
      by (apply in_inner_join; repeat split; [ exact Hin | exact Hin' | lia ]).
  destruct (inner_join _ _ _); [ exact C | discriminate E ].
Qed.

End OneRow.

Section UpdateAnswer.
Context {pg : PgInput}.

(** The body of the answer of an update: the first row of the joined read
    made after COMMIT. *)
Lemma news_update_answer u id b f w resp :
  fst (news_update u id b f w) = Val resp -> status resp = 200 ->
  exists i,
    int4in id = Some i /\
    body resp
    = NewsJson
        (hd_error
           (filter (fun n => (news_id n =? i)
                             && existsb (fun x => usr_id x =? news_created_by n)
                                        (users (committed (snd (news_update u id b f w)))))
                   (news (committed (snd (news_update u id b f w)))))).
Proof.
  destruct (news_update u id b f w) as [o w'] eqn:E. simpl. revert E.
  unfold news_update, entity_exists, entity_details.
  unfold_monad; unfold_sql; cbn.
  repeat (break_match; cbn in *; try discriminate).
  all: intros E; injection E as <- <-; intros Hr; injection Hr as <-; cbn;
    try discriminate.
  all: intros _; eexists; split; reflexivity.
Qed.

Lemma filter_with_stored_creator (A : Type) (key creator : A -> Z) (i : Z)
  (us : list UserRow) (l : list A) :
  (forall x, In x l -> In (creator x) (map usr_id us)) ->
  filter (fun x => (key x =? i) && existsb (fun u => usr_id u =? creator x) us) l
  = filter (fun x => key x =? i) l.
Proof.
  intros H. apply filter_ext_in. intros x Hx.
  assert (existsb (fun u => usr_id u =? creator x) us = true) as ->.
  { specialize (H x Hx). apply in_map_iff in H. destruct H as (y & Hy & Hin).
    apply existsb_exists. exists y. split; [ exact Hin | lia ]. }
  apply andb_true_r.
Qed.

(** X30. A news update that answers 200 on a consistent store answers
    with the record it stored: a record of the store after the update, with
    the key of the request, the title of its body as the column takes it,
    and the content of its body. A posts update answers with no record: it
    is answered 200 on no run. *)
Theorem update_answers_with_the_stored_record (u : ReqUser) (id : string)
  (f : option UploadedFile) (w : World)
  (Hw : world_consistent w) :
  (forall b resp,
      fst (handle (NewsUpdate u id b f) w) = Val resp -> status resp = 200 ->
      exists n,
        body resp = NewsJson (Some n) /\
        In n (news (committed (snd (handle (NewsUpdate u id b f) w)))) /\
        int4in id = Some (news_id n) /\
        varchar 100 (text (title b)) = Some (news_title n) /\
        news_content n = text (content b)) /\
  (forall b resp,
      fst (handle (PostsUpdate u id b f) w) = Val resp -> status resp <> 200).
Proof.
  split; [ | intros b resp; apply posts_update_never_200 ].
  intros b resp Hr Hs.
  pose proof (keeps_handle (NewsUpdate u id b f) w Hw) as [Hok _].
  simpl in Hr, Hok |- *.
  destruct (news_update_answer u id b f w resp Hr Hs) as (i & Hi & Hb).
  destruct (news_update_all_or_nothing u id b f w) as [_ H200].
  destruct (H200 resp Hr Hs) as (i' & n0 & rest & t & img & Hi' & Hrows & Ht & _ & Hd).
  replace i' with i in * by congruence. clear Hi'. cbv zeta in Hd.
  set (d' := committed (snd (news_update u id b f w))) in *.
  destruct Hok as (_ & _ & Hn & _).
  rewrite (filter_with_stored_creator _ news_id news_created_by i (users d') (news d')
             (fun x Hx => proj2 (Hn x Hx))) in Hb.
  assert (filter (fun n => news_id n =? i) (news d')
          = map (fun n1 => {| news_id := news_id n1; news_title := t;
                              news_content := text (content b);
                              news_image_url := img;
                              news_created_by := news_created_by n1 |})
                (news_of i (committed w))) as Hnew.
  { destruct (truthy (linkedType b) && truthy (linkedId b));
      [ destruct Hd as [e [_ Hd]] | ]; rewrite Hd; simpl; apply news_of_rewritten. }
  rewrite Hrows in Hnew. simpl in Hnew.
  assert (In {| news_id := news_id n0; news_title := t;
                news_content := text (content b);
                news_image_url := img;
                news_created_by := news_created_by n0 |}
             (filter (fun n => news_id n =? i) (news d'))) as Hin
      by (rewrite Hnew; left; reflexivity).
  apply filter_In in Hin. destruct Hin as [Hin Hk]. simpl in Hk.
  rewrite Hnew in Hb. simpl in Hb.
  eexists. split; [ exact Hb | ]. split; [ exact Hin | ].
  simpl. split; [ rewrite Hi; f_equal; lia | split; [ exact Ht | reflexivity ] ].
Qed.

End UpdateAnswer.

(** ** Runs on the sample data *)

#[export] Existing Instance server_input.

(** C1, counterexample. User 2 has role aslab and did not create post 5:
    the ownership policy of the specification permits the mutation, and each
    of the four post mutations answers 403. *)
Lemma posts_refuse_privileged_non_creator :
  creator_of PostOwner 5 (committed sample_world) = Some 1 /\
  canMutate (user_id aslab) (user_role aslab) 1 = true /\
  fst (posts_update aslab "5" (post_body None None) None sample_world)
  = Val {| status := 403; body := Message "Not authorized to update this post" |} /\
  fst (posts_delete aslab "5" sample_world)
  = Val {| status := 403; body := Message "Not authorized to delete this post" |} /\
  fst (posts_link aslab "5" "class" "3" sample_world)
  = Val {| status := 403; body := Message "Not authorized to update this post" |} /\
  fst (posts_unlink aslab "5" sample_world)
  = Val {| status := 403; body := Message "Not authorized to update this post" |}.
Proof. repeat split; reflexivity. Qed.

(** The amended policy at the same input: the privileged non-creator of
    post 5 is answered 403. *)
Lemma mutation_policy_per_router_witness :
  (target (PostsUpdate aslab "5" (post_body None None) None) = Some (PostOwner, "5", aslab)
   /\ body_valid (PostsUpdate aslab "5" (post_body None None) None) = true
   /\ int4in "5" = Some 5
   /\ hd false (faults sample_world) = false
   /\ creator_of PostOwner 5 (committed sample_world) = Some 1)
  /\ exists resp,
      fst (handle (PostsUpdate aslab "5" (post_body None None) None) sample_world) = Val resp
      /\ (status resp = 403 <-> (1 =? user_id aslab) = false).
Proof.
  split; [ repeat split; reflexivity | ].
  apply (mutation_policy_per_router (PostsUpdate aslab "5" (post_body None None) None)
           PostOwner "5" aslab 5 1 sample_world); reflexivity.
Defined.

(** The invariant over [sample_requests], at owner 7. *)
Lemma single_link_row_invariant_witness :
  world_ok sample_world /\
  ((List.length (links_of 7 (news_entities (committed (serve sample_requests sample_world))))
    <= 1)%nat /\
   forall r,
     In r (links_of 7 (news_entities (committed (serve sample_requests sample_world)))) ->
     In (entity_type r) entity_kinds) /\
  ((List.length (links_of 7 (posts_entities (committed (serve sample_requests sample_world))))
    <= 1)%nat /\
   forall r,
     In r (links_of 7 (posts_entities (committed (serve sample_requests sample_world)))) ->
     In (entity_type r) entity_kinds).
Proof.
  assert (world_ok sample_world) as H.
  { split; [ | intros t Ht; discriminate ].
    split; split.
    - intros o. unfold links_of.
      cbn [committed sample_world sample_db news_entities filter link_owner].
      destruct (7 =? o); cbn [List.length]; lia.
    - repeat constructor; simpl; auto.
    - intros o. unfold links_of.
      cbn [committed sample_world sample_db posts_entities filter link_owner].
      destruct (5 =? o); cbn [List.length]; lia.
    - repeat constructor; simpl; auto. }
  split; [ exact H | ].
  exact (single_link_row_invariant sample_requests sample_world 7 H).
Defined.

(** A create with a target that is answered 201 has written both rows. *)
Lemma create_is_atomic_witness :
  (fst (news_create aslab (news_body (Some "class") (Some "3")) None sample_world)
   = Val {| status := 201;
            body := NewsJson (Some {| news_id := 8; news_title := "Midterm info";
                                      news_content := "..."; news_image_url := None;
                                      news_created_by := 2 |}) |})
  /\ news_created aslab (news_body (Some "class") (Some "3")) (committed sample_world)
       (committed (snd (news_create aslab (news_body (Some "class") (Some "3")) None
                          sample_world))).
Proof.
  split; [ reflexivity | ].
  destruct (create_is_atomic aslab None sample_world) as [Hnews _].
  destruct (Hnews (news_body (Some "class") (Some "3"))) as [_ Hcreated].
  eapply Hcreated; reflexivity.
Defined.

(** The same create when the fifth awaited call, the INSERT of the link
    row, fails: the news item inserted before it is rolled back. *)
Example create_rolls_back_when_the_link_insert_fails :
  fst (news_create aslab (news_body (Some "class") (Some "3")) None
         (set_faults [false; false; false; false; true] sample_world))
  = Val {| status := 500; body := Message "Server error" |} /\
  committed (snd (news_create aslab (news_body (Some "class") (Some "3")) None
                    (set_faults [false; false; false; false; true] sample_world)))
  = committed sample_world /\
  txn (snd (news_create aslab (news_body (Some "class") (Some "3")) None
              (set_faults [false; false; false; false; true] sample_world)))
  = None.
Proof. repeat split; reflexivity. Qed.

(** The same create when the seventh awaited call fails, the read of the
    author after COMMIT: the answer is 500 and both rows stay committed. *)
Example create_failure_after_commit_keeps_both_rows :
  fst (news_create aslab (news_body (Some "class") (Some "3")) None
         (set_faults [false; false; false; false; false; false; true] sample_world))
  = Val {| status := 500; body := Message "Server error" |} /\
  links_of 8
    (news_entities
       (committed
          (snd (news_create aslab (news_body (Some "class") (Some "3")) None
                  (set_faults [false; false; false; false; false; false; true]
                     sample_world)))))
  = [{| link_owner := 8; entity_type := "class"; entity_id := 3 |}] /\
  creator_of NewsOwner 8
    (committed
       (snd (news_create aslab (news_body (Some "class") (Some "3")) None
               (set_faults [false; false; false; false; false; false; true]
                  sample_world))))
  = Some 2.
Proof. repeat split; reflexivity. Qed.

(** News item 7 linked twice to class 3. *)
Lemma set_link_twice_is_upsert_witness :
  (faults sample_world = []
   /\ (List.length (links_of 7 (link_table NewsOwner (committed sample_world))) <= 1)%nat
   /\ int4in "7" = Some 7 /\ int4in "3" = Some 3
   /\ includes entity_kinds "class" = true
   /\ entity_present "class" 3 (committed sample_world) = true
   /\ creator_of NewsOwner 7 (committed sample_world) = Some 1
   /\ allowed NewsOwner aslab 1 = true)
  /\
  let first := handle (link_request NewsOwner aslab "7" "class" "3") sample_world in
  let second := handle (link_request NewsOwner aslab "7" "class" "3") (snd first) in
  fst first = Val {| status := 200; body := Message "Entity linked successfully" |} /\
  fst second = Val {| status := 200; body := Message "Entity linked successfully" |} /\
  links_of 7 (link_table NewsOwner (committed (snd second)))
  = [{| link_owner := 7; entity_type := "class"; entity_id := 3 |}] /\
  link_table NewsOwner (committed (snd second))
  = link_table NewsOwner (committed (snd first)).
Proof.
  split; [ repeat split; try reflexivity; simpl; lia | ].
  apply (set_link_twice_is_upsert NewsOwner aslab "7" "class" "3" 7 3 1 sample_world);
    first [ reflexivity | simpl; lia ].
Defined.

Lemma sample_news_update_accepted :
  news_update_accepted creator "7" (news_body None None) None sample_world.
Proof.
  unfold news_update_accepted.
  split; [ reflexivity | ]. split; [ reflexivity | ].
  split; [ exists 7; eexists; exists []; repeat split; try reflexivity; discriminate | ].
  split; [ vm_compute; discriminate | ]. split; [ vm_compute; discriminate | ].
  discriminate.
Qed.

Lemma sample_posts_update_accepted :
  posts_update_accepted creator "5" (post_body None None) None sample_world.
Proof.
  unfold posts_update_accepted.
  split; [ reflexivity | ]. split; [ reflexivity | ].
  split; [ exists 5; eexists; exists []; repeat split; try reflexivity; discriminate | ].
  split; [ vm_compute; discriminate | ]. discriminate.
Qed.

(** News item 7 and post 5 are linked to class 3; their creator updates
    each without a target. *)
Lemma update_without_target_removes_link_witness :
  (int4in "7" = Some 7 /\ int4in "5" = Some 5
   /\ truthy (linkedType (news_body None None)) && truthy (linkedId (news_body None None))
      = false
   /\ truthy (entityType (post_body None None)) && truthy (entityId (post_body None None))
      = false
   /\ links_of 7 (news_entities (committed sample_world))
      = [{| link_owner := 7; entity_type := "class"; entity_id := 3 |}]
   /\ links_of 5 (posts_entities (committed sample_world))
      = [{| link_owner := 5; entity_type := "class"; entity_id := 3 |}])
  /\ ((exists resp,
          fst (news_update creator "7" (news_body None None) None sample_world) = Val resp
          /\ status resp = 200)
      /\ links_of 7 (news_entities
                       (committed (snd (news_update creator "7" (news_body None None) None
                                          sample_world)))) = [])
  /\ (fst (posts_update creator "5" (post_body None None) None sample_world)
      = Val {| status := 500; body := Message "Server error" |}
      /\ links_of 5 (posts_entities
                       (committed (snd (posts_update creator "5" (post_body None None) None
                                          sample_world)))) = []).
Proof.
  split; [ repeat split; reflexivity | ].
  assert (int4in "7" = Some 7) as H7 by reflexivity.
  assert (int4in "5" = Some 5) as H5 by reflexivity.
  split.
  - apply (proj1 (update_without_target_removes_link creator "7" 7 None sample_world H7)
                 (news_body None None)); [ reflexivity | exact sample_news_update_accepted ].
  - apply (proj1 (proj2 (update_without_target_removes_link creator "5" 5 None sample_world
                           H5))
                 (post_body None None)); [ reflexivity | exact sample_posts_update_accepted ].
Defined.

(** There is no class 42. *)
Lemma missing_target_is_refused_witness :
  (target sample_missing_link = Some (NewsOwner, "7", aslab)
   /\ requested_target sample_missing_link = Some ("class", "42")
   /\ includes entity_kinds "class" = true
   /\ int4in "42" = Some 42
   /\ entity_present "class" 42 (committed sample_world) = false)
  /\ committed (snd (handle sample_missing_link sample_world)) = committed sample_world
  /\ fst (handle sample_missing_link sample_world)
     = Val {| status := 404; body := Message "Class not found" |}.
Proof.
  split; [ repeat split; reflexivity | ].
  assert (target sample_missing_link = Some (NewsOwner, "7", aslab)) as Ht by reflexivity.
  assert (requested_target sample_missing_link = Some ("class", "42")) as Hq
      by reflexivity.
  assert (includes entity_kinds "class" = true) as Hk by reflexivity.
  assert (int4in "42" = Some 42) as He by reflexivity.
  assert (entity_present "class" 42 (committed sample_world) = false) as Hp by reflexivity.
  destruct (missing_target_is_refused sample_missing_link NewsOwner "7" aslab "class" "42"
              42 sample_world Ht Hq Hk He Hp) as [Hsame Hresp].
  split; [ exact Hsame | ].
  apply (Hresp 7 1); reflexivity.
Defined.

(** C7, counterexample. There is no news item 99 and no post 99, and user
    9 is not privileged and created nothing, so the policy would refuse the
    user on any record. An update of either record with an empty body is
    answered 400, and the delete of a news item under a key that is no
    integer is answered 500: a missing owner record is not always answered
    404. *)
Lemma missing_owner_is_not_always_not_found :
  int4in "99" = Some 99 /\
  creator_of NewsOwner 99 (committed sample_world) = None /\
  creator_of PostOwner 99 (committed sample_world) = None /\
  Forall (fun n => allowed NewsOwner stranger (news_created_by n) = false)
    (news (committed sample_world)) /\
  Forall (fun p => allowed PostOwner stranger (post_user_id p) = false)
    (posts (committed sample_world)) /\
  fst (news_update stranger "99" sample_empty_news_body None sample_world)
  = Val {| status := 400; body := Message "Title and content are required" |} /\
  fst (posts_update stranger "99" sample_empty_post_body None sample_world)
  = Val {| status := 400; body := Message "Content is required" |} /\
  int4in "ninety-nine" = None /\
  fst (news_delete stranger "ninety-nine" sample_world)
  = Val {| status := 500; body := Message "Server error" |}.
Proof. repeat split; try reflexivity; repeat constructor. Qed.

(** The amended claim at the same record: there is no post 99, and user 9
    owns nothing; the delete is answered 404, and the update with an empty
    body 400. *)
Lemma not_found_precedes_forbidden_witness :
  (target sample_missing_post = Some (PostOwner, "99", stranger)
   /\ int4in "99" = Some 99
   /\ creator_of PostOwner 99 (committed sample_world) = None
   /\ body_valid sample_missing_post = true
   /\ hd false (faults sample_world) = false
   /\ target (PostsUpdate stranger "99" sample_empty_post_body None)
      = Some (PostOwner, "99", stranger)
   /\ body_valid (PostsUpdate stranger "99" sample_empty_post_body None) = false)
  /\ (exists m,
         fst (handle sample_missing_post sample_world)
         = Val {| status := 404; body := Message m |})
  /\ (exists m,
         handle (PostsUpdate stranger "99" sample_empty_post_body None) sample_world
         = (Val {| status := 400; body := Message m |}, sample_world)).
Proof.
  split; [ repeat split; reflexivity | ].
  assert (target sample_missing_post = Some (PostOwner, "99", stranger)) as Ht
      by reflexivity.
  assert (target (PostsUpdate stranger "99" sample_empty_post_body None)
          = Some (PostOwner, "99", stranger)) as Ht' by reflexivity.
  split.
  - destruct (not_found_precedes_forbidden sample_missing_post PostOwner "99" stranger
                sample_world Ht) as [_ [Hmissing _]].
    apply (Hmissing 99); reflexivity.
  - destruct (not_found_precedes_forbidden
                (PostsUpdate stranger "99" sample_empty_post_body None) PostOwner "99"
                stranger sample_world Ht') as [_ [_ [Hinvalid _]]].
    apply Hinvalid. reflexivity.
Defined.


Lemma sample_partial_news_accepted :
  news_update_accepted aslab "7" (news_body (Some "class") None) None sample_world.
Proof.
  unfold news_update_accepted.
  split; [ reflexivity | ]. split; [ reflexivity | ].
  split; [ exists 7; eexists; exists []; repeat split; try reflexivity; discriminate | ].
  split; [ vm_compute; discriminate | ]. split; [ vm_compute; discriminate | ].
  discriminate.
Qed.

Lemma sample_partial_post_accepted :
  posts_update_accepted creator "5" (post_body None (Some "42")) None sample_world.
Proof.
  unfold posts_update_accepted.
  split; [ reflexivity | ]. split; [ reflexivity | ].
  split; [ exists 5; eexists; exists []; repeat split; try reflexivity; discriminate | ].
  split; [ vm_compute; discriminate | ]. discriminate.
Qed.

(** An update of news item 7 with a kind and no id, and an update of post 5
    with the id of a class that is not stored and no kind: the link rows to
    class 3 are deleted, and the runs are the same on a store without any
    class. *)
Lemma partial_target_is_no_target_witness :
  (int4in "7" = Some 7 /\ int4in "5" = Some 5
   /\ partial_news_target (news_body (Some "class") None) = true
   /\ partial_post_target (post_body None (Some "42")) = true
   /\ includes entity_kinds (text (linkedType (news_body (Some "class") None))) = true
   /\ links_of 7 (news_entities (committed sample_world))
      = [{| link_owner := 7; entity_type := "class"; entity_id := 3 |}]
   /\ links_of 5 (posts_entities (committed sample_world))
      = [{| link_owner := 5; entity_type := "class"; entity_id := 3 |}])
  /\ (news_update aslab "7" (news_body (Some "class") None) None sample_world
      = news_update aslab "7" (without_news_target (news_body (Some "class") None)) None
          sample_world
      /\ news_update aslab "7" (news_body (Some "class") None) None
           (world_with_entities [] [] [] sample_world)
         = (fst (news_update aslab "7" (news_body (Some "class") None) None sample_world),
            world_with_entities [] [] []
              (snd (news_update aslab "7" (news_body (Some "class") None) None
                      sample_world)))
      /\ (exists resp,
             fst (news_update aslab "7" (news_body (Some "class") None) None sample_world)
             = Val resp /\ status resp = 200)
      /\ links_of 7 (news_entities
                       (committed (snd (news_update aslab "7" (news_body (Some "class") None)
                                          None sample_world)))) = [])
  /\ (posts_update creator "5" (post_body None (Some "42")) None sample_world
      = posts_update creator "5" (without_post_target (post_body None (Some "42"))) None
          sample_world
      /\ fst (posts_update creator "5" (post_body None (Some "42")) None sample_world)
         = Val {| status := 500; body := Message "Server error" |}
      /\ links_of 5 (posts_entities
                       (committed (snd (posts_update creator "5"
                                          (post_body None (Some "42")) None sample_world))))
         = []).
Proof.
  split; [ repeat split; reflexivity | ].
  assert (int4in "7" = Some 7) as H7 by reflexivity.
  assert (int4in "5" = Some 5) as H5 by reflexivity.
  split.
  - destruct (proj1 (partial_target_is_no_target aslab "7" 7 None sample_world H7)
                    (news_body (Some "class") None) eq_refl) as (Heq & Hent & Hdel).
    split; [ apply Heq; reflexivity | ]. split; [ apply Hent | ].
    apply Hdel. exact sample_partial_news_accepted.
  - destruct (proj2 (partial_target_is_no_target creator "5" 5 None sample_world H5)
                    (post_body None (Some "42")) eq_refl) as (Heq & _ & Hdel).
    split; [ apply Heq; discriminate | ].
    apply Hdel. exact sample_partial_post_accepted.
Defined.

(** ** Runs of the further properties *)

Lemma sample_world_consistent : world_consistent sample_world.
Proof.
  split; [ | intros t Ht; discriminate ].
  unfold store_consistent. simpl.
  split; [ repeat constructor; simpl; tauto | ].
  split; [ repeat constructor; simpl; tauto | ].
  split; [ intros n [<- | []]; simpl; split; [ lia | tauto ] | ].
  split; [ intros p [<- | []]; simpl; split; [ lia | tauto ] | ].
  split; intros l [<- | []]; simpl; tauto.
Qed.

Lemma sample_links_ok : link_table_ok (news_entities (committed sample_world)).
Proof.
  split.
  - intros o. unfold links_of.
    cbn [committed sample_world sample_db news_entities filter link_owner].
    destruct (7 =? o); cbn [List.length]; lia.
  - repeat constructor; simpl; auto.
Qed.

Lemma sample_create_accepted :
  news_create_accepted aslab (news_body (Some "class") (Some "3")) None sample_world.
Proof.
  unfold news_create_accepted.
  repeat split; try reflexivity; intros _; exists 3; split; reflexivity.
Qed.

Lemma sample_posts_create_accepted :
  posts_create_accepted creator (post_body (Some "class") (Some "3")) None sample_world.
Proof.
  unfold posts_create_accepted.
  repeat split; try reflexivity; intros _; exists 3; split; reflexivity.
Qed.

Lemma latest_first_permutes A (key : A -> NewsRow) (l : list A) :
  Permutation (latest_first A key l) l.
Proof. apply Permutation_sym, Permutation_rev. Qed.

(** X1 at the link of news item 7 to the missing class 42. *)
Lemma refused_mutation_writes_nothing_witness :
  fst (handle sample_missing_link sample_world)
  = Val {| status := 404; body := Message "Class not found" |} /\
  committed (snd (handle sample_missing_link sample_world)) = committed sample_world.
Proof.
  split; [ reflexivity | ].
  apply (refused_mutation_writes_nothing sample_missing_link sample_world
           {| status := 404; body := Message "Class not found" |});
    [ reflexivity | right; right; left; reflexivity ].
Defined.

(** X4 at the delete of news item 7, seen from owner 8. *)
Lemma mutation_touches_only_its_owner_witness :
  links_of 8 (link_table NewsOwner (committed (snd (handle (NewsDelete aslab "7") sample_world))))
  = links_of 8 (link_table NewsOwner (committed sample_world)) /\
  news_of 8 (committed (snd (handle (NewsDelete aslab "7") sample_world)))
  = news_of 8 (committed sample_world).
Proof.
  apply (mutation_touches_only_its_owner (NewsDelete aslab "7") NewsOwner "7" aslab 7 8
           sample_world); [ reflexivity | reflexivity | lia ].
Defined.

(** X6 at the link of news item 7 to class 3. *)
Lemma written_link_targets_exist_witness :
  includes entity_kinds "class" = true /\
  exists e, int4in "3" = Some e /\ entity_present "class" e (committed sample_world) = true.
Proof.
  apply (written_link_targets_exist (NewsLink aslab "7" "class" "3") sample_world
           {| status := 200; body := Message "Entity linked successfully" |});
    [ reflexivity | left; reflexivity | reflexivity ].
Defined.

(** X7 at the link of post 5 to class 3. *)
Lemma link_answered_200_holds_the_row_witness :
  links_of 5 (link_table PostOwner
                (committed (snd (handle (link_request PostOwner creator "5" "class" "3")
                                   sample_world))))
  = [{| link_owner := 5; entity_type := "class"; entity_id := 3 |}].
Proof.
  apply (link_answered_200_holds_the_row PostOwner creator "5" "class" "3" 5 3 sample_world
           {| status := 200; body := Message "Entity linked successfully" |});
    [ reflexivity | reflexivity | reflexivity | reflexivity | simpl; lia ].
Defined.

(** X8 at the unlink of news item 7. *)
Lemma unlink_clears_and_repeats_witness :
  int4in "7" = Some 7 /\
  fst (handle (unlink_request NewsOwner aslab "7") sample_world)
  = Val {| status := 200; body := Message "Entity link removed successfully" |}.
Proof.
  split; [ reflexivity | ].
  assert (int4in "7" = Some 7) as Hi by reflexivity.
  apply (proj2 (unlink_clears_and_repeats NewsOwner aslab "7" 7 sample_world Hi) 1);
    reflexivity.
Defined.

Lemma sample_post_update_accepted :
  posts_update_accepted creator "5" (post_body (Some "class") (Some "3")) None sample_world.
Proof.
  unfold posts_update_accepted.
  split; [ reflexivity | ]. split; [ reflexivity | ].
  split; [ exists 5; eexists; exists []; repeat split; try reflexivity; discriminate | ].
  split; [ vm_compute; discriminate | ].
  intros _. exists 3. split; reflexivity.
Qed.

(** X9 at the update of news item 7 with a title of 100 characters and two
    spaces and a link to class 3, and at the update of post 5 with a link to
    class 3: the title is stored without the spaces. *)
Lemma committed_update_stores_the_request_witness :
  (news_of 7 (committed (snd (news_update aslab "7" sample_padded_body None sample_world)))
   = [ {| news_id := 7; news_title := replicate 100 "x"; news_content := "...";
          news_image_url := None; news_created_by := 1 |} ]
   /\ Forall (fun n => varchar 100 (text (title sample_padded_body)) = Some (news_title n)
                       /\ news_content n = text (content sample_padded_body))
        (news_of 7 (committed (snd (news_update aslab "7" sample_padded_body None
                                      sample_world))))
   /\ exists e, int4in "3" = Some e /\
        links_of 7 (news_entities
                      (committed (snd (news_update aslab "7" sample_padded_body None
                                         sample_world))))
        = [{| link_owner := 7; entity_type := "class"; entity_id := e |}])
  /\ (fst (posts_update creator "5" (post_body (Some "class") (Some "3")) None sample_world)
      = Val {| status := 500; body := Message "Server error" |}
      /\ Forall (fun p => post_content p = "halo")
           (posts_of 5 (committed (snd (posts_update creator "5"
                                          (post_body (Some "class") (Some "3")) None
                                          sample_world))))).
Proof.
  assert (int4in "7" = Some 7) as H7 by reflexivity.
  assert (int4in "5" = Some 5) as H5 by reflexivity.
  split.
  - split; [ vm_compute; reflexivity | ].
    destruct (proj1 (committed_update_stores_the_request aslab "7" 7 None sample_world H7)
                    sample_padded_body
                    {| status := 200;
                       body := NewsJson (Some {| news_id := 7;
                                                 news_title := replicate 100 "x";
                                                 news_content := "...";
                                                 news_image_url := None;
                                                 news_created_by := 1 |}) |})
      as (_ & Hrows & _ & Hlink);
      [ vm_compute; reflexivity | reflexivity | simpl; lia | ].
    split; [ exact Hrows | apply Hlink; reflexivity ].
  - destruct (proj1 (proj2 (proj2 (committed_update_stores_the_request creator "5" 5 None
                                     sample_world H5)))
                    (post_body (Some "class") (Some "3")) sample_post_update_accepted)
      as (Hr & _ & Hrows & _); [ simpl; lia | ].
    split; [ exact Hr | exact Hrows ].
Defined.

(** X10 over [sample_requests]. *)
Lemma keys_and_references_are_kept_witness :
  store_consistent (news_id_seq (serve sample_requests sample_world))
    (posts_id_seq (serve sample_requests sample_world))
    (committed (serve sample_requests sample_world)).
Proof.
  apply (keys_and_references_are_kept sample_requests sample_world).
  exact sample_world_consistent.
Defined.

(** X11 at a news item and at a post linked to class 3: the item is stored
    under key 8 and answered, the post is stored under key 6 and the answer
    is 500. *)
Lemma create_stores_the_request_witness :
  (news_id_seq sample_world <= 2147483647 /\ posts_id_seq sample_world <= 2147483647)
  /\ fst (handle (NewsCreate aslab (news_body (Some "class") (Some "3")) None) sample_world)
     = Val {| status := 201;
              body := NewsJson (Some (created_news 8 aslab
                                        (news_body (Some "class") (Some "3")) None)) |}
  /\ (fst (handle (PostsCreate creator (post_body (Some "class") (Some "3")) None)
             sample_world)
      = Val {| status := 500; body := Message "Server error" |}
      /\ posts_of 6 (committed (snd (handle (PostsCreate creator
                                               (post_body (Some "class") (Some "3")) None)
                                       sample_world)))
         = [ created_post 6 creator (post_body (Some "class") (Some "3")) None ]
      /\ links_of 6 (posts_entities
                       (committed (snd (handle (PostsCreate creator
                                                  (post_body (Some "class") (Some "3")) None)
                                          sample_world))))
         = [{| link_owner := 6; entity_type := "class"; entity_id := 3 |}]).
Proof.
  assert (news_id_seq sample_world <= 2147483647) as Hn by (simpl; lia).
  assert (posts_id_seq sample_world <= 2147483647) as Hp by (simpl; lia).
  split; [ split; assumption | ].
  destruct (create_stores_the_request aslab None sample_world sample_world_consistent)
    as (Hnews & _).
  destruct (create_stores_the_request creator None sample_world sample_world_consistent)
    as (_ & Hposts & _).
  split.
  - apply (Hnews (news_body (Some "class") (Some "3")) sample_create_accepted Hn).
  - destruct (Hposts (post_body (Some "class") (Some "3")) sample_posts_create_accepted Hp)
      as (Hr & _ & Hd).
    split; [ exact Hr | ]. rewrite Hd. split; reflexivity.
Defined.

(** X12 at the read of news item 7. *)
Lemma news_get_shows_the_stored_link_witness :
  fst (news_get "7" sample_world)
  = Val {| read_status := 200; read_body := NewsItem sample_view |} /\
  exists v,
    read_body {| read_status := 200; read_body := NewsItem sample_view |} = NewsItem v /\
    int4in "7" = Some (news_id (view_news v)).
Proof.
  split; [ reflexivity | ].
  assert (fst (news_get "7" sample_world)
          = Val {| read_status := 200; read_body := NewsItem sample_view |}) as Hr
      by reflexivity.
  destruct (news_get_shows_the_stored_link "7" sample_world
              {| read_status := 200; read_body := NewsItem sample_view |}
              Hr eq_refl) as (v & Hb & Hi & _).
  exists v. split; assumption.
Defined.

(** X14 at the listings of the sample data for class 3 and module 3. *)
Lemma listed_news_have_one_target_witness :
  Forall (fun v => linked_type v = "class" /\ int4in "3" = Some (linked_id v) /\
                   In (linked_news v) (news (committed sample_world)) /\
                   In {| link_owner := news_id (linked_news v); entity_type := "class";
                         entity_id := linked_id v |}
                      (news_entities (committed sample_world)))
         sample_listing.
Proof.
  apply Forall_forall.
  assert (fst (news_for latest_first "class" "3" sample_world)
          = Val {| read_status := 200; read_body := LinkedNewsList sample_listing |}) as H1
      by reflexivity.
  assert (fst (news_for latest_first "module" "3" sample_world)
          = Val {| read_status := 200; read_body := LinkedNewsList [] |}) as H2
      by reflexivity.
  apply (proj1 (listed_news_have_one_target latest_first latest_first_permutes
                  "class" "3" "module" "3" sample_world sample_listing []
                  H1 H2 sample_links_ok)).
Defined.

(** X15 at the two listings for class 3. *)
Lemma listing_routes_agree_witness :
  Permutation [ ({| news_id := 7; news_title := "Midterm info"; news_content := "...";
                    news_image_url := None; news_created_by := 1 |}, "ani") ]
              (map (fun v => (linked_news v, linked_author v)) sample_listing).
Proof.
  apply (listing_routes_agree latest_first "class" "3" sample_world sample_listing);
    reflexivity.
Defined.

(** X16 at a news item linked to class 3, read back under key 8. *)
Lemma created_news_is_read_back_witness :
  exists v,
    fst (news_get "8"
           (snd (handle (NewsCreate aslab (news_body (Some "class") (Some "3")) None)
                   sample_world)))
    = Val {| read_status := 200; read_body := NewsItem v |} /\
    view_news v = created_news 8 aslab (news_body (Some "class") (Some "3")) None /\
    view_link v = Some {| link_owner := 8; entity_type := "class"; entity_id := 3 |}.
Proof.
  assert (int4in "8" = Some 8) as Hi by reflexivity.
  apply (created_news_is_read_back aslab (news_body (Some "class") (Some "3")) None "8"
           sample_world sample_world_consistent sample_create_accepted Hi).
Defined.

(** X17 at news item 7, linked to class 3 again and then read. *)
Lemma news_get_follows_link_and_unlink_witness :
  exists v,
    read_body {| read_status := 200; read_body := NewsItem sample_view |} = NewsItem v /\
    view_link v = Some {| link_owner := 7; entity_type := "class"; entity_id := 3 |}.
Proof.
  assert (int4in "7" = Some 7) as Hi by reflexivity.
  apply (proj1 (news_get_follows_link_and_unlink aslab "7" 7 sample_world
                  {| status := 200; body := Message "Entity linked successfully" |}
                  Hi eq_refl) "class" "3" 3);
    [ reflexivity | reflexivity | simpl; lia | reflexivity | reflexivity ].
Defined.

(** X18 at the delete of news item 7. *)
Lemma deleted_news_is_not_found_witness :
  fst (news_get "7" (snd (handle (NewsDelete aslab "7") sample_world)))
  = Val {| read_status := 404; read_body := ReadMessage "News not found" |}.
Proof.
  apply (deleted_news_is_not_found aslab "7" 7 sample_world
           {| status := 200; body := Message "News deleted successfully" |});
    reflexivity.
Defined.

(** X19 at [GET /with-entity]. *)
Lemma get_by_text_key_answers_500_witness :
  int4in "with-entity" = None /\
  exists ps,
    dispatch news_router GET ["with-entity"] = Some (GetNewsById, ps) /\
    read_request GetNewsById ps = Some (GetById "with-entity") /\
    fst (read latest_first (GetById "with-entity") sample_world)
    = Val {| read_status := 500; read_body := ReadMessage "Server error" |} /\
    committed (snd (read latest_first (GetById "with-entity") sample_world))
    = committed sample_world.
Proof.
  split; [ reflexivity | ].
  apply (get_by_text_key_answers_500 latest_first "with-entity" sample_world);
    [ apply String.eqb_neq; reflexivity | reflexivity ].
Defined.

Lemma enrolled_latest_first_permutes l : Permutation (enrolled_latest_first l) l.
Proof. apply Permutation_sym, Permutation_rev. Qed.

Lemma sample_campus_world_ok : campus_world_ok sample_campus_world.
Proof.
  unfold campus_world_ok, campus_ok. simpl.
  split; [ repeat constructor; simpl; tauto | ].
  split; [ intros k [<- | []]; simpl; split; [ lia | tauto ] | ].
  split; [ repeat constructor; simpl; tauto | ].
  split; [ repeat constructor; simpl; tauto | ].
  split; [ intros e [<- | []]; simpl; split; [ lia | tauto ] | ].
  split; [ intros f k [<- | []]; simpl; intros [= <-]; tauto | ].
  split; [ intros m k [<- | []]; simpl; intros [= <-]; tauto | ].
  split; [ intros m k [<- | []]; simpl; intros [= <-]; tauto | ].
  split; [ intros m k [<- | []]; simpl; intros [= <-]; tauto | ].
  split; intros m k [<- | []]; simpl; intros [= <-]; tauto.
Qed.

(** The policy at the delete of class 3 by user 1, who did not create it. *)
Lemma class_policy_is_creator_or_aslab_witness :
  exists resp,
    fst (class_handle enrolled_latest_first (ClassDelete creator "3") sample_campus_world)
    = Val resp /\
    (class_status resp = 403 <-> canMutate (user_id creator) (user_role creator) 2 = false).
Proof.
  apply (class_policy_is_creator_or_aslab enrolled_latest_first (ClassDelete creator "3")
           "3" creator 3 2 sample_campus_world); reflexivity.
Defined.

(** The references over [sample_class_requests]. *)
Lemma campus_references_are_kept_witness :
  campus_world_ok (class_serve enrolled_latest_first sample_class_requests
                     sample_campus_world).
Proof.
  apply (campus_references_are_kept enrolled_latest_first sample_class_requests
           sample_campus_world sample_campus_world_ok).
Defined.

(** The cascade at the delete of class 3. *)
Lemma class_delete_cascades_witness :
  classes_of 3 (campus (snd (class_handle enrolled_latest_first (ClassDelete aslab "3")
                               sample_campus_world))) = [] /\
  Forall (fun e => enr_class e <> 3)
         (enrollments (campus (snd (class_handle enrolled_latest_first
                                      (ClassDelete aslab "3") sample_campus_world)))).
Proof.
  assert (int4in "3" = Some 3) as Hi by reflexivity.
  destruct (class_delete_cascades enrolled_latest_first aslab "3" 3 sample_campus_world
              {| class_status := 200; class_answer := ClassMessage "Class deleted successfully" |}
              Hi eq_refl eq_refl) as (H1 & H2 & _).
  split; assumption.
Defined.

(** The enrollment of user 2 in class 3, made twice. *)
Lemma enrolling_twice_is_refused_witness :
  enrollments (campus (snd (class_handle enrolled_latest_first (ClassEnroll aslab "3")
                              sample_campus_world)))
  = (enrollments sample_campus ++ [{| enr_id := 2; enr_class := 3; enr_user := 2 |}])%list.
Proof.
  assert (int4in "3" = Some 3) as Hi by reflexivity.
  destruct (enrolling_twice_is_refused enrolled_latest_first aslab "3" 3 sample_campus_world
              {| class_status := 201; class_answer := ClassMessage "Enrolled successfully" |}
              Hi eq_refl eq_refl) as (_ & _ & H & _).
  exact H.
Defined.

(** The classes of user 1. *)
Lemma enrolled_classes_are_listed_witness :
  In (sample_class, "budi") [(sample_class, "budi")] <->
  In sample_class (campus_classes (campus sample_campus_world)) /\
  (exists x, In x (campus_users (campus sample_campus_world))
             /\ class_created_by sample_class = usr_id x /\ usr_username x = "budi") /\
  (exists e, In e (enrollments (campus sample_campus_world))
             /\ enr_class e = class_id sample_class /\ enr_user e = user_id creator).
Proof.
  apply (enrolled_classes_are_listed enrolled_latest_first enrolled_latest_first_permutes
           creator sample_campus_world [(sample_class, "budi")]).
  reflexivity.
Defined.

(** The create of a class by user 2 with a title of 60 characters in 120
    bytes, read back under key 4. *)
Lemma created_class_is_read_back_witness :
  String.length (text sample_wide_title) = 120%nat /\
  exists row name,
    class_id row = 4 /\ class_title row = text sample_wide_title /\
    class_created_by row = 2 /\
    fst (class_handle enrolled_latest_first (ClassGet "4")
           (snd (class_handle enrolled_latest_first (ClassCreate aslab sample_wide_body None)
                   sample_campus_world)))
    = Val {| class_status := 200; class_answer := ClassWithCreator row name |}.
Proof.
  split; [ reflexivity | ].
  assert (int4in "4" = Some 4) as Hi by reflexivity.
  assert (fst (class_handle enrolled_latest_first (ClassCreate aslab sample_wide_body None)
                 sample_campus_world)
          = Val {| class_status := 201;
                   class_answer :=
                     ClassJson (Some {| class_id := 4;
                                        class_title := text sample_wide_title;
                                        class_description := None;
                                        class_image_url := None;
                                        class_created_by := 2 |}) |}) as Hr
      by (vm_compute; reflexivity).
  destruct (created_class_is_read_back enrolled_latest_first aslab sample_wide_body None "4"
              sample_campus_world _ sample_campus_world_ok Hr eq_refl Hi eq_refl)
    as (row & name & Hresp & H1 & _ & _ & H3 & _ & _ & H4).
  exists row, name. injection Hresp as <-. repeat split; assumption.
Defined.

(** The create of a news item with a title of 101 characters. *)
Lemma overlong_title_is_not_stored_witness :
  (utf8_chars (text sample_long_title) = Some (repeat "x" 101)
   /\ (100 < List.length (repeat "x" 101))%nat
   /\ forallb (String.eqb " ") (skipn 100 (repeat "x" 101)) = false)
  /\ fst (handle (NewsCreate aslab sample_long_body None) sample_world)
     = Val {| status := 500; body := Message "Server error" |}
  /\ committed (snd (handle (NewsCreate aslab sample_long_body None) sample_world))
     = committed sample_world
  /\ news_id_seq (snd (handle (NewsCreate aslab sample_long_body None) sample_world)) = 8.
Proof.
  assert (utf8_chars (text sample_long_title) = Some (repeat "x" 101)) as Hcs
      by (vm_compute; reflexivity).
  assert (100 < List.length (repeat "x" 101))%nat as Hlen by (vm_compute; lia).
  assert (forallb (String.eqb " ") (skipn 100 (repeat "x" 101)) = false) as Hsp
      by (vm_compute; reflexivity).
  split; [ repeat split; assumption | ].
  split; [ vm_compute; reflexivity | ].
  apply (proj1 (overlong_title_is_not_stored aslab None sample_long_title _ Hcs Hlen Hsp)
               sample_long_body sample_world
               {| status := 500; body := Message "Server error" |});
    [ reflexivity | vm_compute; reflexivity ].
Defined.

Lemma sample_read_keys_ok : read_keys_ok (committed sample_world).
Proof.
  unfold read_keys_ok. simpl.
  repeat split; try (repeat constructor; simpl; intuition lia).
  - intros o. unfold links_of. cbn [filter link_owner].
    destruct (7 =? o); cbn [List.length]; lia.
Qed.

(** The read of news item 7. *)
Lemma read_by_key_has_one_row_witness :
  (List.length (filter (fun v => (news_id (view_news v) =? 7)%Z)
                       (news_joined (committed sample_world))) <= 1)%nat.
Proof.
  assert (int4in "7" = Some 7) as Hi by reflexivity.
  exact (proj1 (read_by_key_has_one_row "7" 7 sample_world Hi sample_read_keys_ok)).
Defined.

(** The update of news item 7 with a title of 100 characters and two
    spaces: the answer carries the title without the spaces. *)
Lemma update_answers_with_the_stored_record_witness :
  exists n,
    NewsJson (Some {| news_id := 7; news_title := replicate 100 "x";
                      news_content := "..."; news_image_url := None;
                      news_created_by := 1 |})
    = NewsJson (Some n) /\
    In n (news (committed
                  (snd (handle (NewsUpdate aslab "7" sample_padded_body None)
                          sample_world)))) /\
    int4in "7" = Some (news_id n) /\
    varchar 100 (text (title sample_padded_body)) = Some (news_title n) /\
    news_content n = text (content sample_padded_body).
Proof.
  apply (proj1 (update_answers_with_the_stored_record aslab "7" None sample_world
                  sample_world_consistent)
               sample_padded_body
               {| status := 200;
                  body := NewsJson (Some {| news_id := 7; news_title := replicate 100 "x";
                                            news_content := "..."; news_image_url := None;
                                            news_created_by := 1 |}) |});
    [ vm_compute; reflexivity | reflexivity ].
Defined.
